(** * Notification lifecycle of the palliative-care mobile client

    A shallow embedding of [src/screens/NotificationHistoryScreen.tsx] and
    [src/services/NotificationService.ts], and the properties the
    specification states about them.

    Conventions of the embedding:
    - a JavaScript value of type [any] is a [JSValue]; numbers are integers
      (epoch milliseconds and second counts are integral in the source);
      where the service computes a delay from a [Date], the date can be
      invalid and the number [NaN], and a result beyond [2 ^ 53] is rounded
      as a double is;
    - an [async] function is a computation in the monad [M]: it threads a
      world and either returns or throws, so that [try]/[catch] and a
      rejected promise are part of the model;
    - the world of the screen holds the persisted storage, the list held in
      component state, and a trace of the effects in the order they are
      issued; [Date.now()] and the fate of each AsyncStorage call are read
      from oracles of the world, one answer per call;
    - the service reads the device, the platform and the backend from an
      environment [Env], whose fields are the answers its calls get. *)

From Stdlib Require Import ZArith String List Bool Lia.
From stdpp Require Import base option list gmap strings pretty.

Import ListNotations.
Local Open Scope string_scope.
Local Open Scope list_scope.
Local Open Scope Z_scope.
Set Warnings "-register-all".

(** ** JavaScript values *)

Module JS.

(** The values a notification payload, a JSON document or a field typed
    [any] can hold. *)
Inductive JSValue : Type :=
| JUndefined
| JNull
| JBool (b : bool)
| JNum (n : Z)
| JStr (s : string)
| JArr (items : list JSValue)
| JObj (fields : list (string * JSValue)).

(** What a [throw] carries: an error object and its optional [message]. *)
Record JSError : Type := Error { message : option string }.

(** ToBoolean. *)
Definition truthy (v : JSValue) : bool :=
  match v with
  | JUndefined | JNull => false
  | JBool b => b
  | JNum n => negb (n =? 0)
  | JStr s => negb (String.eqb s "")
  | JArr _ | JObj _ => true
  end.

(** [a || b]. *)
Definition js_or (a b : JSValue) : JSValue := if truthy a then a else b.

(** [a === b] where one side was produced by [JSON.parse] or by the
    native bridge: two objects or arrays are then never the same
    reference. *)
Definition strict_eq (a b : JSValue) : bool :=
  match a, b with
  | JUndefined, JUndefined => true
  | JNull, JNull => true
  | JBool x, JBool y => Bool.eqb x y
  | JNum x, JNum y => x =? y
  | JStr x, JStr y => String.eqb x y
  | _, _ => false
  end.

Fixpoint assoc (k : string) (fields : list (string * JSValue)) : JSValue :=
  match fields with
  | [] => JUndefined
  | (k', v) :: rest => if String.eqb k k' then v else assoc k rest
  end.

(** [v.k] for an own data property: [None] is the TypeError of reading a
    property of [undefined] or [null]. *)
Definition get (v : JSValue) (k : string) : option JSValue :=
  match v with
  | JUndefined | JNull => None
  | JObj fields => Some (assoc k fields)
  | _ => Some JUndefined
  end.

(** [v?.k]. *)
Definition opt_get (v : JSValue) (k : string) : JSValue :=
  match get v k with
  | Some x => x
  | None => JUndefined
  end.

(** [s || d] for [s : string | null]. *)
Definition str_or (s : option string) (d : string) : string :=
  match s with
  | Some x => if String.eqb x "" then d else x
  | None => d
  end.

(** [hay.includes(needle)]. *)
Fixpoint includes (needle hay : string) : bool :=
  String.prefix needle hay ||
  match hay with
  | EmptyString => false
  | String _ rest => includes needle rest
  end.

End JS.
Import JS.

(** ** Computations that return or throw *)

Section Monad.
Context {W : Type}.

Inductive Outcome (A : Type) : Type :=
| Returned (a : A)
| Thrown (e : JSError).
#[global] Arguments Returned {A} a.
#[global] Arguments Thrown {A} e.

Definition M (A : Type) : Type := W -> Outcome A * W.

Definition ret {A} (a : A) : M A := fun w => (Returned a, w).

Definition bind {A B} (c : M A) (k : A -> M B) : M B :=
  fun w =>
    match c w with
    | (Returned a, w') => k a w'
    | (Thrown e, w') => (Thrown e, w')
    end.

Definition throw {A} (e : JSError) : M A := fun w => (Thrown e, w).

(** [try { body } catch (e) { handler(e) }]. *)
Definition try_catch {A} (body : M A) (handler : JSError -> M A) : M A :=
  fun w =>
    match body w with
    | (Returned a, w') => (Returned a, w')
    | (Thrown e, w') => handler e w'
    end.

Definition modify (f : W -> W) : M unit := fun w => (Returned tt, f w).

Definition exec {A} (c : M A) (w : W) : W := snd (c w).
Definition result {A} (c : M A) (w : W) : Outcome A := fst (c w).
End Monad.
#[global] Arguments M : clear implicits.

Declare Scope js_scope.
Delimit Scope js_scope with js.
Notation "x <- c ;; k" := (bind c (fun x => k))
  (at level 100, c at next level, right associativity) : js_scope.
Notation "c ;;; k" := (bind c (fun _ => k))
  (at level 100, right associativity) : js_scope.
Local Open Scope js_scope.

(** ** [src/context/AuthContext.tsx]: the signed-in user *)

Module Auth.
Inductive UserRole : Type := RoleUser | RoleDoctor | RoleNurse | RoleAdmin.

Record User : Type := {
  id : string;
  username : string;
  full_name : string;
  email : string;
  role : option UserRole;
}.
End Auth.

(** ** [src/screens/NotificationHistoryScreen.tsx] *)

Module HistoryScreen.

Record NotificationRecord : Type := {
  id : string;
  title : string;
  body : string;
  data : JSValue;
  timestamp : Z;
  read : bool;
  type : JSValue;
}.

(** [Notifications.Notification], as far as the screen reads it:
    [notification.request.identifier] and [notification.request.content]. *)
Record NotificationContent : Type := {
  content_title : option string;
  content_body : option string;
  content_data : JSValue;
}.
Record NotificationRequest : Type := {
  identifier : string;
  content : NotificationContent;
}.
Record Notification : Type := { request : NotificationRequest }.

(** The effects of the component, in the order they are issued. *)
Inductive Event : Type :=
| ConsoleError (msg : string)
| GetItem (key : string)
| SetItem (key : string) (value : list NotificationRecord)
| RemoveItem (key : string)
| SetNotifications (value : list NotificationRecord)
| Navigate (name screen : string).

(** - [storage]: AsyncStorage; the JSON text under a key is kept as the
      array of records it parses to, and a missing key is [null];
    - [notifications]: the component's [useState] value;
    - [clock], [reads]: the [reads]-th call of [Date.now()] returns
      [clock reads];
    - [disk], [ops]: the [ops]-th AsyncStorage call is fulfilled when
      [disk ops] is true and rejected otherwise;
    - [trace]: the effects issued so far, oldest first. *)
Record World : Type := {
  storage : gmap string (list NotificationRecord);
  notifications : list NotificationRecord;
  clock : nat -> Z;
  reads : nat;
  disk : nat -> bool;
  ops : nat;
  trace : list Event;
}.

Definition emit (e : Event) (w : World) : World :=
  {| storage := storage w; notifications := notifications w;
     clock := clock w; reads := reads w; disk := disk w; ops := ops w;
     trace := trace w ++ [e] |}.

Definition with_storage (s : gmap string (list NotificationRecord)) (w : World) : World :=
  {| storage := s; notifications := notifications w;
     clock := clock w; reads := reads w; disk := disk w; ops := ops w;
     trace := trace w |}.

Definition with_notifications (l : list NotificationRecord) (w : World) : World :=
  {| storage := storage w; notifications := l;
     clock := clock w; reads := reads w; disk := disk w; ops := ops w;
     trace := trace w |}.

Definition with_reads (k : nat) (w : World) : World :=
  {| storage := storage w; notifications := notifications w;
     clock := clock w; reads := k; disk := disk w; ops := ops w;
     trace := trace w |}.

Definition next_read (w : World) : World := with_reads (S (reads w)) w.

Definition next_op (w : World) : World :=
  {| storage := storage w; notifications := notifications w;
     clock := clock w; reads := reads w; disk := disk w; ops := S (ops w);
     trace := trace w |}.

(** [Date.now()]. *)
Definition Date_now : M World Z :=
  fun w => (Returned (clock w (reads w)), next_read w).

Definition console_error (msg : string) : M World unit :=
  modify (emit (ConsoleError msg)).

Definition rejected : JSError := Error (Some "AsyncStorage rejected").

(** [await AsyncStorage.getItem(key)]. *)
Definition AsyncStorage_getItem (key : string) : M World (option (list NotificationRecord)) :=
  fun w =>
    let w' := next_op (emit (GetItem key) w) in
    if disk w (ops w) then (Returned (storage w !! key), w') else (Thrown rejected, w').

(** [AsyncStorage.setItem(key, JSON.stringify(value))] is issued in
    [setItem_call] and settles in [setItem_settle], where the write lands
    or the promise is rejected; [await] runs one after the other. *)
Definition setItem_call (key : string) (value : list NotificationRecord) : M World unit :=
  modify (emit (SetItem key value)).

Definition setItem_settle (key : string) (value : list NotificationRecord) : M World unit :=
  fun w =>
    if disk w (ops w)
    then (Returned tt, with_storage (<[key := value]> (storage w)) (next_op w))
    else (Thrown rejected, next_op w).

Definition AsyncStorage_setItem (key : string) (value : list NotificationRecord) : M World unit :=
  setItem_call key value ;;; setItem_settle key value.

(** [await AsyncStorage.removeItem(key)]. *)
Definition AsyncStorage_removeItem (key : string) : M World unit :=
  fun w =>
    let w' := next_op (emit (RemoveItem key) w) in
    if disk w (ops w)
    then (Returned tt, with_storage (delete key (storage w)) w')
    else (Thrown rejected, w').

Definition setNotifications (value : list NotificationRecord) : M World unit :=
  modify (fun w => with_notifications value (emit (SetNotifications value) w)).

Definition get_notifications : M World (list NotificationRecord) :=
  fun w => (Returned (notifications w), w).

Definition navigate (name screen : string) : M World unit :=
  modify (emit (Navigate name screen)).

(** [`notifications_${user?.id}`]. *)
Definition storageKey (user : option Auth.User) : string :=
  ("notifications_" ++
   match user with
   | Some u => Auth.id u
   | None => "undefined"
   end)%string.

(** [list.sort((a, b) => b.timestamp - a.timestamp)]: the sort is stable,
    a record moves in front of those with a strictly smaller timestamp. *)
Fixpoint insert_desc (x : NotificationRecord) (l : list NotificationRecord) : list NotificationRecord :=
  match l with
  | [] => [x]
  | y :: rest =>
      if timestamp x <? timestamp y then y :: insert_desc x rest else x :: y :: rest
  end.

Definition sort_desc (l : list NotificationRecord) : list NotificationRecord :=
  foldr insert_desc [] l.

Definition loadNotificationHistory (user : option Auth.User) : M World unit :=
  try_catch
    (stored <- AsyncStorage_getItem (storageKey user) ;;
     match stored with
     | Some parsed => setNotifications (sort_desc parsed)
     | None => ret tt
     end)
    (fun _ => console_error "Error loading notification history:").

(** The record [addNotificationToHistory] builds from the inbound
    notification and the reading [now] of [Date.now()]. *)
Definition newNotif (notification : Notification) (now : Z) : NotificationRecord :=
  let c := content (request notification) in
  {| id := identifier (request notification);
     title := str_or (content_title c) "Notification";
     body := str_or (content_body c) "";
     data := content_data c;
     timestamp := now;
     read := false;
     type := js_or (opt_get (content_data c) "type") (JStr "other") |}.

(** The predicate of [existing.find]: [&&] stops at the first false
    conjunct, so the clock is read only for a chat record of the same
    conversation. *)
Definition isRecentChat (conversationId : JSValue) (n : NotificationRecord) : M World bool :=
  if strict_eq (type n) (JStr "chat")
     && strict_eq (opt_get (data n) "conversationId") conversationId
  then now <- Date_now ;; ret (now - timestamp n <? 60000)
  else ret false.

Fixpoint find (p : NotificationRecord -> M World bool) (l : list NotificationRecord)
  : M World (option NotificationRecord) :=
  match l with
  | [] => ret None
  | n :: rest => hit <- p n ;; if hit then ret (Some n) else find p rest
  end.

(** [{ ...n, body, timestamp }]. *)
Definition with_body_timestamp (n : NotificationRecord) (b : string) (t : Z) : NotificationRecord :=
  {| id := id n; title := title n; body := b; data := data n;
     timestamp := t; read := read n; type := type n |}.

(** [{ ...n, read: true }]. *)
Definition with_read_true (n : NotificationRecord) : NotificationRecord :=
  {| id := id n; title := title n; body := body n; data := data n;
     timestamp := timestamp n; read := true; type := type n |}.

(** [existing.map(n => n.id === recentChat.id ? { ...n, body, timestamp } : n)]. *)
Definition refreshed (existing : list NotificationRecord) (recentChat newNotif : NotificationRecord)
  : list NotificationRecord :=
  map (fun n => if String.eqb (id n) (id recentChat)
                then with_body_timestamp n (body newNotif) (timestamp newNotif)
                else n) existing.

(** [[newNotif, ...existing].slice(0, 100)]. *)
Definition prepended (existing : list NotificationRecord) (newNotif : NotificationRecord)
  : list NotificationRecord :=
  firstn 100 (newNotif :: existing).

Definition addNotificationToHistory (user : option Auth.User) (notification : Notification)
  : M World unit :=
  try_catch
    (now <- Date_now ;;
     let newNotif := newNotif notification now in
     stored <- AsyncStorage_getItem (storageKey user) ;;
     let existing := match stored with Some parsed => parsed | None => [] end in
     let append :=
       let updated := prepended existing newNotif in
       AsyncStorage_setItem (storageKey user) updated ;;;
       setNotifications updated in
     if strict_eq (type newNotif) (JStr "chat") then
       let conversationId := opt_get (data newNotif) "conversationId" in
       recentChat <- find (isRecentChat conversationId) existing ;;
       match recentChat with
       | Some recentChat =>
           let updated := refreshed existing recentChat newNotif in
           AsyncStorage_setItem (storageKey user) updated ;;;
           setNotifications (sort_desc updated)
       | None => append
       end
     else append)
    (fun _ => console_error "Error adding notification to history:").

(** [notifications.map(n => n.id === id ? { ...n, read: true } : n)]. *)
Definition marked (notifications : list NotificationRecord) (id' : string)
  : list NotificationRecord :=
  map (fun n => if String.eqb (id n) id' then with_read_true n else n) notifications.

(** [markAsRead] up to its [await]: the part that runs inside the
    caller's turn when the call is not awaited. It returns the list whose
    write is pending. *)
Definition markAsRead_sync (user : option Auth.User) (id' : string)
  : M World (list NotificationRecord) :=
  notifications <- get_notifications ;;
  let updated := marked notifications id' in
  setNotifications updated ;;;
  setItem_call (storageKey user) updated ;;;
  ret updated.

(** [markAsRead] from its [await] on, inside its [try]/[catch]. *)
Definition markAsRead_resume (user : option Auth.User) (updated : list NotificationRecord)
  : M World unit :=
  try_catch
    (setItem_settle (storageKey user) updated)
    (fun _ => console_error "Error marking as read:").

Definition markAsRead (user : option Auth.User) (id' : string) : M World unit :=
  updated <- markAsRead_sync user id' ;;
  markAsRead_resume user updated.

Definition clearAll (user : option Auth.User) : M World unit :=
  try_catch
    (AsyncStorage_removeItem (storageKey user) ;;;
     setNotifications [])
    (fun _ => console_error "Error clearing notifications:").

(** The [switch] of [handleNotificationPress]: the [screen] of
    [nav.navigate('MainTabs', { screen })], or no navigation. *)
Definition destination (t : JSValue) : option string :=
  if strict_eq t (JStr "chat") then Some "Chat"
  else if strict_eq t (JStr "medication") then Some "Medications"
  else if strict_eq t (JStr "prescription") then Some "Medications"
  else if strict_eq t (JStr "appointment") then Some "Home"
  else if strict_eq t (JStr "emergency") then Some "Maps"
  else None.

(** [markAsRead(notif.id)] is called without [await]: it runs up to its
    own [await], the [switch] navigates, and the suspended call resumes
    once the handler has returned. *)
Definition handleNotificationPress (user : option Auth.User) (notif : NotificationRecord)
  : M World unit :=
  pending <- markAsRead_sync user (id notif) ;;
  match destination (type notif) with
  | Some screen => navigate "MainTabs" screen
  | None => ret tt
  end ;;;
  markAsRead_resume user pending.

Section Format.
(** [new Date(timestamp).toLocaleDateString()]: the text depends on the
    locale and time zone of the device. *)
Variable toLocaleDateString : Z -> string.

Definition formatTimestamp (timestamp : Z) : M World string :=
  now <- Date_now ;;
  let diff := now - timestamp in
  if diff <? 60000 then ret "Just now"
  else if diff <? 3600000 then ret (pretty (diff / 60000) ++ "m ago")%string
  else if diff <? 86400000 then ret (pretty (diff / 3600000) ++ "h ago")%string
  else if diff <? 604800000 then ret (pretty (diff / 86400000) ++ "d ago")%string
  else ret (toLocaleDateString timestamp).
End Format.

(** *** Vocabulary of the statements about the screen *)

(** The list the screen finds under the user's key:
    [stored ? JSON.parse(stored) : []]. *)
Definition stored (user : option Auth.User) (w : World) : list NotificationRecord :=
  match storage w !! storageKey user with
  | Some parsed => parsed
  | None => []
  end.

(** Every AsyncStorage call from now on is fulfilled. *)
Definition reliable (w : World) : Prop := forall k, disk w k = true.

(** The world [w] observed at the instant [t]: every [Date.now()] of the
    next call reads [t]. *)
Definition at_time (t : Z) (w : World) : World :=
  {| storage := storage w; notifications := notifications w;
     clock := fun _ => t; reads := reads w; disk := disk w; ops := ops w;
     trace := trace w |}.

(** The first two conjuncts of the [find] predicate. *)
Definition isChat (n : NotificationRecord) : bool := strict_eq (type n) (JStr "chat").

Definition sameConversation (conversationId : JSValue) (n : NotificationRecord) : bool :=
  strict_eq (opt_get (data n) "conversationId") conversationId.

(** What [find (isRecentChat conversationId)] returns and how many clock
    readings it has consumed, when the next reading is the [k]-th. *)
Fixpoint scan (clock : nat -> Z) (k : nat) (conversationId : JSValue)
  (l : list NotificationRecord) : option NotificationRecord * nat :=
  match l with
  | [] => (None, k)
  | n :: rest =>
      if isChat n && sameConversation conversationId n then
        if clock k - timestamp n <? 60000 then (Some n, S k)
        else scan clock (S k) conversationId rest
      else scan clock k conversationId rest
  end.

(** The categories of [NotificationRecord.type] other than ['other']. *)
Definition recognized (tag : JSValue) : bool :=
  strict_eq tag (JStr "chat") || strict_eq tag (JStr "appointment")
  || strict_eq tag (JStr "medication") || strict_eq tag (JStr "emergency")
  || strict_eq tag (JStr "prescription").

(** The payload's category tag, [notification.request.content.data?.type]. *)
Definition tag_of (notification : Notification) : JSValue :=
  opt_get (content_data (content (request notification))) "type".

(** [notification.request.content.data?.conversationId]. *)
Definition conversation_of (notification : Notification) : JSValue :=
  opt_get (content_data (content (request notification))) "conversationId".

(** A primitive a payload can carry as a conversation id. *)
Definition carried (c : JSValue) : bool :=
  match c with
  | JNull | JBool _ | JNum _ | JStr _ => true
  | _ => false
  end.

(** The record the call matches, if any: the scan starts at the reading
    after the one that stamps the candidate. *)
Definition hit_of (user : option Auth.User) (notification : Notification) (w : World)
  : option NotificationRecord :=
  if isChat (newNotif notification (clock w (reads w)))
  then fst (scan (clock w) (S (reads w)) (conversation_of notification) (stored user w))
  else None.

(** The list the call persists. *)
Definition persisted (user : option Auth.User) (notification : Notification) (w : World)
  : list NotificationRecord :=
  let candidate := newNotif notification (clock w (reads w)) in
  match hit_of user notification w with
  | Some recentChat => refreshed (stored user w) recentChat candidate
  | None => prepended (stored user w) candidate
  end.

(** The list the call shows. *)
Definition shown (user : option Auth.User) (notification : Notification) (w : World)
  : list NotificationRecord :=
  match hit_of user notification w with
  | Some _ => sort_desc (persisted user notification w)
  | None => persisted user notification w
  end.


(** The world a call of [addNotificationToHistory] ends in when both of its
    AsyncStorage calls are fulfilled. *)
Definition after_add (user : option Auth.User) (notification : Notification) (w : World)
  : World :=
  let key := storageKey user in
  let w1 := next_op (emit (GetItem key) (next_read w)) in
  let w2 :=
    if isChat (newNotif notification (clock w (reads w)))
    then with_reads (snd (scan (clock w) (S (reads w)) (conversation_of notification)
                            (stored user w))) w1
    else w1 in
  let w3 := next_op (emit (SetItem key (persisted user notification w)) w2) in
  let w4 := with_storage (<[key := persisted user notification w]> (storage w3)) w3 in
  with_notifications (shown user notification w)
    (emit (SetNotifications (shown user notification w)) w4).

(** A chat record of the conversation [conversationId]. *)
Definition inConversation (conversationId : JSValue) (n : NotificationRecord) : bool :=
  isChat n && sameConversation conversationId n.

(** *** Sample values *)

Definition sample_user : option Auth.User :=
  Some {| Auth.id := "42"; Auth.username := "maria"; Auth.full_name := "Maria Silva";
          Auth.email := "maria@example.org"; Auth.role := Some Auth.RoleUser |}.

(** A notification whose payload is [{ type, conversationId }]. *)
Definition sample_notification (ident text tag conversation : string) : Notification :=
  {| request :=
       {| identifier := ident;
          content :=
            {| content_title := Some "Dr. Smith";
               content_body := Some text;
               content_data := JObj [("type", JStr tag);
                                     ("conversationId", JStr conversation)] |} |} |}.

(** A world with nothing stored, a working disk and the clock at [t]. *)
Definition quiet (t : Z) : World :=
  {| storage := ∅; notifications := []; clock := fun _ => t; reads := 0;
     disk := fun _ => true; ops := 0; trace := [] |}.

(** A notification whose payload is [{ type: 'medication', medicationName, dosage }]. *)
Definition sample_reminder (ident : string) : Notification :=
  {| request :=
       {| identifier := ident;
          content :=
            {| content_title := Some "Medication Reminder";
               content_body := Some "Time to take Aspirin (100mg)";
               content_data := JObj [("type", JStr "medication");
                                     ("medicationName", JStr "Aspirin");
                                     ("dosage", JStr "100mg")] |} |} |}.

(** The notifications of [l] are received one after the other, each at its
    instant. *)
Fixpoint receive_all (user : option Auth.User) (l : list (Z * Notification)) (w : World)
  : World :=
  match l with
  | [] => w
  | (t, n) :: rest =>
      receive_all user rest (exec (addNotificationToHistory user n) (at_time t w))
  end.

(** Ninety-nine reminders [m1] .. [m99], received at 1001 .. 1099. *)
Definition sample_burst : list (Z * Notification) :=
  map (fun k : nat => (1000 + Z.of_nat k, sample_reminder ("m" +:+ pretty k)))
      (seq 1 99).

(** *** The operations of the screen as a user and the platform trigger them *)

Inductive Action : Type :=
| Load
| Receive (notification : Notification)
| Read (id' : string)
| Clear
| Press (notif : NotificationRecord).

Definition perform (user : option Auth.User) (a : Action) : M World unit :=
  match a with
  | Load => loadNotificationHistory user
  | Receive notification => addNotificationToHistory user notification
  | Read id' => markAsRead user id'
  | Clear => clearAll user
  | Press notif => handleNotificationPress user notif
  end.

Fixpoint run (user : option Auth.User) (actions : list Action) (w : World) : World :=
  match actions with
  | [] => w
  | a :: rest => run user rest (exec (perform user a) w)
  end.

(** The screen over an empty store, for any behaviour of clock and disk. *)
Definition launch (clock : nat -> Z) (disk : nat -> bool) : World :=
  {| storage := ∅; notifications := []; clock := clock; reads := 0;
     disk := disk; ops := 0; trace := [] |}.

(** Every stored list and the list on screen hold at most 100 records. *)
Definition capped (w : World) : Prop :=
  (forall key l, storage w !! key = Some l -> (length l <= 100)%nat)
  /\ (length (notifications w) <= 100)%nat.

(** The list is ordered most recent first. *)
Definition recent_first (l : list NotificationRecord) : Prop :=
  forall i j a b, (i <= j)%nat -> l !! i = Some a -> l !! j = Some b ->
                  timestamp b <= timestamp a.

(** Each record is at least as recent as its successor. *)
Fixpoint descending (l : list NotificationRecord) : bool :=
  match l with
  | a :: (b :: _) as rest => (timestamp b <=? timestamp a) && descending rest
  | _ => true
  end.

(** *** What the screen renders *)

(** [notifications.filter(n => !n.read).length]. *)
Definition unreadCount (notifications : list NotificationRecord) : nat :=
  length (List.filter (fun n => negb (read n)) notifications).

(** The text of the banner, rendered when [unreadCount > 0]: the count,
    then [unread notification], then [s] unless the count is 1. *)
Definition unreadBanner (notifications : list NotificationRecord) : option string :=
  let unreadCount := unreadCount notifications in
  if (0 <? unreadCount)%nat
  then Some (pretty unreadCount ++ " unread notification"
             ++ (if (unreadCount =? 1)%nat then "" else "s"))%string
  else None.

Definition getNotificationIcon (type : JSValue) : string :=
  if strict_eq type (JStr "chat") then "chatbubbles"
  else if strict_eq type (JStr "medication") then "medical"
  else if strict_eq type (JStr "prescription") then "medical"
  else if strict_eq type (JStr "appointment") then "calendar"
  else if strict_eq type (JStr "emergency") then "alert-circle"
  else "notifications".

Definition getNotificationColor (type : JSValue) : string :=
  if strict_eq type (JStr "chat") then "#3498db"
  else if strict_eq type (JStr "medication") then "#2ecc71"
  else if strict_eq type (JStr "prescription") then "#2ecc71"
  else if strict_eq type (JStr "appointment") then "#667eea"
  else if strict_eq type (JStr "emergency") then "#e74c3c"
  else "#95a5a6".

(** The screen shows the records that are stored, in some order. *)
Definition synced (user : option Auth.User) (w : World) : Prop :=
  notifications w ≡ₚ stored user w.

End HistoryScreen.

(** ** [src/services/NotificationService.ts] *)

Module NotificationService.

(** [NotificationData.type]. *)
Inductive NotificationType : Type := chat | appointment | medication | emergency.

Definition type_name (t : NotificationType) : string :=
  match t with
  | chat => "chat"
  | appointment => "appointment"
  | medication => "medication"
  | emergency => "emergency"
  end.

Record NotificationData : Type := {
  type : NotificationType;
  title : string;
  body : string;
  data : JSValue;          (* [data?: any], [JUndefined] when left out *)
}.

(** *** Numbers and dates *)

(** A number the service computes a delay from: a double that holds a whole
    number, or [NaN]. The service computes with time values, minutes and
    their differences; a fraction is not among them, and an infinity only
    ever reaches [new Date], where a number beyond every time value stands
    for it. *)
Inductive JSNumber : Type := Num (z : Z) | NaN.

(** The double nearest to a whole number, ties to the even significand:
    what an operation on doubles keeps of its exact result. Up to [2 ^ 53]
    that is the number itself. *)
Definition to_double (z : Z) : Z :=
  let a := Z.abs z in
  let e := Z.log2 a - 52 in
  if e <=? 0 then z
  else
    let q := a / 2 ^ e in
    let r := a mod 2 ^ e in
    let half := 2 ^ (e - 1) in
    let q' := if r <? half then q
              else if half <? r then q + 1
              else if Z.even q then q else q + 1 in
    Z.sgn z * (q' * 2 ^ e).

(** [a - b] and [a * b]. *)
Definition minus (a b : JSNumber) : JSNumber :=
  match a, b with
  | Num x, Num y => Num (to_double (x - y))
  | _, _ => NaN
  end.

Definition times (a b : JSNumber) : JSNumber :=
  match a, b with
  | Num x, Num y => Num (to_double (x * y))
  | _, _ => NaN
  end.

(** [Math.round(ms / 1000)] for an integral [ms]: the nearest integer, a
    half rounding up. *)
Definition round_seconds (ms : Z) : Z := (ms + 500) / 1000.

(** [Math.round(x / 1000)]; the quotient of doubles rounds as the exact
    quotient does while [x] is a difference of two time values. *)
Definition Math_round_thousandth (x : JSNumber) : JSNumber :=
  match x with
  | Num ms => Num (round_seconds ms)
  | NaN => NaN
  end.

(** [Math.max(a, b)]: [NaN] as soon as one argument is. *)
Definition Math_max (a b : JSNumber) : JSNumber :=
  match a, b with
  | Num x, Num y => Num (Z.max x y)
  | _, _ => NaN
  end.

(** [`${n}`], for a number below [10 ^ 21], which is written with all its
    digits. *)
Definition Number_toString (n : JSNumber) : string :=
  match n with
  | Num z => pretty z
  | NaN => "NaN"
  end.

(** The largest time value, 100 000 000 days from the epoch, in
    milliseconds. *)
Definition max_time : Z := 8640000000000000.

(** [TimeClip]: a number is the time value of a date when it is finite and
    within [max_time] of the epoch. *)
Definition TimeClip (value : JSNumber) : JSNumber :=
  match value with
  | Num z => if Z.abs z <=? max_time then Num z else NaN
  | NaN => NaN
  end.

(** A [Date] is [new Date(value)]; its time value is [NaN] for an invalid
    date. *)
Inductive Date : Type := new_Date (value : JSNumber).

Definition getTime (d : Date) : JSNumber :=
  match d with
  | new_Date value => TimeClip value
  end.

(** The two shapes of [Notifications.NotificationTriggerInput] the service
    builds. *)
Inductive NotificationTriggerInput : Type :=
| TimeInterval (seconds : JSNumber) (repeats : bool)
| Calendar (hour minute : Z) (repeats : bool).

Inductive AndroidNotificationPriority : Type := PriorityHigh | PriorityMax.
Inductive AndroidImportance : Type := ImportanceHigh | ImportanceMax.

Record NotificationContentInput : Type := {
  content_title : string;
  content_body : string;
  content_data : JSValue;
  sound : string;
  priority : AndroidNotificationPriority;
  channelId : option string;
}.

(** The argument of [Notifications.scheduleNotificationAsync]; a [None]
    trigger is [null], immediate delivery. *)
Record NotificationRequestInput : Type := {
  content : NotificationContentInput;
  trigger : option NotificationTriggerInput;
}.

Record ChannelInput : Type := {
  name : string;
  importance : AndroidImportance;
  vibrationPattern : list Z;
  channel_sound : string;
  enableVibrate : bool;
  enableLights : option bool;
  lightColor : option string;
}.

Inductive PermissionStatus : Type := granted | denied | undetermined.

Inductive OS : Type := android | ios | web | windows | macos.

Record FetchInit : Type := {
  method : string;
  headers : list (string * string);
  fetch_body : JSValue;      (* the value handed to [JSON.stringify] *)
}.

(** A response of [fetch]: its status code and what [response.json()]
    settles to, the parsed body or a parse error. *)
Record Response : Type := {
  status : Z;
  json : Outcome JSValue;
}.

(** The device, the build configuration and the services the class calls.
    Each field is the answer the call gets; [Thrown] is a rejected promise. *)
Record Env : Type := {
  Device_isDevice : bool;
  Constants_appOwnership : option string;
  Platform_OS : OS;
  projectId : option string;          (* [Constants.expoConfig?.extra?.eas?.projectId] *)
  EXPO_PUBLIC_API_URL : option string;
  getPermissionsAsync : Outcome PermissionStatus;
  requestPermissionsAsync : Outcome PermissionStatus;
  setNotificationChannelAsync : string -> ChannelInput -> Outcome unit;
  getExpoPushTokenAsync : string -> Outcome string;
  scheduleNotificationAsync : NotificationRequestInput -> Outcome string;
  fetch : string -> FetchInit -> Outcome Response;
  toISOString : Z -> string;
}.

Inductive Event : Type :=
| ConsoleLog (msg : string)
| ConsoleWarn (msg : string)
| ConsoleError (msg : string)
| GetPermissions
| RequestPermissions
| SetNotificationChannel (channel : string) (input : ChannelInput)
| GetExpoPushToken (project : string)
| ScheduleNotification (request : NotificationRequestInput)
| Fetch (url : string) (init : FetchInit)
| ReadJson.

(** The instance of the class and what surrounds it: the private field
    [expoPushToken], the clock and the trace of effects. *)
Record World : Type := {
  expoPushToken : option string;
  clock : nat -> Z;
  reads : nat;
  trace : list Event;
}.

Definition emit (e : Event) (w : World) : World :=
  {| expoPushToken := expoPushToken w; clock := clock w; reads := reads w;
     trace := trace w ++ [e] |}.

Definition set_expoPushToken (t : string) : M World unit :=
  modify (fun w => {| expoPushToken := Some t; clock := clock w; reads := reads w;
                      trace := trace w |}).

Definition Date_now : M World Z :=
  fun w => (Returned (clock w (reads w)),
            {| expoPushToken := expoPushToken w; clock := clock w;
               reads := S (reads w); trace := trace w |}).

Definition console_log (msg : string) : M World unit := modify (emit (ConsoleLog msg)).
Definition console_warn (msg : string) : M World unit := modify (emit (ConsoleWarn msg)).
Definition console_error (msg : string) : M World unit := modify (emit (ConsoleError msg)).

(** A call of the environment: the effect is recorded, then the answer is
    returned or thrown. *)
Definition call {A} (e : Event) (answer : Outcome A) : M World A :=
  fun w => (answer, emit e w).

Section Service.
Variable env : Env.

Definition local_only : string := "local-only".

Definition createNotificationChannels : M World unit :=
  let vibration := [0; 250; 250; 250] in
  let high (n : string) :=
    {| name := n; importance := ImportanceHigh; vibrationPattern := vibration;
       channel_sound := "default"; enableVibrate := true;
       enableLights := None; lightColor := None |} in
  let set (c : string) (i : ChannelInput) :=
    call (SetNotificationChannel c i) (setNotificationChannelAsync env c i) in
  set "chat" (high "Chat Messages") ;;;
  set "appointment" (high "Appointments") ;;;
  set "medication" (high "Medication Reminders") ;;;
  set "emergency"
    {| name := "Emergency Alerts"; importance := ImportanceMax;
       vibrationPattern := [0; 100; 100; 100; 100; 100];
       channel_sound := "default"; enableVibrate := true;
       enableLights := Some true; lightColor := Some "#FF0000" |}.

(** [tokenError.message?.includes(needle)]. *)
Definition message_includes (e : JSError) (needle : string) : bool :=
  match message e with
  | Some m => includes needle m
  | None => false
  end.

Definition registerForPushNotifications : M World (option string) :=
  let isExpoGo :=
    match Constants_appOwnership env with
    | Some o => String.eqb o "expo"
    | None => false
    end in
  if negb (Device_isDevice env) || isExpoGo then
    console_log "Must use physical device for Push Notifications" ;;;
    ret None
  else
    try_catch
      (existingStatus <- call GetPermissions (getPermissionsAsync env) ;;
       finalStatus <-
         match existingStatus with
         | granted => ret existingStatus
         | _ => call RequestPermissions (requestPermissionsAsync env)
         end ;;
       match finalStatus with
       | granted =>
           match Platform_OS env with
           | android => createNotificationChannels
           | _ => ret tt
           end ;;;
           try_catch
             (match projectId env with
              | Some project =>
                  if String.eqb project "" then
                    console_warn "⚠️ Project ID not found - push notifications will be local only" ;;;
                    set_expoPushToken local_only ;;;
                    ret (Some local_only)
                  else
                    token <- call (GetExpoPushToken project) (getExpoPushTokenAsync env project) ;;
                    set_expoPushToken token ;;;
                    console_log "✅ Expo Push Token:" ;;;
                    ret (Some token)
              | None =>
                  console_warn "⚠️ Project ID not found - push notifications will be local only" ;;;
                  set_expoPushToken local_only ;;;
                  ret (Some local_only)
              end)
             (fun tokenError =>
                if message_includes tokenError "FirebaseApp"
                   || message_includes tokenError "FCM"
                   || message_includes tokenError "Firebase"
                then
                  console_warn "⚠️ Firebase not configured - using local notifications only" ;;;
                  console_warn "   To enable push notifications, follow: https://docs.expo.dev/push-notifications/fcm-credentials/" ;;;
                  set_expoPushToken local_only ;;;
                  ret (Some local_only)
                else throw tokenError)
       | _ =>
           console_log "Failed to get push token for push notification!" ;;;
           ret None
       end)
      (fun _ =>
         console_error "❌ Error getting push token:" ;;;
         set_expoPushToken local_only ;;;
         ret (Some local_only)).

(** The request [scheduleNotification] hands to the platform. *)
Definition request_of (notificationData : NotificationData)
  (trigger : option NotificationTriggerInput) : NotificationRequestInput :=
  let channelId := type_name (type notificationData) in
  {| content :=
       {| content_title := title notificationData;
          content_body := body notificationData;
          content_data := js_or (data notificationData) (JObj []);
          sound := "default";
          priority := match type notificationData with
                      | emergency => PriorityMax
                      | _ => PriorityHigh
                      end;
          channelId := match Platform_OS env with
                       | android => Some channelId
                       | _ => None
                       end |};
     trigger := trigger |}.

Definition scheduleNotification (notificationData : NotificationData)
  (trigger : option NotificationTriggerInput) : M World (option string) :=
  try_catch
    (let request := request_of notificationData trigger in
     notificationId <- call (ScheduleNotification request) (scheduleNotificationAsync env request) ;;
     ret (Some notificationId))
    (fun _ => console_error "Error scheduling notification:" ;;; ret None).

Definition sendChatNotification (senderName message conversationId : string)
  : M World (option string) :=
  scheduleNotification
    {| type := chat; title := senderName; body := message;
       data := JObj [("type", JStr "chat"); ("conversationId", JStr conversationId)] |}
    None.

Definition dquote : string := String (Ascii.ascii_of_nat 34) EmptyString.

(** [date.toISOString()]: a [RangeError] on an invalid date (the text of
    its message is the engine's). *)
Definition Date_toISOString (d : Date) : M World string :=
  match getTime d with
  | Num t => ret (toISOString env t)
  | NaN => throw (Error (Some "Invalid time value"))
  end.

(** [new Date(appointmentTime.getTime() - minutesBefore * 60 * 1000)]. *)
Definition triggerDate (appointmentTime : Date) (minutesBefore : JSNumber) : Date :=
  new_Date (minus (getTime appointmentTime) (times (times minutesBefore (Num 60)) (Num 1000))).

(** [Math.max(1, Math.round((fire.getTime() - now) / 1000))], [now] being
    the reading of [Date.now()]. *)
Definition delay (fire : Date) (now : Z) : JSNumber :=
  Math_max (Num 1) (Math_round_thousandth (minus (getTime fire) (Num now))).

(** [minutesBefore] is [None] when the argument is left to its default of
    15. The object handed to [scheduleNotification] is built before the
    call, outside its [try]: [appointmentTime.toISOString()] throws there
    when the date is invalid. *)
Definition sendAppointmentNotification (appointmentTitle : string) (appointmentTime : Date)
  (minutesBefore : option JSNumber) : M World (option string) :=
  let minutesBefore := default (Num 15) minutesBefore in
  let triggerDate := triggerDate appointmentTime minutesBefore in
  now <- Date_now ;;
  let seconds := delay triggerDate now in
  let trigger := TimeInterval seconds false in
  iso <- Date_toISOString appointmentTime ;;
  scheduleNotification
    {| type := appointment;
       title := "Appointment Reminder";
       body := ("Your appointment " ++ dquote ++ appointmentTitle ++ dquote ++ " is in "
                ++ Number_toString minutesBefore ++ " minutes")%string;
       data := JObj [("type", JStr "appointment");
                     ("appointmentTime", JStr iso)] |}
    (Some trigger).

Definition medication_data (medicationName dosage : string) : NotificationData :=
  {| type := medication;
     title := "Medication Reminder";
     body := ("Time to take " ++ medicationName ++ " (" ++ dosage ++ ")")%string;
     data := JObj [("type", JStr "medication");
                   ("medicationName", JStr medicationName);
                   ("dosage", JStr dosage)] |}.

Definition sendMedicationNotification (medicationName dosage : string) (time : Date)
  : M World (option string) :=
  now <- Date_now ;;
  let seconds := delay time now in
  let trigger := TimeInterval seconds false in
  scheduleNotification (medication_data medicationName dosage) (Some trigger).

Definition scheduleDailyMedication (medicationName dosage : string) (hour minute : Z)
  : M World (option string) :=
  let trigger := Calendar hour minute true in
  scheduleNotification (medication_data medicationName dosage) (Some trigger).

Definition sendEmergencyNotification (patientName alertType : string)
  : M World (option string) :=
  now <- Date_now ;;
  scheduleNotification
    {| type := emergency;
       title := "🚨 EMERGENCY ALERT";
       body := (alertType ++ " detected for " ++ patientName)%string;
       data := JObj [("type", JStr "emergency");
                     ("patientName", JStr patientName);
                     ("alertType", JStr alertType);
                     ("timestamp", JStr (toISOString env now))] |}
    None.

Definition getPushToken : M World (option string) :=
  fun w => (Returned (expoPushToken w), w).

Definition deviceType : string :=
  match Platform_OS env with
  | android => "android"
  | ios => "ios"
  | _ => "web"
  end.

(** [data.success]: reading a property of [null] or [undefined] throws. *)
Definition get_success (data : JSValue) : M World JSValue :=
  match get data "success" with
  | Some v => ret v
  | None => throw (Error (Some "Cannot read property 'success'"))
  end.

(** [`${API_URL}/api/notifications/register`]. *)
Definition register_url : string :=
  let API_URL := str_or (EXPO_PUBLIC_API_URL env) "https://palliative-care.vercel.app" in
  (API_URL ++ "/api/notifications/register")%string.

(** The second argument of the [fetch]. *)
Definition register_init (token sessionToken : string) : FetchInit :=
  {| method := "POST";
     headers := [("Content-Type", "application/json");
                 ("Cookie", ("bl_session=" ++ sessionToken)%string)];
     fetch_body := JObj [("token", JStr token); ("deviceType", JStr deviceType)] |}.

Definition registerPushTokenWithBackend (_userId sessionToken : string) : M World JSValue :=
  token <- getPushToken ;;
  match token with
  | Some token =>
      if String.eqb token "" then
        console_error "No push token available" ;;; ret (JBool false)
      else
        try_catch
          (response <- call (Fetch register_url (register_init token sessionToken))
                            (fetch env register_url (register_init token sessionToken)) ;;
           data <- call ReadJson (json response) ;;
           success <- get_success data ;;
           ret (js_or success (JBool false)))
          (fun _ => console_error "Error registering push token:" ;;; ret (JBool false))
  | None =>
      console_error "No push token available" ;;; ret (JBool false)
  end.

End Service.

(** *** Sample values *)

(** A phone with permission granted and a backend that answers [body] with
    the status code [code]. *)
Definition sample_env (physical : bool) (code : Z) (body : Outcome JSValue) : Env :=
  {| Device_isDevice := physical;
     Constants_appOwnership := None;
     Platform_OS := android;
     projectId := Some "a1b2c3";
     EXPO_PUBLIC_API_URL := None;
     getPermissionsAsync := Returned granted;
     requestPermissionsAsync := Returned granted;
     setNotificationChannelAsync := fun _ _ => Returned tt;
     getExpoPushTokenAsync := fun _ => Returned "ExponentPushToken[xyz]";
     scheduleNotificationAsync := fun _ => Returned "notification-1";
     fetch := fun _ _ => Returned {| status := code; json := body |};
     toISOString := fun t => pretty t |}.

(** An instance with [token] cached, the clock at [t] and no effect yet. *)
Definition idle (token : option string) (t : Z) : World :=
  {| expoPushToken := token; clock := fun _ => t; reads := 0; trace := [] |}.

(** *** The senders as one family *)

(** A call of one of the five builders of a notification. *)
Inductive Send : Type :=
| SendChat (senderName message conversationId : string)
| SendAppointment (appointmentTitle : string) (appointmentTime : Date)
    (minutesBefore : option JSNumber)
| SendMedication (medicationName dosage : string) (time : Date)
| ScheduleDaily (medicationName dosage : string) (hour minute : Z)
| SendEmergency (patientName alertType : string).

Definition send (env : Env) (s : Send) : M World (option string) :=
  match s with
  | SendChat senderName message conversationId =>
      sendChatNotification env senderName message conversationId
  | SendAppointment appointmentTitle appointmentTime minutesBefore =>
      sendAppointmentNotification env appointmentTitle appointmentTime minutesBefore
  | SendMedication medicationName dosage time =>
      sendMedicationNotification env medicationName dosage time
  | ScheduleDaily medicationName dosage hour minute =>
      scheduleDailyMedication env medicationName dosage hour minute
  | SendEmergency patientName alertType =>
      sendEmergencyNotification env patientName alertType
  end.

(** The [type] each builder passes to [scheduleNotification]. *)
Definition send_type (s : Send) : NotificationType :=
  match s with
  | SendChat _ _ _ => chat
  | SendAppointment _ _ _ => appointment
  | SendMedication _ _ _ => medication
  | ScheduleDaily _ _ _ _ => medication
  | SendEmergency _ _ => emergency
  end.

(** The one call that is given a date it cannot write out:
    [sendAppointmentNotification] with an [appointmentTime] that is an
    invalid date. *)
Definition undated (s : Send) : bool :=
  match s with
  | SendAppointment _ appointmentTime _ =>
      match getTime appointmentTime with
      | NaN => true
      | Num _ => false
      end
  | _ => false
  end.

End NotificationService.

(** ** The callers of the service *)

Module Callers.
Import NotificationService.


(** *** [src/App.tsx]: a tapped notification *)

(** The listener passed to [setupNotificationListeners]: the screen of
    [navigationRef.current.navigate('MainTabs', { screen })] that it
    schedules with [setTimeout], or none. [data.type] is read without
    optional chaining, so a payload that is [null] throws once
    [navigationRef.current] is set. *)
Definition onNotificationResponse (navigationRef_current : bool) (data : JSValue)
  : Outcome (option string) :=
  if navigationRef_current then
    match get data "type" with
    | Some type =>
        if truthy type then
          Returned
            (if strict_eq type (JStr "chat") then Some "Chat"
             else if strict_eq type (JStr "appointment") then Some "Home"
             else if strict_eq type (JStr "medication") then Some "Medications"
             else if strict_eq type (JStr "emergency") then Some "Maps"
             else None)
        else Returned None
    | None => Thrown (Error (Some "Cannot read property 'type'"))
    end
  else Returned None.

(** *** Registration after sign-in *)




(** *** [src/screens/MedicationsScreen.tsx]: reminders of a medication *)

Inductive MedicationStatus : Type := pending | active | completed | cancelled.

Record Medication : Type := {
  id : string;
  medication_name : string;
  dosage : string;
  frequency : string;
  start_date : string;
  end_date : option string;
  prescribing_doctor : string;
  instructions : option string;
  status : MedicationStatus;
  created_at : string;
}.

(** The screen: the service it calls and the alerts it has shown. *)
Record Screen : Type := {
  service : World;
  alerts : list (string * string);
}.

Definition lift {A : Type} (c : M World A) : M Screen A :=
  fun s =>
    let (o, w') := c (service s) in
    (o, {| service := w'; alerts := alerts s |}).

(** [Alert.alert(title, message)]. *)
Definition Alert_alert (title message : string) : M Screen unit :=
  modify (fun s => {| service := service s; alerts := alerts s ++ [(title, message)] |}).

(** [toLowerCase] on the letters A to Z; every other character is kept. *)
Definition lower (c : Ascii.ascii) : Ascii.ascii :=
  let n := Ascii.nat_of_ascii c in
  if (65 <=? n)%nat && (n <=? 90)%nat then Ascii.ascii_of_nat (n + 32) else c.

Fixpoint toLowerCase (s : string) : string :=
  match s with
  | EmptyString => EmptyString
  | String c rest => String (lower c) (toLowerCase rest)
  end.

Definition scheduleMedicationReminder (env : Env) (medication : Medication) : M Screen unit :=
  try_catch
    (let frequency := toLowerCase (frequency medication) in
     let daily (hour : Z) :=
       lift (scheduleDailyMedication env (medication_name medication) (dosage medication)
               hour 0) in
     (if includes "once" frequency then
        daily 9 ;;; ret tt
      else if includes "twice" frequency then
        daily 9 ;;; daily 21 ;;; ret tt
      else if includes "three" frequency then
        daily 8 ;;; daily 14 ;;; daily 20 ;;; ret tt
      else ret tt) ;;;
     Alert_alert "Reminder Set" "You will receive notifications for this medication")
    (fun _ => lift (console_error "Error scheduling reminder:")).

End Callers.

(** * Properties of the notification history screen *)

Section HistoryFacts.
Import HistoryScreen.

(** ** Strict equality *)

Lemma strict_eq_eq (a b : JSValue) : strict_eq a b = true -> a = b.
Proof.
  destruct a, b; simpl; try discriminate; intros H; try reflexivity.
  - apply Bool.eqb_prop in H. congruence.
  - apply Z.eqb_eq in H. congruence.
  - apply String.eqb_eq in H. congruence.
Qed.

Lemma strict_eq_carried (c : JSValue) : carried c = true -> strict_eq c c = true.
Proof.
  destruct c; simpl; try discriminate; intros _; try reflexivity.
  - apply Bool.eqb_reflx.
  - apply Z.eqb_refl.
  - apply String.eqb_refl.
Qed.

Lemma strict_eq_JStr (v : JSValue) (s : string) : strict_eq v (JStr s) = true <-> v = JStr s.
Proof.
  split.
  - apply strict_eq_eq.
  - intros ->. simpl. apply String.eqb_refl.
Qed.

(** ** The candidate record *)

Lemma recognized_truthy (tag : JSValue) : recognized tag = true -> truthy tag = true.
Proof.
  unfold recognized. intros H.
  repeat (apply orb_prop in H; destruct H as [H | H]);
    apply strict_eq_eq in H; subst; reflexivity.
Qed.

Lemma newNotif_type_truthy (notification : Notification) (now : Z) :
  truthy (tag_of notification) = true -> type (newNotif notification now) = tag_of notification.
Proof. unfold newNotif, tag_of, js_or. simpl. intros ->. reflexivity. Qed.

Lemma newNotif_type_falsy (notification : Notification) (now : Z) :
  truthy (tag_of notification) = false -> type (newNotif notification now) = JStr "other".
Proof. unfold newNotif, tag_of, js_or. simpl. intros ->. reflexivity. Qed.

(** ** Running [find] *)

Lemma with_reads_same (w : World) : with_reads (reads w) w = w.
Proof. destruct w; reflexivity. Qed.

Lemma find_scan (c : JSValue) (l : list NotificationRecord) (w : World) :
  find (isRecentChat c) l w
  = (Returned (fst (scan (clock w) (reads w) c l)),
     with_reads (snd (scan (clock w) (reads w) c l)) w).
Proof.
  revert w. induction l as [| n rest IH]; intros w; simpl.
  - unfold ret. now rewrite with_reads_same.
  - unfold bind, isRecentChat. fold (isChat n). fold (sameConversation c n).
    destruct (isChat n && sameConversation c n); simpl.
    + unfold bind, Date_now, ret. simpl.
      destruct (clock w (reads w) - timestamp n <? 60000); simpl.
      * reflexivity.
      * rewrite IH. reflexivity.
    + unfold ret. simpl. apply IH.
Qed.

Lemma scan_reads (clock : nat -> Z) (c : JSValue) (l : list NotificationRecord) (k : nat) :
  (k <= snd (scan clock k c l))%nat.
Proof.
  revert k. induction l as [| n rest IH]; intros k; simpl; [lia |].
  destruct (isChat n && sameConversation c n).
  - destruct (clock k - timestamp n <? 60000); simpl; [lia |].
    specialize (IH (S k)). lia.
  - apply IH.
Qed.

(** What a hit of the scan tells: the record found is in the list, is a
    chat record of the conversation and was less than 60000 ms old at one
    of the readings. *)
Lemma scan_Some (clock : nat -> Z) (c : JSValue) (l : list NotificationRecord) (k : nat)
  (r : NotificationRecord) :
  fst (scan clock k c l) = Some r ->
  r ∈ l /\ isChat r = true /\ sameConversation c r = true
  /\ exists k', (k <= k')%nat /\ clock k' - timestamp r < 60000.
Proof.
  revert k. induction l as [| n rest IH]; intros k; simpl; [discriminate |].
  destruct (isChat n && sameConversation c n) eqn:E.
  - destruct (Z.ltb_spec (clock k - timestamp n) 60000) as [Hlt | Hge]; simpl.
    + intros [= <-]. apply andb_prop in E as [E1 E2].
      repeat split; [left | assumption | assumption | exists k; split; [lia | assumption]].
    + intros H. destruct (IH _ H) as (Hin & H1 & H2 & k' & Hk & Hc).
      repeat split; [right; assumption | assumption | assumption |].
      exists k'. split; [lia | assumption].
  - intros H. destruct (IH _ H) as (Hin & H1 & H2 & k' & Hk & Hc).
    repeat split; [right; assumption | assumption | assumption |].
    exists k'. split; [lia | assumption].
Qed.

(** A chat record of the conversation that is less than 60000 ms old at
    every reading makes the scan hit. *)
Lemma scan_hit (clock : nat -> Z) (c : JSValue) (l : list NotificationRecord) (k : nat)
  (n : NotificationRecord) :
  n ∈ l -> isChat n = true -> sameConversation c n = true ->
  (forall k', (k <= k')%nat -> clock k' - timestamp n < 60000) ->
  exists r, fst (scan clock k c l) = Some r.
Proof.
  revert k. induction l as [| m rest IH]; intros k Hin H1 H2 Hc.
  - inversion Hin.
  - simpl. destruct (isChat m && sameConversation c m) eqn:E.
    + destruct (Z.ltb_spec (clock k - timestamp m) 60000) as [Hlt | Hge]; simpl.
      * eauto.
      * apply elem_of_cons in Hin as [-> | Hin].
        -- specialize (Hc k ltac:(lia)). lia.
        -- apply IH; auto. intros k' Hk. apply Hc. lia.
    + apply elem_of_cons in Hin as [-> | Hin].
      * rewrite H1, H2 in E. discriminate.
      * apply IH; auto.
Qed.

(** When every chat record of the conversation is 60000 ms old or more at
    every reading, the scan misses. *)
Lemma scan_miss (clock : nat -> Z) (c : JSValue) (l : list NotificationRecord) (k : nat) :
  (forall n, n ∈ l -> isChat n = true -> sameConversation c n = true ->
             forall k', (k <= k')%nat -> 60000 <= clock k' - timestamp n) ->
  fst (scan clock k c l) = None.
Proof.
  revert k. induction l as [| m rest IH]; intros k H; simpl; [reflexivity |].
  destruct (isChat m && sameConversation c m) eqn:E.
  - apply andb_prop in E as [E1 E2].
    pose proof (H m ltac:(left) E1 E2 k ltac:(lia)) as Hm.
    destruct (Z.ltb_spec (clock k - timestamp m) 60000); [lia |].
    apply IH. intros n Hn Hc Hs k' Hk. apply (H n); [right | | | lia]; assumption.
  - apply IH. intros n Hn Hc Hs k' Hk. apply (H n); [right | | | lia]; assumption.
Qed.

(** ** Running [addNotificationToHistory] *)

Lemma bind_Returned {W A B : Type} (c : M W A) (k : A -> M W B) (w w' : W) (a : A) :
  c w = (Returned a, w') -> bind c k w = k a w'.
Proof. unfold bind. intros ->. reflexivity. Qed.

Lemma bind_Thrown {W A B : Type} (c : M W A) (k : A -> M W B) (w w' : W) (e : JSError) :
  c w = (Thrown e, w') -> bind c k w = (Thrown e, w').
Proof. unfold bind. intros ->. reflexivity. Qed.

Lemma try_Returned {W A : Type} (body : M W A) (h : JSError -> M W A) (w w' : W) (a : A) :
  body w = (Returned a, w') -> try_catch body h w = (Returned a, w').
Proof. unfold try_catch. intros ->. reflexivity. Qed.

Lemma try_Thrown {W A : Type} (body : M W A) (h : JSError -> M W A) (w w' : W) (e : JSError) :
  body w = (Thrown e, w') -> try_catch body h w = h e w'.
Proof. unfold try_catch. intros ->. reflexivity. Qed.

Lemma getItem_ok (key : string) (w : World) :
  disk w (ops w) = true ->
  AsyncStorage_getItem key w = (Returned (storage w !! key), next_op (emit (GetItem key) w)).
Proof. unfold AsyncStorage_getItem. intros ->. reflexivity. Qed.

Lemma setItem_ok (key : string) (value : list NotificationRecord) (w : World) :
  disk w (ops w) = true ->
  AsyncStorage_setItem key value w
  = (Returned tt, with_storage (<[key := value]> (storage w)) (next_op (emit (SetItem key value) w))).
Proof.
  unfold AsyncStorage_setItem, setItem_call, setItem_settle, bind, modify. simpl.
  intros ->. reflexivity.
Qed.

Lemma add_run (user : option Auth.User) (notification : Notification) (w : World) :
  disk w (ops w) = true -> disk w (S (ops w)) = true ->
  addNotificationToHistory user notification w = (Returned tt, after_add user notification w).
Proof.
  intros Hget Hset.
  unfold addNotificationToHistory. apply try_Returned.
  erewrite bind_Returned by reflexivity. cbv zeta.
  erewrite bind_Returned by (apply getItem_ok; exact Hget).
  unfold after_add, shown, persisted, hit_of, isChat, conversation_of.
  fold (stored user w).
  set (candidate := newNotif notification (clock w (reads w))).
  assert (Happend : forall (v : World) (l sh : list NotificationRecord),
    disk v = disk w -> ops v = S (ops w) ->
    bind (AsyncStorage_setItem (storageKey user) l) (fun _ => setNotifications sh) v
    = (Returned tt, with_notifications sh (emit (SetNotifications sh)
         (with_storage (<[storageKey user := l]> (storage v))
            (next_op (emit (SetItem (storageKey user) l) v)))))).
  { intros v l sh Hd Ho. erewrite bind_Returned; [reflexivity |].
    apply setItem_ok. rewrite Hd, Ho. exact Hset. }
  destruct (strict_eq (type candidate) (JStr "chat")) eqn:Echat.
  - change (data candidate) with (content_data (content (request notification))).
    erewrite bind_Returned by apply find_scan. simpl clock. simpl reads.
    destruct (fst (scan _ _ _ _)) as [recentChat |]; rewrite Happend; reflexivity.
  - rewrite Happend; reflexivity.
Qed.

Lemma after_add_storage (user : option Auth.User) (notification : Notification) (w : World) :
  storage (after_add user notification w)
  = <[storageKey user := persisted user notification w]> (storage w).
Proof. unfold after_add. cbv zeta. destruct (isChat _); reflexivity. Qed.

Lemma after_add_notifications (user : option Auth.User) (notification : Notification) (w : World) :
  notifications (after_add user notification w) = shown user notification w.
Proof. reflexivity. Qed.

Lemma after_add_disk (user : option Auth.User) (notification : Notification) (w : World) :
  disk (after_add user notification w) = disk w.
Proof. unfold after_add. cbv zeta. destruct (isChat _); reflexivity. Qed.

Lemma after_add_trace (user : option Auth.User) (notification : Notification) (w : World) :
  trace (after_add user notification w)
  = trace w ++ [GetItem (storageKey user);
                SetItem (storageKey user) (persisted user notification w);
                SetNotifications (shown user notification w)].
Proof.
  unfold after_add. cbv zeta. destruct (isChat _); simpl; rewrite <- !app_assoc; reflexivity.
Qed.

Lemma exec_add (user : option Auth.User) (notification : Notification) (w : World) :
  reliable w ->
  exec (addNotificationToHistory user notification) w = after_add user notification w.
Proof. intros Hr. unfold exec. rewrite add_run by apply Hr. reflexivity. Qed.

Lemma stored_after_add (user : option Auth.User) (notification : Notification) (w : World) :
  reliable w ->
  stored user (exec (addNotificationToHistory user notification) w)
  = persisted user notification w.
Proof.
  intros Hr. rewrite exec_add by exact Hr.
  unfold stored. rewrite after_add_storage, lookup_insert_eq. reflexivity.
Qed.

Lemma reliable_after_add (user : option Auth.User) (notification : Notification) (w : World) :
  reliable w -> reliable (exec (addNotificationToHistory user notification) w).
Proof.
  intros Hr k. rewrite exec_add by exact Hr.
  rewrite after_add_disk. apply Hr.
Qed.

(** ** The in-place update *)

Lemma refreshed_length (l : list NotificationRecord) (r c : NotificationRecord) :
  length (refreshed l r c) = length l.
Proof. unfold refreshed. apply length_map. Qed.

Lemma refreshed_ids (l : list NotificationRecord) (r c : NotificationRecord) :
  map id (refreshed l r c) = map id l.
Proof.
  unfold refreshed. rewrite map_map. apply map_ext. intros n.
  destruct (String.eqb (id n) (id r)); reflexivity.
Qed.

Lemma refreshed_cons (n : NotificationRecord) (l : list NotificationRecord)
  (r c : NotificationRecord) :
  refreshed (n :: l) r c
  = (if String.eqb (id n) (id r)
     then with_body_timestamp n (body c) (timestamp c) else n) :: refreshed l r c.
Proof. reflexivity. Qed.

Lemma refreshed_lookup (l : list NotificationRecord) (r c : NotificationRecord) (i : nat) :
  refreshed l r c !! i
  = (fun n => if String.eqb (id n) (id r)
              then with_body_timestamp n (body c) (timestamp c) else n) <$> l !! i.
Proof. unfold refreshed. apply list_lookup_fmap. Qed.

Lemma refreshed_lookup_same (l : list NotificationRecord) (r c n : NotificationRecord) (i : nat) :
  l !! i = Some n -> id n = id r ->
  refreshed l r c !! i = Some (with_body_timestamp n (body c) (timestamp c)).
Proof.
  intros Hi He. rewrite refreshed_lookup, Hi. simpl.
  rewrite He, String.eqb_refl. reflexivity.
Qed.

Lemma refreshed_lookup_other (l : list NotificationRecord) (r c n : NotificationRecord) (i : nat) :
  l !! i = Some n -> id n <> id r -> refreshed l r c !! i = Some n.
Proof.
  intros Hi Hne. rewrite refreshed_lookup, Hi. simpl.
  apply String.eqb_neq in Hne. rewrite Hne. reflexivity.
Qed.

Lemma isChat_spec (n : NotificationRecord) : isChat n = true <-> type n = JStr "chat".
Proof. apply strict_eq_JStr. Qed.

Lemma sameConversation_spec (c : JSValue) (n : NotificationRecord) :
  carried c = true ->
  sameConversation c n = true <-> opt_get (data n) "conversationId" = c.
Proof.
  intros Hc. unfold sameConversation. split.
  - apply strict_eq_eq.
  - intros ->. apply strict_eq_carried, Hc.
Qed.

Lemma newNotif_chat (notification : Notification) (now : Z) :
  tag_of notification = JStr "chat" -> isChat (newNotif notification now) = true.
Proof.
  intros Ht. apply isChat_spec. rewrite newNotif_type_truthy; rewrite Ht; reflexivity.
Qed.

(** ** Hit and miss of the deduplication *)

Lemma hit_of_Some (user : option Auth.User) (notification : Notification) (w : World)
  (r : NotificationRecord) :
  hit_of user notification w = Some r ->
  r ∈ stored user w /\ type r = JStr "chat"
  /\ opt_get (data r) "conversationId" = conversation_of notification
  /\ exists k, (reads w <= k)%nat /\ clock w k - timestamp r < 60000.
Proof.
  unfold hit_of. destruct (isChat (newNotif _ _)); [| discriminate].
  intros H. apply scan_Some in H as (Hin & Hc & Hs & k & Hk & Hlt).
  repeat split; [assumption | now apply isChat_spec | now apply strict_eq_eq |].
  exists k. split; [lia | assumption].
Qed.

Lemma hit_of_recent (user : option Auth.User) (notification : Notification) (w : World)
  (n : NotificationRecord) :
  tag_of notification = JStr "chat" ->
  carried (conversation_of notification) = true ->
  n ∈ stored user w -> type n = JStr "chat" ->
  opt_get (data n) "conversationId" = conversation_of notification ->
  (forall k, (reads w <= k)%nat -> clock w k - timestamp n < 60000) ->
  exists r, hit_of user notification w = Some r.
Proof.
  intros Ht Hc Hin Hn Hconv Hrecent. unfold hit_of.
  rewrite newNotif_chat by exact Ht.
  apply (scan_hit _ _ _ _ n); [assumption | now apply isChat_spec | | ].
  - now apply sameConversation_spec.
  - intros k Hk. apply Hrecent. lia.
Qed.

Lemma hit_of_stale (user : option Auth.User) (notification : Notification) (w : World) :
  (forall n, n ∈ stored user w -> type n = JStr "chat" ->
             opt_get (data n) "conversationId" = conversation_of notification ->
             forall k, (reads w <= k)%nat -> 60000 <= clock w k - timestamp n) ->
  hit_of user notification w = None.
Proof.
  intros H. unfold hit_of. destruct (isChat (newNotif _ _)); [| reflexivity].
  apply scan_miss. intros n Hin Hc Hs k Hk.
  apply H; [assumption | now apply isChat_spec | now apply strict_eq_eq | lia].
Qed.

Lemma hit_of_other (user : option Auth.User) (notification : Notification) (w : World) :
  isChat (newNotif notification (clock w (reads w))) = false ->
  hit_of user notification w = None.
Proof. unfold hit_of. intros ->. reflexivity. Qed.

(** ** Two chat notifications of one conversation *)

Lemma stored_at_time (user : option Auth.User) (t : Z) (w : World) :
  stored user (at_time t w) = stored user w.
Proof. reflexivity. Qed.

Lemma reliable_at_time (t : Z) (w : World) : reliable w -> reliable (at_time t w).
Proof. intros H k. apply H. Qed.

Lemma filter_none_firstn (c : JSValue) (l : list NotificationRecord) (k : nat) :
  List.filter (inConversation c) l = [] ->
  List.filter (inConversation c) (firstn k l) = [].
Proof.
  revert k. induction l as [| n rest IH]; intros k H.
  - now rewrite firstn_nil.
  - destruct k; [reflexivity |]. simpl in *.
    destruct (inConversation c n); [discriminate |]. now apply IH.
Qed.

Lemma filter_none_elem (c : JSValue) (l : list NotificationRecord) (n : NotificationRecord) :
  List.filter (inConversation c) l = [] -> n ∈ l -> inConversation c n = false.
Proof.
  induction l as [| m rest IH]; intros H Hin; [inversion Hin |].
  simpl in H. destruct (inConversation c m) eqn:E; [discriminate |].
  apply elem_of_cons in Hin as [-> | Hin]; [assumption | now apply IH].
Qed.

Lemma scan_none (clock : nat -> Z) (c : JSValue) (l : list NotificationRecord) (k : nat) :
  List.filter (inConversation c) l = [] -> scan clock k c l = (None, k).
Proof.
  induction l as [| m rest IH]; intros H; simpl in *; [reflexivity |].
  fold (inConversation c m) in *. destruct (inConversation c m); [discriminate |].
  now apply IH.
Qed.

Lemma filter_refreshed_none (c : JSValue) (l : list NotificationRecord)
  (r cand : NotificationRecord) :
  List.filter (inConversation c) l = [] ->
  List.filter (inConversation c) (refreshed l r cand) = [].
Proof.
  induction l as [| m rest IH]; intros H; simpl in *; [reflexivity |].
  destruct (inConversation c m) eqn:E; [discriminate |].
  destruct (String.eqb (id m) (id r)).
  - change (inConversation c (with_body_timestamp m (body cand) (timestamp cand)))
      with (inConversation c m). rewrite E. now apply IH.
  - rewrite E. now apply IH.
Qed.

Lemma newNotif_inConversation (notification : Notification) (now : Z) :
  tag_of notification = JStr "chat" ->
  carried (conversation_of notification) = true ->
  inConversation (conversation_of notification) (newNotif notification now) = true.
Proof.
  intros Ht Hc. unfold inConversation. rewrite newNotif_chat by exact Ht.
  apply sameConversation_spec; [assumption | reflexivity].
Qed.

Lemma two_chats (user : option Auth.User) (first second : Notification) (t1 gap : Z)
  (w : World) :
  reliable w ->
  tag_of first = JStr "chat" -> tag_of second = JStr "chat" ->
  conversation_of first = conversation_of second ->
  carried (conversation_of second) = true ->
  List.filter (inConversation (conversation_of second)) (stored user w) = [] ->
  let w1 := exec (addNotificationToHistory user first) (at_time t1 w) in
  let w2 := exec (addNotificationToHistory user second) (at_time (t1 + gap) w1) in
  let ofConversation := List.filter (inConversation (conversation_of second)) (stored user w2) in
  (gap < 60000 ->
   ofConversation
   = [with_body_timestamp (newNotif first t1)
        (str_or (content_body (content (request second))) "") (t1 + gap)])
  /\ (60000 <= gap -> ofConversation = [newNotif second (t1 + gap); newNotif first t1]).
Proof.
  intros Hr Ht1 Ht2 Hconv Hc Hnone w1 w2 ofConversation.
  set (c := conversation_of second) in *.
  assert (Hs1 : stored user w1 = newNotif first t1 :: firstn 99 (stored user w)).
  { unfold w1. rewrite stored_after_add by now apply reliable_at_time.
    unfold persisted, hit_of. rewrite newNotif_chat by exact Ht1.
    rewrite stored_at_time. rewrite Hconv. fold c. rewrite scan_none by exact Hnone.
    reflexivity. }
  assert (Hr1 : reliable w1) by (apply reliable_after_add, reliable_at_time, Hr).
  assert (Hin1 : inConversation c (newNotif first t1) = true).
  { rewrite <- Hconv. apply newNotif_inConversation; [exact Ht1 |].
    rewrite Hconv. exact Hc. }
  assert (Hs2 : stored user w2 = persisted user second (at_time (t1 + gap) w1)).
  { unfold w2. apply stored_after_add. now apply reliable_at_time. }
  unfold ofConversation. rewrite Hs2. unfold persisted, hit_of.
  rewrite newNotif_chat by exact Ht2. rewrite stored_at_time, Hs1. fold c.
  simpl scan. unfold inConversation in Hin1. rewrite Hin1.
  change (clock (at_time (t1 + gap) w1) (S (reads (at_time (t1 + gap) w1)))) with (t1 + gap).
  change (timestamp (newNotif first t1)) with t1.
  split; intros Hgap.
  - destruct (Z.ltb_spec (t1 + gap - t1) 60000) as [_ | Hge]; [| lia].
    cbn [fst]. rewrite refreshed_cons, String.eqb_refl.
    cbn [List.filter]. unfold inConversation at 1.
    change (isChat (with_body_timestamp (newNotif first t1) _ _)
            && sameConversation c (with_body_timestamp (newNotif first t1) _ _))
      with (isChat (newNotif first t1) && sameConversation c (newNotif first t1)).
    rewrite Hin1. f_equal.
    apply (filter_refreshed_none c (firstn 99 (stored user w))).
    now apply filter_none_firstn.
  - destruct (Z.ltb_spec (t1 + gap - t1) 60000) as [Hlt | _]; [lia |].
    rewrite scan_none by now apply filter_none_firstn.
    simpl fst. unfold prepended. simpl firstn. simpl List.filter.
    fold (inConversation c (newNotif second (clock (at_time (t1 + gap) w1) (reads (at_time (t1 + gap) w1))))).
    change (clock (at_time (t1 + gap) w1) (reads (at_time (t1 + gap) w1))) with (t1 + gap).
    unfold c at 1. rewrite newNotif_inConversation by assumption.
    fold (inConversation c (newNotif first t1)). unfold inConversation at 1. rewrite Hin1.
    do 2 f_equal. fold c. apply filter_none_firstn. now apply filter_none_firstn.
Qed.

(** C1. Chat notifications of one conversation. Let the inbound notification
    be tagged [chat] and carry a conversation id [c], and let the storage calls
    succeed. (1) If the stored list holds a chat record of conversation [c]
    that is less than 60000 ms old at every reading of the clock, one such
    record is updated where it stands: its body becomes the body of the
    notification and its timestamp the reading of the clock, its other fields
    stay, and the list keeps its length and its ids. (2) If every
    stored chat record of [c] is 60000 ms old or more, a new record is put in
    front. (3) For two notifications of [c] received [gap] ms apart by a store
    without records of [c]: when [gap < 60000] (10 seconds) one record of [c]
    remains, the record of the first notification with the body of the
    second and the time of the second; when [60000 <= gap] (61 seconds) there
    are two records. *)
Theorem C1_chat_deduplication (user : option Auth.User) (notification : Notification)
  (w : World) :
  reliable w ->
  tag_of notification = JStr "chat" ->
  carried (conversation_of notification) = true ->
  let c := conversation_of notification in
  let now := clock w (reads w) in
  let text := str_or (content_body (content (request notification))) "" in
  let existing := stored user w in
  let after := stored user (exec (addNotificationToHistory user notification) w) in
  ((exists n, n ∈ existing /\ type n = JStr "chat" /\ opt_get (data n) "conversationId" = c
              /\ forall k, (reads w <= k)%nat -> clock w k - timestamp n < 60000) ->
   exists i r,
     existing !! i = Some r /\ type r = JStr "chat" /\ opt_get (data r) "conversationId" = c
     /\ (exists k, (reads w <= k)%nat /\ clock w k - timestamp r < 60000)
     /\ after !! i = Some {| id := id r; title := title r; body := text; data := data r;
                             timestamp := now; read := read r; type := type r |}
     /\ length after = length existing
     /\ map id after = map id existing)
  /\ ((forall n, n ∈ existing -> type n = JStr "chat" ->
                 opt_get (data n) "conversationId" = c ->
                 forall k, (reads w <= k)%nat -> 60000 <= clock w k - timestamp n) ->
      after = newNotif notification now :: firstn 99 existing)
  /\ (forall (first : Notification) (t1 gap : Z),
        tag_of first = JStr "chat" -> conversation_of first = c ->
        List.filter (inConversation c) existing = [] ->
        let w1 := exec (addNotificationToHistory user first) (at_time t1 w) in
        let w2 := exec (addNotificationToHistory user notification) (at_time (t1 + gap) w1) in
        let ofConversation := List.filter (inConversation c) (stored user w2) in
        (gap < 60000 ->
         ofConversation
         = [{| id := identifier (request first);
               title := str_or (content_title (content (request first))) "Notification";
               body := text;
               data := content_data (content (request first));
               timestamp := t1 + gap;
               read := false;
               type := JStr "chat" |}])
        /\ (60000 <= gap ->
            ofConversation = [newNotif notification (t1 + gap); newNotif first t1])).
Proof.
  intros Hr Ht Hc c now text existing after.
  assert (Hafter : after = persisted user notification w) by now apply stored_after_add.
  split; [| split].
  - intros (n & Hin & Hn & Hconv & Hrecent).
    destruct (hit_of_recent user notification w n Ht Hc Hin Hn Hconv Hrecent) as [r Hhit].
    destruct (hit_of_Some _ _ _ _ Hhit) as (Hrin & Hrt & Hrc & Hrk).
    apply list_elem_of_lookup in Hrin as [i Hi].
    exists i, r. rewrite Hafter. unfold persisted. rewrite Hhit.
    repeat split; try assumption.
    + now apply refreshed_lookup_same.
    + apply refreshed_length.
    + apply refreshed_ids.
  - intros Hstale. rewrite Hafter. unfold persisted.
    rewrite hit_of_stale by exact Hstale. reflexivity.
  - intros first t1 gap Ht1 Hc1 Hnone.
    assert (Hpair := two_chats user first notification t1 gap w).
    cbv zeta in Hpair |- *.
    destruct Hpair as [Hnear Hfar]; try assumption.
    split; [| exact Hfar].
    intros Hgap. unfold c, text. rewrite (Hnear Hgap).
    unfold with_body_timestamp, newNotif. simpl.
    unfold tag_of in Ht1. rewrite Ht1. reflexivity.
Qed.

(** C1 at work: a message of conversation [conv-7] received at 1000 by an
    empty store, and a second one 10 seconds, or 61 seconds, later. *)
Lemma C1_chat_deduplication_witness :
  let first := sample_notification "n1" "hello" "chat" "conv-7" in
  let second := sample_notification "n2" "are you there?" "chat" "conv-7" in
  let after (gap : Z) :=
    stored sample_user
      (exec (addNotificationToHistory sample_user second)
         (at_time (1000 + gap)
            (exec (addNotificationToHistory sample_user first) (at_time 1000 (quiet 0))))) in
  List.filter (inConversation (JStr "conv-7")) (after 10000)
  = [{| id := "n1"; title := "Dr. Smith"; body := "are you there?";
        data := JObj [("type", JStr "chat"); ("conversationId", JStr "conv-7")];
        timestamp := 11000; read := false; type := JStr "chat" |}]
  /\ List.filter (inConversation (JStr "conv-7")) (after 61000)
     = [newNotif second 62000; newNotif first 1000].
Proof.
  intros first second after.
  assert (Hr : reliable (quiet 0)) by (intros k; reflexivity).
  destruct (C1_chat_deduplication sample_user second (quiet 0) Hr eq_refl eq_refl)
    as (_ & _ & Hpair).
  split.
  - apply (Hpair first 1000 10000 eq_refl eq_refl eq_refl). lia.
  - apply (Hpair first 1000 61000 eq_refl eq_refl eq_refl). lia.
Defined.

(** C10, as the code has it. On a deduplication hit the stored list is
    rewritten position by position: a record whose id is the id of the
    matched record keeps its id, title, payload, read flag and category and
    takes the body and the timestamp of the notification; a record with
    another id is left as it is, where it is. The matched record is one of
    the former, so a read record stays read; the list keeps its length and
    its ids (the id of the notification is not stored); and when the stored
    ids are pairwise distinct every position but the matched one is
    unchanged. The list shown on screen is the stored list sorted again. *)
Theorem C10_update_in_place (user : option Auth.User) (notification : Notification)
  (w : World) :
  reliable w ->
  tag_of notification = JStr "chat" ->
  carried (conversation_of notification) = true ->
  let c := conversation_of notification in
  let now := clock w (reads w) in
  let text := str_or (content_body (content (request notification))) "" in
  let existing := stored user w in
  let w' := exec (addNotificationToHistory user notification) w in
  let after := stored user w' in
  (exists n, n ∈ existing /\ type n = JStr "chat" /\ opt_get (data n) "conversationId" = c
             /\ forall k, (reads w <= k)%nat -> clock w k - timestamp n < 60000) ->
  exists i r,
    existing !! i = Some r /\ type r = JStr "chat" /\ opt_get (data r) "conversationId" = c
    /\ after !! i = Some {| id := id r; title := title r; body := text; data := data r;
                            timestamp := now; read := read r; type := type r |}
    /\ (forall j m, existing !! j = Some m -> id m = id r ->
                    after !! j = Some {| id := id m; title := title m; body := text;
                                         data := data m; timestamp := now; read := read m;
                                         type := type m |})
    /\ (forall j m, existing !! j = Some m -> id m <> id r -> after !! j = Some m)
    /\ (NoDup (map id existing) -> forall j, j <> i -> after !! j = existing !! j)
    /\ length after = length existing
    /\ map id after = map id existing
    /\ notifications w' = sort_desc after.
Proof.
  intros Hr Ht Hc c now text existing w' after (n & Hin & Hn & Hconv & Hrecent).
  destruct (hit_of_recent user notification w n Ht Hc Hin Hn Hconv Hrecent) as [r Hhit].
  destruct (hit_of_Some _ _ _ _ Hhit) as (Hrin & Hrt & Hrc & _).
  apply list_elem_of_lookup in Hrin as [i Hi]. change (existing !! i = Some r) in Hi.
  assert (Hafter : after = refreshed existing r (newNotif notification now)).
  { unfold after, w'. rewrite stored_after_add by exact Hr.
    unfold persisted. rewrite Hhit. reflexivity. }
  exists i, r. rewrite Hafter.
  split; [exact Hi |]. split; [exact Hrt |]. split; [exact Hrc |].
  split; [exact (refreshed_lookup_same existing r (newNotif notification now) r i Hi eq_refl) |].
  split; [intros j m Hj He;
          exact (refreshed_lookup_same existing r (newNotif notification now) m j Hj He) |].
  split; [intros j m Hj Hne; now apply refreshed_lookup_other |].
  split.
  { intros Hnd j Hji. destruct (existing !! j) as [m |] eqn:Hj.
    - apply refreshed_lookup_other; [exact Hj |]. intros He.
      apply Hji. apply (NoDup_lookup (map id existing) j i (id m)); [exact Hnd | |].
      + rewrite list_lookup_fmap, Hj. reflexivity.
      + rewrite list_lookup_fmap, Hi, He. reflexivity.
    - rewrite refreshed_lookup, Hj. reflexivity. }
  split; [apply refreshed_length |].
  split; [apply refreshed_ids |].
  unfold w'. rewrite exec_add by exact Hr. rewrite after_add_notifications.
  unfold shown, persisted. rewrite Hhit. reflexivity.
Qed.

(** C10 at work: the second message of C1's pair. *)
Lemma C10_update_in_place_witness :
  let second := sample_notification "n2" "are you there?" "chat" "conv-7" in
  let w := at_time 11000
             (exec (addNotificationToHistory sample_user
                      (sample_notification "n1" "hello" "chat" "conv-7")) (quiet 1000)) in
  map id (stored sample_user (exec (addNotificationToHistory sample_user second) w))
  = ["n1"].
Proof.
  intros second w.
  assert (Hr : reliable w) by (intros k; reflexivity).
  assert (Ht : tag_of second = JStr "chat") by reflexivity.
  assert (Hc : carried (conversation_of second) = true) by reflexivity.
  destruct (C10_update_in_place sample_user second w Hr Ht Hc)
    as (i & r & _ & _ & _ & _ & _ & _ & _ & _ & Hids & _).
  { exists (newNotif (sample_notification "n1" "hello" "chat" "conv-7") 1000).
    repeat split.
    apply list_elem_of_lookup. exists 0%nat. reflexivity. }
  exact Hids.
Defined.

(** C10 as the spec words it fails when two stored records share an id: a
    notification with identifier [n1] is received at 1000 and again at 62000,
    which stores two records with id [n1]; the message received at 72000
    matches the one in front, and the record behind it is rewritten too. *)
Lemma C10_shared_id_counterexample :
  let w1 := exec (addNotificationToHistory sample_user
                    (sample_notification "n1" "hello" "chat" "conv-7")) (quiet 1000) in
  let w2 := exec (addNotificationToHistory sample_user
                    (sample_notification "n1" "hello again" "chat" "conv-7"))
                 (at_time 62000 w1) in
  let third := sample_notification "n3" "third" "chat" "conv-7" in
  let w3 := exec (addNotificationToHistory sample_user third) (at_time 72000 w2) in
  (fun n => (id n, body n, timestamp n)) <$> stored sample_user w2
  = [("n1", "hello again", 62000); ("n1", "hello", 1000)]
  /\ hit_of sample_user third (at_time 72000 w2) = stored sample_user w2 !! 0%nat
  /\ (fun n => (id n, body n, timestamp n)) <$> stored sample_user w3
     = [("n1", "third", 72000); ("n1", "third", 72000)]
  /\ stored sample_user w3 !! 1%nat <> stored sample_user w2 !! 1%nat.
Proof. vm_compute. repeat split. discriminate. Qed.

(** ** The cap of 100 records *)

Lemma sort_desc_length (l : list NotificationRecord) : length (sort_desc l) = length l.
Proof.
  assert (Hins : forall x l', length (insert_desc x l') = S (length l')).
  { intros x l'. induction l' as [| y rest IH]; simpl; [reflexivity |].
    destruct (timestamp x <? timestamp y); simpl; [now rewrite IH | reflexivity]. }
  induction l as [| x rest IH]; simpl; [reflexivity |].
  now rewrite Hins, IH.
Qed.

Lemma prepended_length (l : list NotificationRecord) (c : NotificationRecord) :
  (length (prepended l c) <= 100)%nat.
Proof. unfold prepended. rewrite length_firstn. lia. Qed.

Lemma persisted_length (user : option Auth.User) (notification : Notification) (w : World) :
  (length (stored user w) <= 100)%nat ->
  (length (persisted user notification w) <= 100)%nat.
Proof.
  intros H. unfold persisted. destruct (hit_of user notification w).
  - now rewrite refreshed_length.
  - apply prepended_length.
Qed.

Lemma shown_length (user : option Auth.User) (notification : Notification) (w : World) :
  length (shown user notification w) = length (persisted user notification w).
Proof. unfold shown. destruct (hit_of user notification w); [apply sort_desc_length | reflexivity]. Qed.

(** Whatever the disk does, a call either leaves storage and screen as they
    were or ends in [after_add]. *)
Lemma add_cases (user : option Auth.User) (notification : Notification) (w : World) :
  let w' := exec (addNotificationToHistory user notification) w in
  (storage w' = storage w /\ notifications w' = notifications w)
  \/ w' = after_add user notification w.
Proof.
  intros w'. unfold w'.
  destruct (disk w (ops w)) eqn:Hget; [destruct (disk w (S (ops w))) eqn:Hset |].
  - right. unfold exec. now rewrite add_run.
  - left. unfold exec, addNotificationToHistory, try_catch.
    erewrite bind_Returned by reflexivity. cbv zeta.
    erewrite bind_Returned by (apply getItem_ok; exact Hget).
    assert (Happend : forall (v : World) (l sh : list NotificationRecord),
      disk v = disk w -> ops v = S (ops w) ->
      bind (AsyncStorage_setItem (storageKey user) l) (fun _ => setNotifications sh) v
      = (Thrown rejected, next_op (emit (SetItem (storageKey user) l) v))).
    { intros v l sh Hd Ho. erewrite bind_Thrown; [reflexivity |].
      unfold AsyncStorage_setItem, setItem_call, setItem_settle, bind, modify. simpl.
      rewrite Hd, Ho, Hset. reflexivity. }
    destruct (strict_eq _ _).
    + erewrite bind_Returned by apply find_scan.
      destruct (fst (scan _ _ _ _)); rewrite Happend by reflexivity; split; reflexivity.
    + rewrite Happend by reflexivity. split; reflexivity.
  - left. unfold exec, addNotificationToHistory, try_catch.
    erewrite bind_Returned by reflexivity. cbv zeta.
    erewrite bind_Thrown
      by (unfold AsyncStorage_getItem; simpl; rewrite Hget; reflexivity).
    split; reflexivity.
Qed.

Lemma capped_stored (user : option Auth.User) (w : World) :
  capped w -> (length (stored user w) <= 100)%nat.
Proof.
  intros [Hs _]. unfold stored. destruct (storage w !! storageKey user) eqn:E.
  - now apply (Hs (storageKey user)).
  - simpl. lia.
Qed.

Lemma capped_same (w w' : World) :
  capped w -> storage w' = storage w -> (length (notifications w') <= 100)%nat -> capped w'.
Proof. intros [Hs _] E Hn. split; [rewrite E; exact Hs | exact Hn]. Qed.

Lemma capped_insert (w w' : World) (key : string) (l : list NotificationRecord) :
  capped w -> storage w' = <[key := l]> (storage w) -> (length l <= 100)%nat ->
  (length (notifications w') <= 100)%nat -> capped w'.
Proof.
  intros [Hs _] E Hl Hn. split; [| exact Hn].
  intros k l'. rewrite E, lookup_insert. case_decide.
  - intros [= <-]. exact Hl.
  - apply Hs.
Qed.

Lemma capped_delete (w w' : World) (key : string) :
  capped w -> storage w' = delete key (storage w) ->
  (length (notifications w') <= 100)%nat -> capped w'.
Proof.
  intros [Hs _] E Hn. split; [| exact Hn].
  intros k l'. rewrite E, lookup_delete. case_decide; [discriminate | apply Hs].
Qed.

Lemma marked_length (l : list NotificationRecord) (i : string) : length (marked l i) = length l.
Proof. unfold marked. apply length_map. Qed.

Lemma capped_add (user : option Auth.User) (notification : Notification) (w : World) :
  capped w -> capped (exec (addNotificationToHistory user notification) w).
Proof.
  intros Hc. destruct (add_cases user notification w) as [[Hs Hn] | ->].
  - apply (capped_same w); [exact Hc | exact Hs |]. rewrite Hn. apply Hc.
  - pose proof (persisted_length user notification w (capped_stored user w Hc)) as Hp.
    apply (capped_insert w _ (storageKey user) (persisted user notification w));
      [exact Hc | apply after_add_storage | exact Hp |].
    rewrite after_add_notifications, shown_length. exact Hp.
Qed.

Lemma capped_load (user : option Auth.User) (w : World) :
  capped w -> capped (exec (loadNotificationHistory user) w).
Proof.
  intros Hc. pose proof Hc as [Hs Hn].
  unfold exec, loadNotificationHistory, try_catch, bind, AsyncStorage_getItem.
  destruct (disk w (ops w)); simpl.
  - destruct (storage w !! storageKey user) as [parsed |] eqn:E; simpl.
    + apply (capped_same w); [exact Hc | reflexivity |]. simpl.
      rewrite sort_desc_length. now apply (Hs (storageKey user)).
    + now apply (capped_same w).
  - now apply (capped_same w).
Qed.

Lemma capped_mark (user : option Auth.User) (i : string) (w : World) :
  capped w -> capped (exec (markAsRead user i) w).
Proof.
  intros Hc. pose proof Hc as [Hs Hn].
  unfold exec, markAsRead, markAsRead_sync, markAsRead_resume, try_catch, bind,
    get_notifications, setNotifications, setItem_call, setItem_settle, modify, ret.
  simpl. destruct (disk w (ops w)); simpl.
  - apply (capped_insert w _ (storageKey user) (marked (notifications w) i));
      [exact Hc | reflexivity | |]; simpl; now rewrite marked_length.
  - apply (capped_same w); [exact Hc | reflexivity |]. simpl. now rewrite marked_length.
Qed.

Lemma capped_clear (user : option Auth.User) (w : World) :
  capped w -> capped (exec (clearAll user) w).
Proof.
  intros Hc. pose proof Hc as [Hs Hn].
  unfold exec, clearAll, try_catch, bind, AsyncStorage_removeItem, setNotifications, modify.
  destruct (disk w (ops w)); simpl.
  - apply (capped_delete w _ (storageKey user)); [exact Hc | reflexivity |]. simpl. lia.
  - now apply (capped_same w).
Qed.

Lemma capped_press (user : option Auth.User) (notif : NotificationRecord) (w : World) :
  capped w -> capped (exec (handleNotificationPress user notif) w).
Proof.
  intros Hc. pose proof Hc as [Hs Hn].
  unfold exec, handleNotificationPress, markAsRead_sync, markAsRead_resume, try_catch, bind,
    get_notifications, setNotifications, setItem_call, setItem_settle, navigate, modify, ret.
  simpl. destruct (destination (type notif)); simpl; destruct (disk w (ops w)); simpl.
  all: first
    [ apply (capped_insert w _ (storageKey user) (marked (notifications w) (id notif)));
      [exact Hc | reflexivity | |]; simpl; now rewrite marked_length
    | apply (capped_same w); [exact Hc | reflexivity |]; simpl; now rewrite marked_length ].
Qed.

Lemma capped_run (user : option Auth.User) (actions : list Action) (w : World) :
  capped w -> capped (run user actions w).
Proof.
  revert w. induction actions as [| a rest IH]; intros w Hc; simpl; [exact Hc |].
  apply IH. destruct a; simpl.
  - now apply capped_load.
  - now apply capped_add.
  - now apply capped_mark.
  - now apply capped_clear.
  - now apply capped_press.
Qed.

Lemma capped_launch (clock : nat -> Z) (disk : nat -> bool) : capped (launch clock disk).
Proof.
  split; simpl; [| lia]. intros key l. rewrite lookup_empty. discriminate.
Qed.

Lemma descending_head (a : NotificationRecord) (l : list NotificationRecord) :
  descending (a :: l) = true -> forall b, b ∈ l -> timestamp b <= timestamp a.
Proof.
  revert a. induction l as [| c rest IH]; intros a H b Hb; [inversion Hb |].
  simpl in H. apply andb_prop in H as [Hca Hrest]. apply Z.leb_le in Hca.
  apply elem_of_cons in Hb as [-> | Hb]; [exact Hca |].
  specialize (IH c Hrest b Hb). lia.
Qed.

Lemma descending_tail (a : NotificationRecord) (l : list NotificationRecord) :
  descending (a :: l) = true -> descending l = true.
Proof. destruct l as [| b rest]; [reflexivity |]. simpl. intros H. now apply andb_prop in H. Qed.

Lemma descending_recent_first (l : list NotificationRecord) :
  descending l = true -> recent_first l.
Proof.
  induction l as [| a rest IH]; intros H i j x y Hij Hi Hj.
  - rewrite lookup_nil in Hi. discriminate.
  - destruct i as [| i], j as [| j]; simpl in *.
    + injection Hi as <-. injection Hj as <-. lia.
    + injection Hi as <-. apply (descending_head a rest H).
      apply list_elem_of_lookup. now exists j.
    + lia.
    + apply (IH (descending_tail _ _ H) i j); [lia | assumption | assumption].
Qed.

(** C2, as the code has it. (1) A call keeps a stored list of at most 100
    records at most 100 records long, whatever clock and disk do. (2) From an
    empty store on, the stored list never exceeds 100 records, whatever the
    screen is made to do. (3) When the call does not deduplicate and finds
    100 records, it stores the new record followed by the first 99: the
    record it drops is the last of the stored list. (4) That record has the
    lowest timestamp when the stored list is ordered most recent first. *)
Theorem C2_cap_and_eviction (user : option Auth.User) (notification : Notification)
  (w : World) :
  let existing := stored user w in
  let candidate := newNotif notification (clock w (reads w)) in
  let after := stored user (exec (addNotificationToHistory user notification) w) in
  ((length existing <= 100)%nat -> (length after <= 100)%nat)
  /\ (forall clock disk actions,
        (length (stored user (run user actions (launch clock disk))) <= 100)%nat)
  /\ (reliable w ->
      (type candidate <> JStr "chat"
       \/ forall n, n ∈ existing -> type n = JStr "chat" ->
                    opt_get (data n) "conversationId" = conversation_of notification ->
                    forall k, (reads w <= k)%nat -> 60000 <= clock w k - timestamp n) ->
      forall kept evicted,
        existing = kept ++ [evicted] -> length existing = 100%nat ->
        after = candidate :: kept
        /\ length after = 100%nat
        /\ (recent_first existing ->
            forall m, m ∈ existing -> timestamp evicted <= timestamp m)).
Proof.
  intros existing candidate after. split; [| split].
  - intros Hlen. unfold after.
    destruct (add_cases user notification w) as [[Hs _] | ->].
    + unfold stored. rewrite Hs. exact Hlen.
    + unfold stored. rewrite after_add_storage, lookup_insert_eq.
      now apply persisted_length.
  - intros clock disk actions. apply capped_stored, capped_run, capped_launch.
  - intros Hr Hmiss kept evicted Hsplit Hlen.
    assert (Hnone : hit_of user notification w = None).
    { destruct Hmiss as [Hother | Hstale].
      - apply hit_of_other. destruct (isChat _) eqn:E; [| reflexivity].
        apply isChat_spec in E. contradiction.
      - now apply hit_of_stale. }
    assert (Hkept : length kept = 99%nat).
    { rewrite Hsplit, length_app in Hlen. simpl in Hlen. lia. }
    assert (Hafter : after = candidate :: kept).
    { unfold after. rewrite stored_after_add by exact Hr.
      unfold persisted. rewrite Hnone. unfold prepended. fold existing candidate.
      simpl. f_equal. rewrite Hsplit, firstn_app, Hkept. simpl.
      rewrite <- Hkept, firstn_all. apply app_nil_r. }
    split; [exact Hafter |]. split; [rewrite Hafter; simpl; lia |].
    intros Hsorted m Hm. apply list_elem_of_lookup in Hm as [i Hi].
    apply (Hsorted i 99%nat m evicted); [| exact Hi |].
    + apply lookup_lt_Some in Hi. lia.
    + rewrite Hsplit, lookup_app_r by lia. rewrite Hkept. reflexivity.
Qed.

Lemma reliable_receive_all (user : option Auth.User) (l : list (Z * Notification))
  (w : World) :
  reliable w -> reliable (receive_all user l w).
Proof.
  revert w. induction l as [| [t n] rest IH]; intros w Hr; simpl; [exact Hr |].
  apply IH, reliable_after_add, reliable_at_time, Hr.
Qed.

(** C2 at work: a chat message and ninety-nine reminders fill the store; the
    next reminder drops the chat message, the oldest record. *)
Lemma C2_cap_and_eviction_witness :
  let w := at_time 3000
             (receive_all sample_user
                ((1000, sample_notification "n0" "hello" "chat" "conv-7") :: sample_burst)
                (quiet 0)) in
  let after := stored sample_user
                 (exec (addNotificationToHistory sample_user (sample_reminder "m100")) w) in
  length after = 100%nat
  /\ forall m, m ∈ stored sample_user w -> 1000 <= timestamp m.
Proof.
  intros w after.
  destruct (C2_cap_and_eviction sample_user (sample_reminder "m100") w) as (_ & _ & Hevict).
  assert (Hr : reliable w)
    by (apply reliable_at_time, reliable_receive_all; intros k; reflexivity).
  assert (Hother : type (newNotif (sample_reminder "m100") (clock w (reads w))) <> JStr "chat")
    by discriminate.
  assert (Hsplit : stored sample_user w
                   = firstn 99 (stored sample_user w)
                     ++ [newNotif (sample_notification "n0" "hello" "chat" "conv-7") 1000])
    by (vm_compute; reflexivity).
  assert (Hfull : length (stored sample_user w) = 100%nat) by (vm_compute; reflexivity).
  destruct (Hevict Hr (or_introl Hother) _ _ Hsplit Hfull) as (_ & Hlen & Hlow).
  split; [exact Hlen |]. apply Hlow.
  apply descending_recent_first. vm_compute. reflexivity.
Defined.

(** C2 as the spec words it fails when the last stored record is not the
    oldest. A chat message is received at 1000, ninety-nine reminders follow
    within the minute, and a second message of the conversation, received at
    2000, is merged into the chat record, which stays last. The reminder
    received at 3000 is not deduplicated and finds 100 records: it drops the
    chat record, stamped 2000, and keeps the reminder stamped 1001. *)
Lemma C2_oldest_kept_counterexample :
  let w := at_time 3000
             (receive_all sample_user
                ((1000, sample_notification "n0" "hello" "chat" "conv-7")
                 :: sample_burst
                 ++ [(2000, sample_notification "n101" "again" "chat" "conv-7")])
                (quiet 0)) in
  let before := stored sample_user w in
  let after := stored sample_user
                 (exec (addNotificationToHistory sample_user (sample_reminder "m100")) w) in
  length before = 100%nat
  /\ hit_of sample_user (sample_reminder "m100") w = None
  /\ (fun n => (id n, timestamp n)) <$> before !! 99%nat = Some ("n0", 2000)
  /\ (fun n => (id n, timestamp n)) <$> before !! 98%nat = Some ("m1", 1001)
  /\ forallb (fun n => 1001 <=? timestamp n) before = true
  /\ length after = 100%nat
  /\ (fun n => (id n, timestamp n)) <$> after !! 99%nat = Some ("m1", 1001)
  /\ existsb (fun n => String.eqb (id n) "n0") after = false.
Proof. vm_compute. repeat split. Qed.

(** ** The candidate record *)

(** C5, as the code has it. The record built from an inbound notification
    is unread, carries the reading of the clock taken when it is built, the
    identifier and the payload of the notification, and a category read off
    the payload tag: [other] when the tag is absent or falsy, the tag itself
    when it is one of chat, appointment, medication, emergency and
    prescription. When the call does not deduplicate, that record is the one
    stored in front. *)
Theorem C5_candidate_record (user : option Auth.User) (notification : Notification)
  (w : World) :
  let now := clock w (reads w) in
  let candidate := newNotif notification now in
  let tag := tag_of notification in
  read candidate = false
  /\ timestamp candidate = now
  /\ id candidate = identifier (request notification)
  /\ data candidate = content_data (content (request notification))
  /\ (tag = JUndefined -> type candidate = JStr "other")
  /\ (truthy tag = false -> type candidate = JStr "other")
  /\ (recognized tag = true -> type candidate = tag)
  /\ (reliable w -> hit_of user notification w = None ->
      stored user (exec (addNotificationToHistory user notification) w) !! 0%nat
      = Some candidate).
Proof.
  intros now candidate tag.
  split; [reflexivity |]. split; [reflexivity |]. split; [reflexivity |].
  split; [reflexivity |].
  split; [intros H; apply newNotif_type_falsy; fold tag; now rewrite H |].
  split; [apply newNotif_type_falsy |].
  split; [intros H; apply newNotif_type_truthy, recognized_truthy, H |].
  intros Hr Hnone. rewrite stored_after_add by exact Hr.
  unfold persisted. rewrite Hnone. reflexivity.
Qed.

(** C5 at work: a medication reminder received by an empty store. *)
Lemma C5_candidate_record_witness :
  stored sample_user
    (exec (addNotificationToHistory sample_user (sample_reminder "m1")) (quiet 1001))
    !! 0%nat
  = Some {| id := "m1"; title := "Medication Reminder";
            body := "Time to take Aspirin (100mg)";
            data := JObj [("type", JStr "medication"); ("medicationName", JStr "Aspirin");
                          ("dosage", JStr "100mg")];
            timestamp := 1001; read := false; type := JStr "medication" |}.
Proof.
  destruct (C5_candidate_record sample_user (sample_reminder "m1") (quiet 1001))
    as (_ & _ & _ & _ & _ & _ & _ & Hfront).
  apply Hfront.
  - intros k. reflexivity.
  - reflexivity.
Defined.

(** C5 as the spec words it fails for a tag outside the six categories: the
    tag [lab-result] is stored as the category of the record. *)
Lemma C5_unrecognized_tag_counterexample :
  let notification := sample_notification "n9" "Your results are ready" "lab-result" "" in
  recognized (tag_of notification) = false
  /\ type (newNotif notification 1000) = JStr "lab-result"
  /\ type (newNotif notification 1000) <> JStr "other"
  /\ type <$> stored sample_user
                (exec (addNotificationToHistory sample_user notification) (quiet 1000))
     = [JStr "lab-result"].
Proof. vm_compute. repeat split. discriminate. Qed.

(** ** Relative time *)

(** C7. [formatTimestamp] reads the clock once and touches nothing else. With
    [delta] the reading minus the timestamp, the text is [Just now] below
    60000, the whole minutes up to an hour, the whole hours up to a day, the
    whole days up to a week, and the local date of the timestamp from a week
    on; each bound belongs to the bucket above it. Below a week the text is
    the same for any two calls with the same [delta]. *)
Theorem C7_formatTimestamp_buckets (toLocaleDateString : Z -> string) (timestamp : Z)
  (w : World) :
  let delta := clock w (reads w) - timestamp in
  let text := result (formatTimestamp toLocaleDateString timestamp) w in
  let w' := exec (formatTimestamp toLocaleDateString timestamp) w in
  (storage w' = storage w /\ notifications w' = notifications w /\ trace w' = trace w)
  /\ (delta < 60000 -> text = Returned "Just now")
  /\ (60000 <= delta < 3600000 ->
      text = Returned (pretty (delta / 60000) +:+ "m ago")
      /\ 60000 * (delta / 60000) <= delta < 60000 * (delta / 60000 + 1))
  /\ (3600000 <= delta < 86400000 ->
      text = Returned (pretty (delta / 3600000) +:+ "h ago")
      /\ 3600000 * (delta / 3600000) <= delta < 3600000 * (delta / 3600000 + 1))
  /\ (86400000 <= delta < 604800000 ->
      text = Returned (pretty (delta / 86400000) +:+ "d ago")
      /\ 86400000 * (delta / 86400000) <= delta < 86400000 * (delta / 86400000 + 1))
  /\ (604800000 <= delta -> text = Returned (toLocaleDateString timestamp))
  /\ (delta = 59999 -> text = Returned "Just now")
  /\ (delta = 60000 -> text = Returned "1m ago")
  /\ (delta = 3599999 -> text = Returned "59m ago")
  /\ (delta = 3600000 -> text = Returned "1h ago")
  /\ (forall timestamp2 w2,
        clock w2 (reads w2) - timestamp2 = delta -> delta < 604800000 ->
        result (formatTimestamp toLocaleDateString timestamp2) w2 = text).
Proof.
  intros delta text w'.
  assert (Htext : forall ts v,
    result (formatTimestamp toLocaleDateString ts) v
    = Returned (let d := clock v (reads v) - ts in
                if d <? 60000 then "Just now"
                else if d <? 3600000 then pretty (d / 60000) +:+ "m ago"
                else if d <? 86400000 then pretty (d / 3600000) +:+ "h ago"
                else if d <? 604800000 then pretty (d / 86400000) +:+ "d ago"
                else toLocaleDateString ts)).
  { intros ts v. unfold result, formatTimestamp, bind, Date_now, ret. simpl.
    repeat (destruct (_ <? _); [reflexivity |]). reflexivity. }
  assert (E : text = Returned (if delta <? 60000 then "Just now"
                else if delta <? 3600000 then pretty (delta / 60000) +:+ "m ago"
                else if delta <? 86400000 then pretty (delta / 3600000) +:+ "h ago"
                else if delta <? 604800000 then pretty (delta / 86400000) +:+ "d ago"
                else toLocaleDateString timestamp)) by apply Htext.
  split.
  { unfold w', exec, formatTimestamp, bind, Date_now, ret. simpl.
    repeat (destruct (_ <? _); [repeat split |]). repeat split. }
  repeat split.
  - intros H. rewrite E. destruct (Z.ltb_spec delta 60000); [reflexivity | lia].
  - rewrite E. destruct (Z.ltb_spec delta 60000); [lia |].
    destruct (Z.ltb_spec delta 3600000); [reflexivity | lia].
  - apply Z.mul_div_le. lia.
  - pose proof (Z.mul_succ_div_gt delta 60000 ltac:(lia)). lia.
  - rewrite E. destruct (Z.ltb_spec delta 60000); [lia |].
    destruct (Z.ltb_spec delta 3600000); [lia |].
    destruct (Z.ltb_spec delta 86400000); [reflexivity | lia].
  - apply Z.mul_div_le. lia.
  - pose proof (Z.mul_succ_div_gt delta 3600000 ltac:(lia)). lia.
  - rewrite E. destruct (Z.ltb_spec delta 60000); [lia |].
    destruct (Z.ltb_spec delta 3600000); [lia |].
    destruct (Z.ltb_spec delta 86400000); [lia |].
    destruct (Z.ltb_spec delta 604800000); [reflexivity | lia].
  - apply Z.mul_div_le. lia.
  - pose proof (Z.mul_succ_div_gt delta 86400000 ltac:(lia)). lia.
  - intros H. rewrite E. destruct (Z.ltb_spec delta 60000); [lia |].
    destruct (Z.ltb_spec delta 3600000); [lia |].
    destruct (Z.ltb_spec delta 86400000); [lia |].
    destruct (Z.ltb_spec delta 604800000); [lia | reflexivity].
  - intros H. rewrite E, H. reflexivity.
  - intros H. rewrite E, H. reflexivity.
  - intros H. rewrite E, H. reflexivity.
  - intros H. rewrite E, H. reflexivity.
  - intros ts2 w2 Hd Hweek. rewrite E, Htext. cbv zeta. rewrite Hd.
    destruct (Z.ltb_spec delta 60000); [reflexivity |].
    destruct (Z.ltb_spec delta 3600000); [reflexivity |].
    destruct (Z.ltb_spec delta 86400000); [reflexivity |].
    destruct (Z.ltb_spec delta 604800000); [reflexivity | lia].
Qed.

(** C7 at work: a record stamped one hour before the reading of the clock. *)
Lemma C7_formatTimestamp_buckets_witness :
  result (formatTimestamp (fun _ => "1/1/2024") 1700000000000) (quiet 1700003600000)
  = Returned "1h ago".
Proof.
  destruct (C7_formatTimestamp_buckets (fun _ => "1/1/2024") 1700000000000
              (quiet 1700003600000))
    as (_ & _ & _ & _ & _ & _ & _ & _ & _ & Hhour & _).
  apply Hhour. reflexivity.
Defined.

(** ** Read state and routing *)

Lemma marked_lookup (l : list NotificationRecord) (rid : string) (i : nat) :
  marked l rid !! i
  = (fun n => if String.eqb (id n) rid then with_read_true n else n) <$> l !! i.
Proof. unfold marked. apply list_lookup_fmap. Qed.

Lemma marked_idempotent (l : list NotificationRecord) (rid : string) :
  marked (marked l rid) rid = marked l rid.
Proof.
  unfold marked. rewrite map_map. apply map_ext. intros n.
  destruct (String.eqb (id n) rid) eqn:E; simpl; rewrite E; reflexivity.
Qed.

Lemma marked_absent (l : list NotificationRecord) (rid : string) :
  (forall n, n ∈ l -> id n <> rid) -> marked l rid = l.
Proof.
  induction l as [| m rest IH]; intros H; [reflexivity |].
  unfold marked in *. simpl.
  assert (Hm : id m <> rid) by (apply H; left).
  apply String.eqb_neq in Hm. rewrite Hm. f_equal.
  apply IH. intros n Hn. apply H. now right.
Qed.

Lemma marked_read (l : list NotificationRecord) (rid : string) (n : NotificationRecord) :
  n ∈ marked l rid -> id n = rid -> read n = true.
Proof.
  unfold marked. intros Hin He. apply list_elem_of_fmap in Hin as (m & -> & _).
  destruct (String.eqb (id m) rid) eqn:E; [reflexivity |].
  apply String.eqb_neq in E. contradiction.
Qed.

(** What a call of [markAsRead] leaves on screen and in storage. *)
Lemma markAsRead_run (user : option Auth.User) (rid : string) (w : World) :
  let w' := exec (markAsRead user rid) w in
  result (markAsRead user rid) w = Returned tt
  /\ notifications w' = marked (notifications w) rid
  /\ storage w' = (if disk w (ops w)
                   then <[storageKey user := marked (notifications w) rid]> (storage w)
                   else storage w)
  /\ disk w' = disk w /\ ops w' = S (ops w).
Proof.
  unfold exec, result, markAsRead, markAsRead_sync, markAsRead_resume, try_catch, bind,
    get_notifications, setNotifications, setItem_call, setItem_settle, modify, ret.
  simpl. destruct (disk w (ops w)); simpl; repeat split.
Qed.

(** C9. [markAsRead] never throws. On screen it sets [read] on every record
    with the given id and leaves the other records, the length and the order
    as they are; with no such record the list is unchanged. The same list is
    written to storage when the write is fulfilled. A second call changes
    nothing more, on screen and, with a working disk, in storage. *)
Theorem C9_markAsRead_idempotent (user : option Auth.User) (rid : string) (w : World) :
  let once := exec (markAsRead user rid) w in
  let twice := exec (markAsRead user rid) once in
  result (markAsRead user rid) w = Returned tt
  /\ notifications twice = notifications once
  /\ (reliable w -> storage twice = storage once)
  /\ length (notifications once) = length (notifications w)
  /\ (forall i n, notifications w !! i = Some n -> id n = rid ->
                  notifications once !! i
                  = Some {| id := id n; title := title n; body := body n; data := data n;
                            timestamp := timestamp n; read := true; type := type n |})
  /\ (forall i n, notifications w !! i = Some n -> id n <> rid ->
                  notifications once !! i = Some n)
  /\ ((forall n, n ∈ notifications w -> id n <> rid) ->
      notifications once = notifications w)
  /\ (disk w (ops w) = true ->
      storage once = <[storageKey user := notifications once]> (storage w))
  /\ (disk w (ops w) = false -> storage once = storage w).
Proof.
  intros once twice.
  destruct (markAsRead_run user rid w) as (Hres & Hn & Hs & Hd & Ho).
  destruct (markAsRead_run user rid once) as (_ & Hn2 & Hs2 & _).
  fold once in Hn, Hs, Hd, Ho. fold twice in Hn2, Hs2.
  split; [exact Hres |].
  split; [rewrite Hn2, Hn; apply marked_idempotent |].
  split.
  { intros Hr. rewrite Hs2, Hd, Ho, (Hr (S (ops w))), Hs, (Hr (ops w)), Hn.
    rewrite marked_idempotent. apply insert_insert_eq. }
  split; [rewrite Hn; apply marked_length |].
  split.
  { intros i n Hi He. rewrite Hn, marked_lookup, Hi. simpl.
    apply String.eqb_eq in He. rewrite He. reflexivity. }
  split.
  { intros i n Hi Hne. rewrite Hn, marked_lookup, Hi. simpl.
    apply String.eqb_neq in Hne. rewrite Hne. reflexivity. }
  split; [intros Habs; rewrite Hn; now apply marked_absent |].
  split; intros Hdisk; rewrite Hs, Hdisk; [rewrite Hn |]; reflexivity.
Qed.

(** C9 at work: two unread records on screen, the first is opened. *)
Lemma C9_markAsRead_idempotent_witness :
  let first := newNotif (sample_notification "n1" "hello" "chat" "conv-7") 1000 in
  let second := newNotif (sample_reminder "m1") 2000 in
  let w := with_notifications [second; first] (quiet 3000) in
  notifications (exec (markAsRead sample_user "n1") w) !! 1%nat
  = Some (with_read_true first)
  /\ notifications (exec (markAsRead sample_user "n1") w) !! 0%nat = Some second
  /\ notifications (exec (markAsRead sample_user "n1") (exec (markAsRead sample_user "n1") w))
     = notifications (exec (markAsRead sample_user "n1") w).
Proof.
  intros first second w.
  destruct (C9_markAsRead_idempotent sample_user "n1" w)
    as (_ & Htwice & _ & _ & Hsame & Hother & _).
  split; [apply (Hsame 1%nat first); reflexivity |].
  split; [apply (Hother 0%nat second); [reflexivity | discriminate] |].
  exact Htwice.
Defined.

(** C4, as the code has it. A press triggers the mark and then routes; it
    does not wait for the mark. The handler first asks for the list with the
    pressed record read to be put on screen and issues the write of that
    list; only then does it navigate: to Chat for [chat], to Medications for
    [medication] and [prescription], to Home for [appointment], to Maps for
    [emergency], and nowhere for any other category. When the [switch] runs
    the store is still as it was before the press. The write settles after
    the navigation: the store then holds the marked list when the write is
    fulfilled, and is left as it was, with the error logged, when it is
    rejected. *)
Theorem C4_press_marks_then_routes (user : option Auth.User) (notif : NotificationRecord)
  (w : World) :
  let w' := exec (handleNotificationPress user notif) w in
  let updated := marked (notifications w) (id notif) in
  let issued := exec (markAsRead_sync user (id notif)) w in
  let route := match destination (type notif) with
               | Some screen => navigate "MainTabs" screen
               | None => ret tt
               end in
  exists navigation settled,
    trace w' = trace w
               ++ [SetNotifications updated; SetItem (storageKey user) updated]
               ++ navigation ++ settled
    /\ (type notif = JStr "chat" -> navigation = [Navigate "MainTabs" "Chat"])
    /\ (type notif = JStr "medication" \/ type notif = JStr "prescription" ->
        navigation = [Navigate "MainTabs" "Medications"])
    /\ (type notif = JStr "appointment" -> navigation = [Navigate "MainTabs" "Home"])
    /\ (type notif = JStr "emergency" -> navigation = [Navigate "MainTabs" "Maps"])
    /\ (type notif <> JStr "chat" -> type notif <> JStr "medication" ->
        type notif <> JStr "prescription" -> type notif <> JStr "appointment" ->
        type notif <> JStr "emergency" -> navigation = [])
    /\ (settled = [] \/ settled = [ConsoleError "Error marking as read:"])
    /\ (forall n, n ∈ updated -> id n = id notif -> read n = true)
    /\ notifications w' = updated
    /\ result (handleNotificationPress user notif) w = Returned tt
    /\ handleNotificationPress user notif w
       = (route ;;; markAsRead_resume user updated)%js issued
    /\ trace issued
       = trace w ++ [SetNotifications updated; SetItem (storageKey user) updated]
    /\ storage issued = storage w
    /\ trace (exec route issued) = trace issued ++ navigation
    /\ storage (exec route issued) = storage w
    /\ (disk w (ops w) = true ->
        settled = [] /\ storage w' = <[storageKey user := updated]> (storage w))
    /\ (disk w (ops w) = false ->
        settled = [ConsoleError "Error marking as read:"] /\ storage w' = storage w).
Proof.
  intros w' updated issued route.
  exists (match destination (type notif) with
          | Some screen => [Navigate "MainTabs" screen]
          | None => []
          end),
         (if disk w (ops w) then [] else [ConsoleError "Error marking as read:"]).
  split.
  { unfold w', exec, handleNotificationPress, markAsRead_sync, markAsRead_resume, try_catch,
      bind, get_notifications, setNotifications, setItem_call, setItem_settle, navigate,
      modify, ret.
    simpl. destruct (destination (type notif)); simpl; destruct (disk w (ops w)); simpl;
      rewrite <- ?app_assoc; reflexivity. }
  split; [intros ->; reflexivity |].
  split; [intros [-> | ->]; reflexivity |].
  split; [intros ->; reflexivity |].
  split; [intros ->; reflexivity |].
  split.
  { intros H1 H2 H3 H4 H5. unfold destination.
    destruct (strict_eq (type notif) (JStr "chat")) eqn:E1;
      [apply strict_eq_JStr in E1; contradiction |].
    destruct (strict_eq (type notif) (JStr "medication")) eqn:E2;
      [apply strict_eq_JStr in E2; contradiction |].
    destruct (strict_eq (type notif) (JStr "prescription")) eqn:E3;
      [apply strict_eq_JStr in E3; contradiction |].
    destruct (strict_eq (type notif) (JStr "appointment")) eqn:E4;
      [apply strict_eq_JStr in E4; contradiction |].
    destruct (strict_eq (type notif) (JStr "emergency")) eqn:E5;
      [apply strict_eq_JStr in E5; contradiction |].
    reflexivity. }
  split; [destruct (disk w (ops w)); auto |].
  split; [intros n; apply marked_read |].
  unfold w', issued, route, updated.
  cbv beta iota zeta delta
    [exec result handleNotificationPress markAsRead_sync markAsRead_resume try_catch bind
     get_notifications setNotifications setItem_call setItem_settle navigate modify ret
     emit with_notifications with_storage next_op console_error].
  cbn [fst snd storage notifications clock reads disk ops trace].
  destruct (destination (type notif));
    cbn [fst snd storage notifications clock reads disk ops trace];
    destruct (disk w (ops w));
    cbn [fst snd storage notifications clock reads disk ops trace];
    rewrite <- ?app_assoc, ?app_nil_r;
    repeat (split; [reflexivity |]);
    (split; intros H; first [discriminate H | split; reflexivity]).
Qed.

(** C4 at work: an unread chat record is pressed. *)
Lemma C4_press_marks_then_routes_witness :
  let record := newNotif (sample_notification "n1" "hello" "chat" "conv-7") 1000 in
  let w := with_notifications [record] (quiet 3000) in
  trace (exec (handleNotificationPress sample_user record) w)
  = [SetNotifications [with_read_true record];
     SetItem (storageKey sample_user) [with_read_true record];
     Navigate "MainTabs" "Chat"].
Proof.
  intros record w.
  destruct (C4_press_marks_then_routes sample_user record w)
    as (navigation & settled & Htrace & Hchat & _ & _ & _ & _ & Hsettled & _).
  rewrite Htrace, (Hchat eq_refl).
  destruct Hsettled as [-> | ->]; [reflexivity |].
  exfalso. revert Htrace. rewrite (Hchat eq_refl). vm_compute. intros [=].
Defined.

(** C4 as the spec words it fails: the record is not read in the store when
    the destination is produced. An unread chat record, stored and on
    screen, is pressed. When the handler navigates, the stored record is
    still unread; with a disk that fulfils the write it is read only once
    the write has settled, after the navigation; with a disk that rejects
    the write the handler navigates all the same and the stored record stays
    unread. *)
Lemma C4_unread_at_navigation_counterexample :
  let record := newNotif (sample_notification "n1" "hello" "chat" "conv-7") 1000 in
  let key := storageKey sample_user in
  let world (fulfils : bool) :=
    {| storage := {[ key := [record] ]}; notifications := [record];
       clock := fun _ => 3000; reads := 0; disk := fun _ => fulfils; ops := 0;
       trace := [] |} in
  let press := handleNotificationPress sample_user record in
  let at_switch (w : World) :=
    exec (navigate "MainTabs" "Chat") (exec (markAsRead_sync sample_user "n1") w) in
  read record = false
  /\ destination (type record) = Some "Chat"
  /\ trace (at_switch (world true))
     = [SetNotifications [with_read_true record]; SetItem key [with_read_true record];
        Navigate "MainTabs" "Chat"]
  /\ read <$> stored sample_user (at_switch (world true)) = [false]
  /\ trace (exec press (world true)) = trace (at_switch (world true))
  /\ read <$> stored sample_user (exec press (world true)) = [true]
  /\ trace (exec press (world false))
     = trace (at_switch (world false)) ++ [ConsoleError "Error marking as read:"]
  /\ read <$> stored sample_user (exec press (world false)) = [false].
Proof. vm_compute. repeat split. Qed.

End HistoryFacts.

(** * Further properties of the notification history screen *)

Section HistoryMore.
Import HistoryScreen.

(** ** The sort *)

Lemma insert_desc_perm (x : NotificationRecord) (l : list NotificationRecord) :
  insert_desc x l ≡ₚ x :: l.
Proof.
  induction l as [| y rest IH]; simpl; [reflexivity |].
  destruct (timestamp x <? timestamp y); [| reflexivity].
  rewrite IH. apply Permutation_swap.
Qed.

Lemma sort_desc_perm (l : list NotificationRecord) : sort_desc l ≡ₚ l.
Proof.
  induction l as [| x rest IH]; simpl; [reflexivity |].
  rewrite insert_desc_perm. now apply Permutation_skip.
Qed.

Lemma descending_cons (y : NotificationRecord) (l : list NotificationRecord) :
  descending (y :: l)
  = match l with
    | [] => true
    | b :: _ => timestamp b <=? timestamp y
    end && descending l.
Proof. destruct l; reflexivity. Qed.

Lemma insert_desc_descending (x : NotificationRecord) (l : list NotificationRecord) :
  descending l = true -> descending (insert_desc x l) = true.
Proof.
  induction l as [| y rest IH]; intros H; [reflexivity |].
  simpl insert_desc. destruct (Z.ltb_spec (timestamp x) (timestamp y)) as [Hlt | Hge].
  - rewrite descending_cons in H. apply andb_prop in H as [Hhead Hrest].
    rewrite descending_cons, (IH Hrest), andb_true_r.
    destruct rest as [| z rest']; simpl.
    + apply Z.leb_le. lia.
    + destruct (timestamp x <? timestamp z); [exact Hhead | apply Z.leb_le; lia].
  - rewrite descending_cons, H, andb_true_r. apply Z.leb_le. lia.
Qed.

Lemma sort_desc_descending (l : list NotificationRecord) : descending (sort_desc l) = true.
Proof.
  induction l as [| x rest IH]; [reflexivity |].
  simpl. now apply insert_desc_descending.
Qed.

Lemma sort_desc_fixed (l : list NotificationRecord) :
  descending l = true -> sort_desc l = l.
Proof.
  induction l as [| x rest IH]; intros H; [reflexivity |].
  rewrite descending_cons in H. apply andb_prop in H as [Hhead Hrest].
  simpl. rewrite (IH Hrest). destruct rest as [| y rest']; [reflexivity |].
  simpl. apply Z.leb_le in Hhead.
  destruct (Z.ltb_spec (timestamp x) (timestamp y)); [lia | reflexivity].
Qed.

Lemma sort_desc_idempotent (l : list NotificationRecord) :
  sort_desc (sort_desc l) = sort_desc l.
Proof. apply sort_desc_fixed, sort_desc_descending. Qed.

(** ** Running the other operations *)

Lemma load_run (user : option Auth.User) (w : World) :
  loadNotificationHistory user w
  = if disk w (ops w) then
      match storage w !! storageKey user with
      | Some parsed =>
          (Returned tt,
           with_notifications (sort_desc parsed)
             (emit (SetNotifications (sort_desc parsed))
                (next_op (emit (GetItem (storageKey user)) w))))
      | None => (Returned tt, next_op (emit (GetItem (storageKey user)) w))
      end
    else (Returned tt,
          emit (ConsoleError "Error loading notification history:")
            (next_op (emit (GetItem (storageKey user)) w))).
Proof.
  unfold loadNotificationHistory, try_catch, bind, AsyncStorage_getItem.
  destruct (disk w (ops w)); [| reflexivity].
  destruct (storage w !! storageKey user); reflexivity.
Qed.

Lemma clear_run (user : option Auth.User) (w : World) :
  clearAll user w
  = if disk w (ops w) then
      (Returned tt,
       with_notifications []
         (emit (SetNotifications [])
            (with_storage (delete (storageKey user) (storage w))
               (next_op (emit (RemoveItem (storageKey user)) w)))))
    else (Returned tt,
          emit (ConsoleError "Error clearing notifications:")
            (next_op (emit (RemoveItem (storageKey user)) w))).
Proof.
  unfold clearAll, try_catch, bind, AsyncStorage_removeItem.
  destruct (disk w (ops w)); reflexivity.
Qed.

Lemma press_run (user : option Auth.User) (notif : NotificationRecord) (w : World) :
  let w' := exec (handleNotificationPress user notif) w in
  notifications w' = marked (notifications w) (id notif)
  /\ storage w' = (if disk w (ops w)
                   then <[storageKey user := marked (notifications w) (id notif)]> (storage w)
                   else storage w)
  /\ disk w' = disk w.
Proof.
  unfold exec, handleNotificationPress, markAsRead_sync, markAsRead_resume, try_catch, bind,
    get_notifications, setNotifications, setItem_call, setItem_settle, navigate, modify, ret.
  simpl. destruct (destination (type notif)); simpl; destruct (disk w (ops w)); simpl;
    repeat split.
Qed.

(** ** Loading *)

(** X1. [loadNotificationHistory] never throws and never writes. When the
    read is fulfilled and the key holds a list, the screen shows that list
    sorted most recent first: the same records, none lost or added. When
    the key is missing the screen keeps the list it had, and nothing is
    logged. When the read is rejected the screen keeps the list it had and
    the error is logged. *)
Theorem X1_load_shows_stored_sorted (user : option Auth.User) (w : World) :
  let w' := exec (loadNotificationHistory user) w in
  let key := storageKey user in
  result (loadNotificationHistory user) w = Returned tt
  /\ storage w' = storage w
  /\ (disk w (ops w) = true ->
      forall parsed, storage w !! key = Some parsed ->
        notifications w' ≡ₚ parsed
        /\ recent_first (notifications w')
        /\ length (notifications w') = length parsed
        /\ trace w' = trace w ++ [GetItem key; SetNotifications (notifications w')])
  /\ (disk w (ops w) = true -> storage w !! key = None ->
      notifications w' = notifications w /\ trace w' = trace w ++ [GetItem key])
  /\ (disk w (ops w) = false ->
      notifications w' = notifications w
      /\ trace w' = trace w ++ [GetItem key;
                                 ConsoleError "Error loading notification history:"]).
Proof.
  intros w' key. unfold w', exec, result. rewrite load_run. fold key.
  destruct (disk w (ops w)).
  - destruct (storage w !! key) as [parsed |] eqn:E; simpl.
    + split; [reflexivity |]. split; [reflexivity |]. split.
      { intros _ p [= <-].
        split; [apply sort_desc_perm |].
        split; [apply descending_recent_first, sort_desc_descending |].
        split; [apply sort_desc_length |].
        rewrite <- app_assoc. reflexivity. }
      split; [discriminate | discriminate].
    + split; [reflexivity |]. split; [reflexivity |].
      split; [discriminate |]. split; [| discriminate].
      intros _ _. split; reflexivity.
  - simpl. split; [reflexivity |]. split; [reflexivity |].
    split; [discriminate |]. split; [discriminate |].
    intros _. split; [reflexivity |]. rewrite <- app_assoc. reflexivity.
Qed.

(** X1 at work: two stored records, the older one first. *)
Lemma X1_load_shows_stored_sorted_witness :
  let older := newNotif (sample_reminder "m1") 1001 in
  let newer := newNotif (sample_notification "n1" "hello" "chat" "conv-7") 2000 in
  let w := with_storage {[storageKey sample_user := [older; newer]]} (quiet 3000) in
  notifications (exec (loadNotificationHistory sample_user) w) ≡ₚ [older; newer]
  /\ recent_first (notifications (exec (loadNotificationHistory sample_user) w)).
Proof.
  intros older newer w.
  destruct (X1_load_shows_stored_sorted sample_user w) as (_ & _ & Hload & _).
  destruct (Hload eq_refl [older; newer] eq_refl) as (Hperm & Hsorted & _).
  exact (conj Hperm Hsorted).
Defined.

(** ** Clearing *)

(** X2. [clearAll] never throws. When the removal is fulfilled the key of
    the user is gone, every other key is as it was and the screen is empty;
    the next notification then starts a list of one record. When the
    removal is rejected the error is logged and neither storage nor screen
    changes: the list stays on screen. *)
Theorem X2_clearAll (user : option Auth.User) (w : World) :
  let w' := exec (clearAll user) w in
  let key := storageKey user in
  result (clearAll user) w = Returned tt
  /\ (disk w (ops w) = true ->
      storage w' !! key = None
      /\ (forall k, k <> key -> storage w' !! k = storage w !! k)
      /\ stored user w' = []
      /\ notifications w' = [])
  /\ (disk w (ops w) = false ->
      storage w' = storage w
      /\ notifications w' = notifications w
      /\ trace w' = trace w ++ [RemoveItem key;
                                 ConsoleError "Error clearing notifications:"])
  /\ (reliable w ->
      forall notification,
        stored user (exec (addNotificationToHistory user notification) w')
        = [newNotif notification (clock w (reads w))]).
Proof.
  intros w' key. unfold w', exec, result. rewrite clear_run. fold key.
  destruct (disk w (ops w)) eqn:Hdisk; cbn [fst snd].
  - set (v := with_notifications [] _).
    assert (Hstorage : storage v = delete key (storage w)) by reflexivity.
    assert (Hsv : stored user v = []).
    { unfold stored. fold key. now rewrite Hstorage, lookup_delete_eq. }
    split; [reflexivity |]. split.
    { intros _. rewrite Hstorage, lookup_delete_eq.
      split; [reflexivity |]. split; [| split; [exact Hsv | reflexivity]].
      intros k Hk. now apply lookup_delete_ne. }
    split; [discriminate |].
    intros Hr notification.
    assert (Hrv : reliable v) by (intros k; apply Hr).
    fold (exec (addNotificationToHistory user notification) v).
    rewrite stored_after_add by exact Hrv.
    unfold persisted, hit_of. rewrite Hsv. simpl.
    destruct (isChat _); reflexivity.
  - split; [reflexivity |]. split; [discriminate |]. split.
    { intros _. simpl. rewrite <- app_assoc. repeat split. }
    intros Hr. rewrite (Hr (ops w)) in Hdisk. discriminate.
Qed.

(** X2 at work: a stored list is cleared and a reminder arrives. *)
Lemma X2_clearAll_witness :
  let w := exec (addNotificationToHistory sample_user
                   (sample_notification "n1" "hello" "chat" "conv-7")) (quiet 1000) in
  stored sample_user
    (exec (addNotificationToHistory sample_user (sample_reminder "m1"))
       (exec (clearAll sample_user) w))
  = [newNotif (sample_reminder "m1") 1000].
Proof.
  intros w.
  destruct (X2_clearAll sample_user w) as (_ & _ & _ & Hnext).
  apply Hnext. intros k. reflexivity.
Defined.

(** ** One key per user *)

Lemma storageKey_inj (u v : Auth.User) :
  storageKey (Some u) = storageKey (Some v) -> Auth.id u = Auth.id v.
Proof. unfold storageKey. simpl. intros H. now injection H. Qed.

Lemma perform_frame (user : option Auth.User) (a : Action) (w : World) (k : string) :
  k <> storageKey user ->
  storage (exec (perform user a) w) !! k = storage w !! k.
Proof.
  intros Hk. destruct a as [| notification | rid | | notif]; simpl.
  - unfold exec. rewrite load_run.
    destruct (disk w (ops w)); [destruct (storage w !! storageKey user) |]; reflexivity.
  - destruct (add_cases user notification w) as [[Hs _] | ->].
    + now rewrite Hs.
    + rewrite after_add_storage. now apply lookup_insert_ne.
  - destruct (markAsRead_run user rid w) as (_ & _ & Hs & _). rewrite Hs.
    destruct (disk w (ops w)); [now apply lookup_insert_ne | reflexivity].
  - unfold exec. rewrite clear_run.
    destruct (disk w (ops w)); [| reflexivity]. simpl. now apply lookup_delete_ne.
  - destruct (press_run user notif w) as (_ & Hs & _). rewrite Hs.
    destruct (disk w (ops w)); [now apply lookup_insert_ne | reflexivity].
Qed.

(** X3. Whatever one user's screen is made to do, and whatever the disk
    does, the list stored for a user with another id is left as it is. A
    screen rendered without a user writes under the key of the id
    [undefined]. *)
Theorem X3_other_users_untouched (u v : Auth.User) (actions : list Action) (w : World) :
  Auth.id u <> Auth.id v ->
  stored (Some v) (run (Some u) actions w) = stored (Some v) w
  /\ (storageKey None = storageKey (Some v) <-> Auth.id v = "undefined").
Proof.
  intros Hne. split.
  - revert w. induction actions as [| a rest IH]; intros w; [reflexivity |].
    simpl. rewrite IH. unfold stored. rewrite perform_frame; [reflexivity |].
    intros Hk. apply Hne. symmetry. now apply storageKey_inj.
  - unfold storageKey. simpl. split.
    + intros H. now injection H.
    + intros ->. reflexivity.
Qed.

(** X3 at work: Maria's screen receives a message and clears; the list of
    another user stays. *)
Lemma X3_other_users_untouched_witness :
  let maria := {| Auth.id := "42"; Auth.username := "maria"; Auth.full_name := "Maria Silva";
                  Auth.email := "maria@example.org"; Auth.role := Some Auth.RoleUser |} in
  let joao := {| Auth.id := "43"; Auth.username := "joao"; Auth.full_name := "Joao Lima";
                 Auth.email := "joao@example.org"; Auth.role := Some Auth.RoleUser |} in
  let kept := [newNotif (sample_reminder "m1") 1001] in
  let w := with_storage {[storageKey (Some joao) := kept]} (quiet 2000) in
  stored (Some joao)
    (run (Some maria)
       [Receive (sample_notification "n1" "hello" "chat" "conv-7"); Clear] w)
  = kept.
Proof.
  intros maria joao kept w.
  destruct (X3_other_users_untouched maria joao
              [Receive (sample_notification "n1" "hello" "chat" "conv-7"); Clear] w)
    as [Hkept _].
  - discriminate.
  - rewrite Hkept. reflexivity.
Defined.

(** ** Screen and storage *)

Lemma perform_reliable (user : option Auth.User) (a : Action) (w : World) :
  reliable w -> reliable (exec (perform user a) w).
Proof.
  intros Hr k. destruct a as [| notification | rid | | notif]; simpl.
  - unfold exec. rewrite load_run, (Hr (ops w)).
    destruct (storage w !! storageKey user); apply Hr.
  - now apply reliable_after_add.
  - destruct (markAsRead_run user rid w) as (_ & _ & _ & Hd & _). rewrite Hd. apply Hr.
  - unfold exec. rewrite clear_run, (Hr (ops w)). apply Hr.
  - destruct (press_run user notif w) as (_ & _ & Hd). rewrite Hd. apply Hr.
Qed.

Lemma perform_synced (user : option Auth.User) (a : Action) (w : World) :
  reliable w -> synced user w -> synced user (exec (perform user a) w).
Proof.
  intros Hr Hsync. unfold synced in *.
  destruct a as [| notification | rid | | notif]; simpl.
  - unfold exec, stored in *. rewrite load_run, (Hr (ops w)).
    destruct (storage w !! storageKey user) as [parsed |] eqn:E; simpl; rewrite E.
    + apply sort_desc_perm.
    + exact Hsync.
  - rewrite stored_after_add by exact Hr. rewrite exec_add by exact Hr.
    rewrite after_add_notifications. unfold shown.
    destruct (hit_of user notification w); [apply sort_desc_perm | reflexivity].
  - destruct (markAsRead_run user rid w) as (_ & Hn & Hs & _).
    unfold stored. rewrite Hn, Hs, (Hr (ops w)), lookup_insert_eq. reflexivity.
  - unfold exec, stored. rewrite clear_run, (Hr (ops w)). simpl.
    rewrite lookup_delete_eq. reflexivity.
  - destruct (press_run user notif w) as (Hn & Hs & _).
    unfold stored. rewrite Hn, Hs, (Hr (ops w)), lookup_insert_eq. reflexivity.
Qed.

(** X4. With a disk that fulfils every call, a screen that shows the stored
    records keeps showing exactly the stored records, each as often as it
    is stored, through any sequence of loads, notifications, marks, presses
    and clears; this holds from an empty store on. *)
Theorem X4_screen_matches_storage (user : option Auth.User) (actions : list Action)
  (w : World) :
  reliable w -> synced user w ->
  synced user (run user actions w)
  /\ forall clock, synced user (run user actions (launch clock (fun _ => true))).
Proof.
  assert (Hrun : forall l v, reliable v -> synced user v -> synced user (run user l v)).
  { induction l as [| a rest IH]; intros v Hr Hs; [exact Hs |].
    simpl. apply IH; [now apply perform_reliable | now apply perform_synced]. }
  intros Hr Hs. split; [now apply Hrun |].
  intros clock. apply Hrun; [intros k; reflexivity |].
  unfold synced, stored. simpl. rewrite lookup_empty. reflexivity.
Qed.

(** X4 at work: two notifications, a press and a reload over an empty store. *)
Lemma X4_screen_matches_storage_witness :
  let first := sample_notification "n1" "hello" "chat" "conv-7" in
  let actions := [Receive first; Receive (sample_reminder "m1");
                  Press (newNotif first 1000); Load] in
  notifications (run sample_user actions (quiet 1000))
  ≡ₚ stored sample_user (run sample_user actions (quiet 1000)).
Proof.
  intros first actions.
  destruct (X4_screen_matches_storage sample_user actions (quiet 1000)) as [Hsync _].
  - intros k. reflexivity.
  - unfold synced, stored. simpl. rewrite lookup_empty. reflexivity.
  - exact Hsync.
Defined.

(** ** The unread count *)

Lemma unreadCount_marked (l : list NotificationRecord) (rid : string) :
  (unreadCount (marked l rid)
   + length (List.filter (fun n => negb (read n) && String.eqb (id n) rid) l)
   = unreadCount l)%nat.
Proof.
  unfold unreadCount, marked. induction l as [| n rest IH]; [reflexivity |].
  simpl. destruct (String.eqb (id n) rid); destruct (read n); simpl; lia.
Qed.

Lemma unreadCount_zero (l : list NotificationRecord) :
  unreadCount l = 0%nat <-> forall n, n ∈ l -> read n = true.
Proof.
  unfold unreadCount. induction l as [| m rest IH]; simpl.
  - split; [intros _ n Hn; inversion Hn | reflexivity].
  - destruct (read m) eqn:E; simpl.
    + rewrite IH. split.
      * intros H n Hn. apply elem_of_cons in Hn as [-> | Hn]; auto.
      * intros H n Hn. apply H. now right.
    + split; [discriminate |]. intros H.
      specialize (H m ltac:(left)). congruence.
Qed.

(** X5. A press never raises the unread count of the screen: the count
    drops by the number of unread records that carry the pressed id, so it
    drops by at least one when the pressed record is on screen and unread.
    The banner disappears exactly when every record on screen is read. *)
Theorem X5_press_lowers_unread (user : option Auth.User) (notif : NotificationRecord)
  (w : World) :
  let before := notifications w in
  let after := notifications (exec (handleNotificationPress user notif) w) in
  (unreadCount after
   + length (List.filter (fun n => negb (read n) && String.eqb (id n) (id notif)) before)
   = unreadCount before)%nat
  /\ (unreadCount after <= unreadCount before)%nat
  /\ (notif ∈ before -> read notif = false -> (unreadCount after < unreadCount before)%nat)
  /\ (unreadBanner after = None <-> forall n, n ∈ after -> read n = true).
Proof.
  intros before after.
  assert (Hafter : after = marked before (id notif)) by apply press_run.
  pose proof (unreadCount_marked before (id notif)) as Hcount. rewrite <- Hafter in Hcount.
  split; [exact Hcount |]. split; [lia |]. split.
  - intros Hin Hunread.
    assert (Hpos : (0 < length (List.filter
                                  (fun n => negb (read n) && String.eqb (id n) (id notif))
                                  before))%nat).
    { clear Hcount Hafter. induction before as [| m rest IH]; [inversion Hin |].
      simpl. apply elem_of_cons in Hin as [<- | Hin].
      - rewrite Hunread, String.eqb_refl. simpl. lia.
      - destruct (negb (read m) && String.eqb (id m) (id notif)); simpl; [lia | auto]. }
    lia.
  - rewrite <- unreadCount_zero. unfold unreadBanner.
    destruct (unreadCount after) as [| k]; simpl; [tauto |].
    split; discriminate.
Qed.

(** X5 at work: the unread chat record of a screen with two records. *)
Lemma X5_press_lowers_unread_witness :
  let record := newNotif (sample_notification "n1" "hello" "chat" "conv-7") 1000 in
  let w := with_notifications [newNotif (sample_reminder "m1") 2000; record] (quiet 3000) in
  (unreadCount (notifications (exec (handleNotificationPress sample_user record) w))
   < unreadCount (notifications w))%nat.
Proof.
  intros record w.
  destruct (X5_press_lowers_unread sample_user record w) as (_ & _ & Hless & _).
  apply Hless; [| reflexivity].
  apply list_elem_of_lookup. exists 1%nat. reflexivity.
Defined.

(** ** Icon, colour and destination *)

Lemma category_rendering (t : JSValue) :
  (destination t = Some "Chat" /\ getNotificationIcon t = "chatbubbles"
   /\ getNotificationColor t = "#3498db")
  \/ (destination t = Some "Medications" /\ getNotificationIcon t = "medical"
      /\ getNotificationColor t = "#2ecc71")
  \/ (destination t = Some "Home" /\ getNotificationIcon t = "calendar"
      /\ getNotificationColor t = "#667eea")
  \/ (destination t = Some "Maps" /\ getNotificationIcon t = "alert-circle"
      /\ getNotificationColor t = "#e74c3c")
  \/ (destination t = None /\ getNotificationIcon t = "notifications"
      /\ getNotificationColor t = "#95a5a6").
Proof.
  unfold getNotificationIcon, getNotificationColor, destination.
  destruct (strict_eq t (JStr "chat")); [auto |].
  destruct (strict_eq t (JStr "medication")); [auto |].
  destruct (strict_eq t (JStr "prescription")); [auto |].
  destruct (strict_eq t (JStr "appointment")); [auto 6 |].
  destruct (strict_eq t (JStr "emergency")); auto 8.
Qed.

(** X6. The three [switch] statements over the category agree: a category
    gets the default icon exactly when it gets the default colour and
    exactly when a press navigates nowhere, and two categories that
    navigate to the same screen share icon and colour. *)
Theorem X6_icon_colour_destination_agree (t t' : JSValue) :
  (getNotificationIcon t = "notifications" <-> destination t = None)
  /\ (getNotificationColor t = "#95a5a6" <-> destination t = None)
  /\ (destination t = destination t' -> destination t <> None ->
      getNotificationIcon t = getNotificationIcon t'
      /\ getNotificationColor t = getNotificationColor t').
Proof.
  destruct (category_rendering t) as [H | [H | [H | [H | H]]]];
    destruct H as (Hd & Hi & Hc); rewrite Hd, Hi, Hc;
    (split; [split; discriminate || reflexivity |]);
    (split; [split; discriminate || reflexivity |]);
    intros He Hn; try contradiction;
    destruct (category_rendering t') as [H | [H | [H | [H | H]]]];
    destruct H as (Hd' & Hi' & Hc'); rewrite Hd' in He; try discriminate He;
    rewrite Hi', Hc'; split; reflexivity.
Qed.

(** ** Rejected storage calls *)

Lemma add_rejected (user : option Auth.User) (notification : Notification) (w : World) :
  disk w (ops w) = false \/ disk w (S (ops w)) = false ->
  exists v,
    addNotificationToHistory user notification w
    = (Returned tt, emit (ConsoleError "Error adding notification to history:") v)
    /\ storage v = storage w /\ notifications v = notifications w.
Proof.
  intros Hrej.
  destruct (disk w (ops w)) eqn:Hget.
  - destruct Hrej as [Hrej | Hset]; [discriminate |].
    unfold addNotificationToHistory, try_catch.
    erewrite bind_Returned by reflexivity. cbv zeta.
    erewrite bind_Returned by (apply getItem_ok; exact Hget).
    assert (Happend : forall (v : World) (l sh : list NotificationRecord),
      disk v = disk w -> ops v = S (ops w) ->
      bind (AsyncStorage_setItem (storageKey user) l) (fun _ => setNotifications sh) v
      = (Thrown rejected, next_op (emit (SetItem (storageKey user) l) v))).
    { intros v l sh Hd Ho. erewrite bind_Thrown; [reflexivity |].
      unfold AsyncStorage_setItem, setItem_call, setItem_settle, bind, modify. simpl.
      rewrite Hd, Ho, Hset. reflexivity. }
    destruct (strict_eq _ _).
    + erewrite bind_Returned by apply find_scan.
      destruct (fst (scan _ _ _ _)); rewrite Happend by reflexivity;
        eexists; (split; [reflexivity | split; reflexivity]).
    + rewrite Happend by reflexivity. eexists. split; [reflexivity | split; reflexivity].
  - unfold addNotificationToHistory, try_catch.
    erewrite bind_Returned by reflexivity. cbv zeta.
    erewrite bind_Thrown
      by (unfold AsyncStorage_getItem; simpl; rewrite Hget; reflexivity).
    eexists. split; [reflexivity | split; reflexivity].
Qed.

(** X7. [addNotificationToHistory] never throws. When the read or the write
    is rejected, storage and screen are left as they were, the notification
    is dropped and the last effect of the call is the error written to the
    console. When both are fulfilled the call reads, writes and sets the
    screen, and logs nothing. *)
Theorem X7_add_survives_rejection (user : option Auth.User) (notification : Notification)
  (w : World) :
  let w' := exec (addNotificationToHistory user notification) w in
  result (addNotificationToHistory user notification) w = Returned tt
  /\ (disk w (ops w) = false \/ disk w (S (ops w)) = false ->
      storage w' = storage w
      /\ notifications w' = notifications w
      /\ last (trace w') = Some (ConsoleError "Error adding notification to history:"))
  /\ (disk w (ops w) = true -> disk w (S (ops w)) = true ->
      trace w' = trace w ++ [GetItem (storageKey user);
                             SetItem (storageKey user) (stored user w');
                             SetNotifications (notifications w')]).
Proof.
  intros w'. split; [| split].
  - unfold result.
    destruct (disk w (ops w)) eqn:Hget; [destruct (disk w (S (ops w))) eqn:Hset |].
    + now rewrite add_run.
    + destruct (add_rejected user notification w (or_intror Hset)) as (v & -> & _).
      reflexivity.
    + destruct (add_rejected user notification w (or_introl Hget)) as (v & -> & _).
      reflexivity.
  - intros Hrej. unfold w', exec.
    destruct (add_rejected user notification w Hrej) as (v & -> & Hs & Hn).
    simpl. rewrite last_snoc. auto.
  - intros Hget Hset. unfold w', exec. rewrite add_run by assumption. cbn [snd].
    rewrite after_add_trace, after_add_notifications.
    unfold stored. rewrite after_add_storage, lookup_insert_eq. reflexivity.
Qed.

(** X7 at work: a disk that rejects the write. *)
Lemma X7_add_survives_rejection_witness :
  let w := {| storage := ∅; notifications := []; clock := fun _ => 1000; reads := 0;
              disk := fun k => Nat.eqb k 0; ops := 0; trace := [] |} in
  stored sample_user
    (exec (addNotificationToHistory sample_user (sample_reminder "m1")) w) = []
  /\ last (trace (exec (addNotificationToHistory sample_user (sample_reminder "m1")) w))
     = Some (ConsoleError "Error adding notification to history:").
Proof.
  intros w.
  destruct (X7_add_survives_rejection sample_user (sample_reminder "m1") w)
    as (_ & Hrej & _).
  destruct (Hrej (or_intror eq_refl)) as (Hs & _ & Hlast).
  split; [| exact Hlast]. unfold stored. rewrite Hs. reflexivity.
Defined.

(** X8. A mark and the next reload. When the write of [markAsRead] is
    fulfilled, a reload shows the marked list sorted, so every record with
    the id is still read. When the write is rejected the screen shows the
    record read, but storage was not changed: a reload shows the stored
    list as it was before the mark. *)
Theorem X8_mark_then_reload (user : option Auth.User) (rid : string) (w : World) :
  disk w (S (ops w)) = true ->
  let pressed := exec (markAsRead user rid) w in
  let reloaded := exec (loadNotificationHistory user) pressed in
  (forall n, n ∈ notifications pressed -> id n = rid -> read n = true)
  /\ (disk w (ops w) = true ->
      notifications reloaded = sort_desc (marked (notifications w) rid)
      /\ forall n, n ∈ notifications reloaded -> id n = rid -> read n = true)
  /\ (disk w (ops w) = false ->
      forall parsed, storage w !! storageKey user = Some parsed ->
        notifications reloaded = sort_desc parsed).
Proof.
  intros Hload pressed reloaded.
  destruct (markAsRead_run user rid w) as (_ & Hn & Hs & Hd & Ho).
  fold pressed in Hn, Hs, Hd, Ho.
  assert (Hrun : reloaded = snd (loadNotificationHistory user pressed)) by reflexivity.
  rewrite load_run, Hd, Ho, Hload, Hs in Hrun.
  split; [rewrite Hn; intros n; apply marked_read |]. split.
  - intros Hok. rewrite Hok, lookup_insert_eq in Hrun. rewrite Hrun. simpl.
    split; [reflexivity |]. intros n Hin. apply (marked_read (notifications w)).
    rewrite <- sort_desc_perm. exact Hin.
  - intros Hrej parsed Hp. rewrite Hrej, Hp in Hrun. rewrite Hrun. reflexivity.
Qed.

(** X8 at work: the write of the mark is rejected, the reload is read. *)
Lemma X8_mark_then_reload_witness :
  let record := newNotif (sample_notification "n1" "hello" "chat" "conv-7") 1000 in
  let w := {| storage := {[storageKey sample_user := [record]]};
              notifications := [record]; clock := fun _ => 2000; reads := 0;
              disk := fun k => Nat.eqb k 1; ops := 0; trace := [] |} in
  read <$> notifications (exec (markAsRead sample_user "n1") w) = [true]
  /\ notifications (exec (loadNotificationHistory sample_user)
                       (exec (markAsRead sample_user "n1") w))
     = [record].
Proof.
  intros record w.
  destruct (X8_mark_then_reload sample_user "n1" w eq_refl) as (_ & _ & Hlost).
  split; [reflexivity |].
  apply (Hlost eq_refl [record]). reflexivity.
Defined.

(** ** Reloading after a notification *)

Lemma descending_firstn (l : list NotificationRecord) (k : nat) :
  descending l = true -> descending (firstn k l) = true.
Proof.
  revert k. induction l as [| a rest IH]; intros k H; [now rewrite firstn_nil |].
  destruct k as [| k]; [reflexivity |].
  rewrite descending_cons in H. apply andb_prop in H as [Hhead Hrest].
  rewrite firstn_cons, descending_cons, (IH k Hrest), andb_true_r.
  destruct rest as [| b rest']; [now rewrite firstn_nil |].
  destruct k; [reflexivity | exact Hhead].
Qed.

(** X9. With a working disk, a reload right after a notification shows the
    stored list sorted. After a merge into a chat record that is the list
    already on screen. After a new record was put in front it is the list
    on screen when the stored list was ordered most recent first and the
    clock is not behind its timestamps. *)
Theorem X9_reload_after_add (user : option Auth.User) (notification : Notification)
  (w : World) :
  reliable w ->
  let w' := exec (addNotificationToHistory user notification) w in
  let reloaded := exec (loadNotificationHistory user) w' in
  notifications reloaded = sort_desc (stored user w')
  /\ (forall recentChat, hit_of user notification w = Some recentChat ->
      notifications reloaded = notifications w')
  /\ (hit_of user notification w = None ->
      descending (stored user w) = true ->
      (forall m, m ∈ stored user w -> timestamp m <= clock w (reads w)) ->
      notifications reloaded = notifications w').
Proof.
  intros Hr w' reloaded.
  assert (Hr' : reliable w') by now apply reliable_after_add.
  assert (Hstored : storage w' !! storageKey user = Some (persisted user notification w)).
  { unfold w'. rewrite exec_add by exact Hr. rewrite after_add_storage.
    apply lookup_insert_eq. }
  assert (Hs : stored user w' = persisted user notification w).
  { unfold stored. now rewrite Hstored. }
  assert (Hshown : notifications w' = shown user notification w).
  { unfold w'. rewrite exec_add by exact Hr. apply after_add_notifications. }
  assert (Hre : notifications reloaded = sort_desc (persisted user notification w)).
  { unfold reloaded, exec. rewrite load_run, (Hr' (ops w')), Hstored. reflexivity. }
  rewrite Hs, Hshown, Hre. split; [reflexivity |]. split.
  - intros recentChat Hhit. unfold shown. rewrite Hhit. reflexivity.
  - intros Hnone Hdesc Hclock. unfold shown, persisted. rewrite Hnone.
    apply sort_desc_fixed. unfold prepended. rewrite firstn_cons, descending_cons.
    rewrite descending_firstn by exact Hdesc. rewrite andb_true_r.
    destruct (stored user w) as [| b rest] eqn:E; [reflexivity |].
    simpl. apply Z.leb_le. apply Hclock. left.
Qed.

(** X9 at work: the second message of a conversation is merged. *)
Lemma X9_reload_after_add_witness :
  let w := at_time 11000
             (exec (addNotificationToHistory sample_user
                      (sample_notification "n1" "hello" "chat" "conv-7")) (quiet 1000)) in
  let w' := exec (addNotificationToHistory sample_user
                    (sample_notification "n2" "are you there?" "chat" "conv-7")) w in
  notifications (exec (loadNotificationHistory sample_user) w') = notifications w'.
Proof.
  intros w w'.
  destruct (X9_reload_after_add sample_user
              (sample_notification "n2" "are you there?" "chat" "conv-7") w)
    as (_ & Hmerged & _).
  - intros k. reflexivity.
  - apply (Hmerged (newNotif (sample_notification "n1" "hello" "chat" "conv-7") 1000)).
    reflexivity.
Defined.

End HistoryMore.

(** * Tactics for the effects of the service *)

(** Case analysis on the answers of the platform that the goal inspects,
    innermost first. *)
Ltac answer_cases :=
  repeat match goal with
         | |- context [match ?x with _ => _ end] =>
             lazymatch x with
             | context [match _ with _ => _ end] => fail
             | _ => destruct x eqn:?; simpl
             end
         end.

(** Case analysis on a membership in a list that is written out. *)
Ltac member_cases H tac :=
  repeat first
    [ apply elem_of_nil in H; contradiction
    | apply elem_of_cons in H as [H | H]; [first [discriminate H | tac H] |] ].

Ltac find_member :=
  repeat first [apply list_elem_of_here | apply list_elem_of_further].

(** Case analysis on the position of an element of a list that is written
    out. *)
Ltac index_cases H k tac :=
  repeat lazymatch type of H with
         | (_ :: _) !! k = _ =>
             destruct k as [| k]; simpl in H; [first [discriminate H | tac H] |]
         | [] !! _ = _ => discriminate H
         end.

(** An earlier position of a list that is written out, found by trying
    them in turn. *)
Ltac find_before :=
  let at_position j := (exists j; eexists; split; [lia | reflexivity]) in
  first [ at_position 0%nat | at_position 1%nat | at_position 2%nat | at_position 3%nat
        | at_position 4%nat | at_position 5%nat | at_position 6%nat | at_position 7%nat ].


(** * Properties of the notification service *)

Section ServiceFacts.
Import NotificationService.

(** ** Registration *)

(** C8. On a simulator or inside Expo Go, [registerForPushNotifications]
    returns [null] at once: the cached token is left as it is, and the only
    effect is the line written to the console; no permission is read or
    requested, no channel is created and no token is requested. *)
Theorem C8_capability_short_circuit (env : Env) (w : World) :
  Device_isDevice env = false \/ Constants_appOwnership env = Some "expo" ->
  let w' := exec (registerForPushNotifications env) w in
  result (registerForPushNotifications env) w = Returned None
  /\ expoPushToken w' = expoPushToken w
  /\ trace w' = trace w ++ [ConsoleLog "Must use physical device for Push Notifications"]
  /\ clock w' = clock w
  /\ reads w' = reads w.
Proof.
  intros Hcap w'.
  assert (Hskip : negb (Device_isDevice env)
                  || match Constants_appOwnership env with
                     | Some o => String.eqb o "expo"
                     | None => false
                     end = true).
  { destruct Hcap as [-> | ->]; [reflexivity |]. apply orb_true_r. }
  unfold w', exec, result, registerForPushNotifications. rewrite Hskip.
  repeat split.
Qed.

(** C8 at work: the simulator. *)
Lemma C8_capability_short_circuit_witness :
  result (registerForPushNotifications (sample_env false 200 (Returned JNull)))
         (idle (Some "ExponentPushToken[old]") 0)
  = Returned None
  /\ expoPushToken (exec (registerForPushNotifications (sample_env false 200 (Returned JNull)))
                         (idle (Some "ExponentPushToken[old]") 0))
     = Some "ExponentPushToken[old]".
Proof.
  destruct (C8_capability_short_circuit (sample_env false 200 (Returned JNull))
              (idle (Some "ExponentPushToken[old]") 0) (or_introl eq_refl))
    as (Hres & Htoken & _).
  exact (conj Hres Htoken).
Defined.

(** On a phone with permission granted the same call does reach the
    platform: the short circuit is what keeps the trace empty above. *)
Lemma registration_on_device :
  let w' := exec (registerForPushNotifications (sample_env true 200 (Returned JNull)))
                 (idle None 0) in
  expoPushToken w' = Some "ExponentPushToken[xyz]"
  /\ nth_error (trace w') 0 = Some GetPermissions
  /\ length (trace w') = 7%nat.
Proof. vm_compute. repeat split. Qed.

(** ** Scheduling *)

Lemma scheduleNotification_run (env : Env) (notificationData : NotificationData)
  (trigger : option NotificationTriggerInput) (w : World) :
  let request := request_of env notificationData trigger in
  scheduleNotification env notificationData trigger w
  = match scheduleNotificationAsync env request with
    | Returned notificationId =>
        (Returned (Some notificationId), emit (ScheduleNotification request) w)
    | Thrown _ =>
        (Returned None,
         emit (ConsoleError "Error scheduling notification:")
              (emit (ScheduleNotification request) w))
    end.
Proof.
  unfold scheduleNotification, try_catch, bind, call, console_error, modify, ret. simpl.
  destruct (scheduleNotificationAsync env _); reflexivity.
Qed.


Lemma round_seconds_le (ms : Z) : ms < 1500 -> Z.max 1 (round_seconds ms) = 1.
Proof.
  intros H. unfold round_seconds.
  assert ((ms + 500) / 1000 <= 1) by (apply Z.lt_succ_r, Z.div_lt_upper_bound; lia).
  lia.
Qed.

(** Up to [2 ^ 53] a whole number is a double. *)
Lemma to_double_exact (z : Z) : Z.abs z < 2 ^ 53 -> to_double z = z.
Proof.
  intros H. unfold to_double. cbv zeta.
  assert (Z.log2 (Z.abs z) < 53).
  { destruct (Z.eq_dec (Z.abs z) 0) as [-> | Hne]; [reflexivity |].
    apply Z.log2_lt_pow2; lia. }
  destruct (Z.log2 (Z.abs z) - 52 <=? 0) eqn:E; [reflexivity |].
  apply Z.leb_gt in E. lia.
Qed.

(** Rounding to a double keeps the sign. *)
Lemma to_double_nonpos (z : Z) : z <= 0 -> to_double z <= 0.
Proof.
  intros H. unfold to_double. cbv zeta.
  destruct (Z.log2 (Z.abs z) - 52 <=? 0) eqn:E; [exact H |].
  apply Z.leb_gt in E.
  set (e := Z.log2 (Z.abs z) - 52) in *.
  assert (Hq : 0 <= Z.abs z / 2 ^ e) by (apply Z.div_pos; lia).
  assert (Hp : 0 < 2 ^ e) by (apply Z.pow_pos_nonneg; lia).
  assert (Hs : Z.sgn z <= 0) by (destruct z; simpl; lia).
  apply Z.mul_nonpos_nonneg; [exact Hs |].
  apply Z.mul_nonneg_nonneg; [| lia].
  destruct (_ <? _); [exact Hq |].
  destruct (_ <? _); [lia |].
  destruct (Z.even _); lia.
Qed.



(** The delay of a reminder: [NaN] for a fire time that is not a date, and
    otherwise a whole number of seconds, at least 1 and exactly 1 for a
    fire time that is not in the future. *)
Lemma delay_cases (fire : Date) (now : Z) :
  match getTime fire with
  | NaN => delay fire now = NaN
  | Num t =>
      exists seconds,
        delay fire now = Num seconds
        /\ seconds = Z.max 1 (round_seconds (to_double (t - now)))
        /\ 1 <= seconds
        /\ (t <= now -> seconds = 1)
        /\ (Z.abs (t - now) < 2 ^ 53 -> seconds = Z.max 1 (round_seconds (t - now)))
  end.
Proof.
  unfold delay. destruct (getTime fire) as [t |]; [| reflexivity].
  eexists. split; [reflexivity |]. split; [reflexivity |].
  split; [lia |]. split.
  - intros Hpast. apply round_seconds_le.
    assert (to_double (t - now) <= 0) by (apply to_double_nonpos; lia). lia.
  - intros Hsmall. now rewrite to_double_exact.
Qed.

(** A date made from a time value, within 8 640 000 000 000 000 ms of the
    epoch, is valid, and no other is. *)
Lemma getTime_new_Date (value : Z) :
  getTime (new_Date (Num value))
  = if Z.abs value <=? max_time then Num value else NaN.
Proof. reflexivity. Qed.




(** ** Reporting the token to the backend *)

Lemma register_no_token (env : Env) (userId sessionToken : string) (w : World) :
  expoPushToken w = None \/ expoPushToken w = Some "" ->
  registerPushTokenWithBackend env userId sessionToken w
  = (Returned (JBool false), emit (ConsoleError "No push token available") w).
Proof.
  intros H. unfold registerPushTokenWithBackend.
  erewrite bind_Returned by reflexivity.
  destruct H as [-> | ->]; reflexivity.
Qed.

Lemma register_with_token (env : Env) (userId sessionToken token : string) (w : World) :
  expoPushToken w = Some token -> token <> "" ->
  let url := register_url env in
  let init := register_init env token sessionToken in
  let failed (v : World) :=
    (Returned (JBool false), emit (ConsoleError "Error registering push token:") v) in
  registerPushTokenWithBackend env userId sessionToken w
  = match fetch env url init with
    | Thrown _ => failed (emit (Fetch url init) w)
    | Returned response =>
        match json response with
        | Thrown _ => failed (emit ReadJson (emit (Fetch url init) w))
        | Returned data =>
            match get data "success" with
            | None => failed (emit ReadJson (emit (Fetch url init) w))
            | Some success =>
                (Returned (js_or success (JBool false)),
                 emit ReadJson (emit (Fetch url init) w))
            end
        end
    end.
Proof.
  intros Htoken Hne url init failed. unfold registerPushTokenWithBackend.
  erewrite bind_Returned by reflexivity. rewrite Htoken.
  apply String.eqb_neq in Hne. rewrite Hne.
  unfold try_catch, bind, call, get_success, console_error, modify, ret, throw. simpl.
  fold url init.
  destruct (fetch env url init) as [response | e]; [| reflexivity].
  destruct (json response) as [data | e]; [| reflexivity].
  destruct (get data "success"); reflexivity.
Qed.

Lemma js_or_true (v : JSValue) : js_or v (JBool false) = JBool true -> v = JBool true.
Proof. unfold js_or. destruct (truthy v); [auto | discriminate]. Qed.

(** C3, as the code has it. [registerPushTokenWithBackend] never throws and
    leaves the cached token as it is. Without a cached token (none, or the
    empty string) it returns [false] and only writes to the console: there
    is no network call. With a token it posts once; a rejected [fetch] and
    a body that does not parse give [false]; a body that parses gives its
    [success] field when that is truthy and [false] otherwise, so [true] is
    returned only for a body whose [success] is [true]. The status code of
    the response is not read. *)
Theorem C3_register_with_backend (env : Env) (userId sessionToken : string) (w : World) :
  let outcome := result (registerPushTokenWithBackend env userId sessionToken) w in
  let w' := exec (registerPushTokenWithBackend env userId sessionToken) w in
  (exists v, outcome = Returned v)
  /\ expoPushToken w' = expoPushToken w
  /\ (expoPushToken w = None \/ expoPushToken w = Some "" ->
      outcome = Returned (JBool false)
      /\ trace w' = trace w ++ [ConsoleError "No push token available"])
  /\ (forall token, expoPushToken w = Some token -> token <> "" ->
      let url := register_url env in
      let init := register_init env token sessionToken in
      (exists rest, trace w' = trace w ++ Fetch url init :: rest
                    /\ forall u i, Fetch u i ∉ rest)
      /\ (forall e, fetch env url init = Thrown e -> outcome = Returned (JBool false))
      /\ (forall response e, fetch env url init = Returned response ->
            json response = Thrown e -> outcome = Returned (JBool false))
      /\ (forall response data, fetch env url init = Returned response ->
            json response = Returned data ->
            outcome = Returned (js_or (opt_get data "success") (JBool false)))
      /\ (outcome = Returned (JBool true) ->
          exists response data,
            fetch env url init = Returned response
            /\ json response = Returned data
            /\ get data "success" = Some (JBool true))).
Proof.
  intros outcome w'.
  assert (Hcases : expoPushToken w = None \/ expoPushToken w = Some ""
                   \/ exists token, expoPushToken w = Some token /\ token <> "").
  { destruct (expoPushToken w) as [token |]; [| auto].
    destruct (String.eqb_spec token ""); [subst; auto | eauto]. }
  assert (Hno : expoPushToken w = None \/ expoPushToken w = Some "" ->
                registerPushTokenWithBackend env userId sessionToken w
                = (Returned (JBool false), emit (ConsoleError "No push token available") w))
    by apply register_no_token.
  split; [| split; [| split]].
  - destruct Hcases as [H | [H | (token & H & Hne)]].
    + exists (JBool false). unfold outcome, result. rewrite Hno by auto. reflexivity.
    + exists (JBool false). unfold outcome, result. rewrite Hno by auto. reflexivity.
    + unfold outcome, result. rewrite (register_with_token env userId sessionToken token w H Hne).
      cbv zeta. destruct (fetch env _ _) as [response | e]; [| eauto].
      destruct (json response) as [data | e]; [| eauto].
      destruct (get data "success"); eauto.
  - destruct Hcases as [H | [H | (token & H & Hne)]].
    + unfold w', exec. rewrite Hno by auto. reflexivity.
    + unfold w', exec. rewrite Hno by auto. reflexivity.
    + unfold w', exec. rewrite (register_with_token env userId sessionToken token w H Hne).
      cbv zeta. destruct (fetch env _ _) as [response | e]; [| reflexivity].
      destruct (json response) as [data | e]; [| reflexivity].
      destruct (get data "success"); reflexivity.
  - intros H. unfold outcome, w', result, exec. rewrite Hno by exact H. split; reflexivity.
  - intros token H Hne url init.
    pose proof (register_with_token env userId sessionToken token w H Hne) as Hrun.
    cbv zeta in Hrun. fold url init in Hrun.
    unfold outcome, w', result, exec. rewrite Hrun. clear Hrun.
    split; [| split; [| split; [| split]]].
    + assert (Hnot : forall (l : list Event) u i,
                (forall e, e ∈ l -> e = ReadJson \/ exists m, e = ConsoleError m) ->
                Fetch u i ∉ l).
      { intros l u i Hl Hin. destruct (Hl _ Hin) as [E | [m E]]; discriminate E. }
      destruct (fetch env url init) as [response | e];
        [destruct (json response) as [data | e];
         [destruct (get data "success") |] |]; simpl; rewrite <- ?app_assoc; simpl;
        eexists; (split; [reflexivity |]); intros u i; apply Hnot; intros ev Hev;
        repeat (apply elem_of_cons in Hev as [-> | Hev]; [eauto |]);
        inversion Hev.
    + intros e ->. reflexivity.
    + intros response e -> ->. reflexivity.
    + intros response data -> ->. unfold opt_get.
      destruct (get data "success"); reflexivity.
    + destruct (fetch env url init) as [response | e]; [| discriminate].
      destruct (json response) as [data | e] eqn:Ejson; [| discriminate].
      destruct (get data "success") as [success |] eqn:Eget; [| discriminate].
      simpl. intros [= Htrue]. apply js_or_true in Htrue. subst success.
      exists response, data. auto.
Qed.

(** C3 at work: nothing cached, nothing sent. *)
Lemma C3_register_with_backend_witness :
  let env := sample_env true 200 (Returned (JObj [("success", JBool true)])) in
  result (registerPushTokenWithBackend env "42" "session") (idle None 0)
  = Returned (JBool false)
  /\ trace (exec (registerPushTokenWithBackend env "42" "session") (idle None 0))
     = [ConsoleError "No push token available"].
Proof.
  intros env.
  destruct (C3_register_with_backend env "42" "session" (idle None 0))
    as (_ & _ & Hnone & _).
  exact (Hnone (or_introl eq_refl)).
Defined.

(** C3 as the spec words it fails for a response outside 2xx whose body
    acknowledges: the backend answers 500 with [{ success: true }] and the
    call returns [true]. *)
Lemma C3_status_ignored_counterexample :
  let env := sample_env true 500 (Returned (JObj [("success", JBool true)])) in
  let w := idle (Some "ExponentPushToken[xyz]") 0 in
  (status <$> match fetch env (register_url env)
                      (register_init env "ExponentPushToken[xyz]" "session") with
              | Returned response => Some response
              | Thrown _ => None
              end) = Some 500
  /\ result (registerPushTokenWithBackend env "42" "session") w = Returned (JBool true).
Proof. vm_compute. split; reflexivity. Qed.

(** ** More on registration *)

Lemma skip_registration (env : Env) :
  negb (Device_isDevice env)
  || match Constants_appOwnership env with
     | Some o => String.eqb o "expo"
     | None => false
     end = true ->
  Device_isDevice env = false \/ Constants_appOwnership env = Some "expo".
Proof.
  intros H. apply orb_prop in H as [H | H].
  - left. now apply negb_true_iff in H.
  - right. destruct (Constants_appOwnership env) as [o |]; [| discriminate].
    apply String.eqb_eq in H. now subst.
Qed.

(** X10. [registerForPushNotifications] never throws, whatever the platform
    answers. It returns [null] only on a simulator, inside Expo Go, or when
    permission was not granted and the request for it came back not
    granted; then the cached token is left as it is. Every token it returns
    is the token it caches, and is either the one the platform issued for
    the configured project or the sentinel [local-only]. *)
Theorem X10_registration_outcomes (env : Env) (w : World) :
  let w' := exec (registerForPushNotifications env) w in
  exists r,
    result (registerForPushNotifications env) w = Returned r
    /\ (r = None ->
        expoPushToken w' = expoPushToken w
        /\ (Device_isDevice env = false
            \/ Constants_appOwnership env = Some "expo"
            \/ (getPermissionsAsync env <> Returned granted
                /\ exists s, requestPermissionsAsync env = Returned s /\ s <> granted)))
    /\ (forall t, r = Some t ->
        expoPushToken w' = Some t
        /\ (t = local_only
            \/ exists project, projectId env = Some project
                               /\ getExpoPushTokenAsync env project = Returned t)).
Proof.
  intros w'. unfold w'.
  destruct (negb (Device_isDevice env)
            || match Constants_appOwnership env with
               | Some o => String.eqb o "expo"
               | None => false
               end) eqn:Hskip.
  - apply skip_registration in Hskip as Hcap.
    exists None. unfold exec, result, registerForPushNotifications. rewrite Hskip.
    split; [reflexivity |]. split; [| discriminate].
    intros _. split; [reflexivity | tauto].
  - unfold exec, result, registerForPushNotifications. rewrite Hskip.
    unfold createNotificationChannels,
      try_catch, bind, call, console_log, console_warn, console_error, set_expoPushToken,
      modify, ret, throw, message_includes.
    simpl. answer_cases;
      eexists; (split; [reflexivity |]);
      (split;
       [intros Hr;
        first [discriminate Hr
              | split; [reflexivity |]; right; right;
                split; [discriminate | eexists; split; [reflexivity | discriminate]]]
       | intros t Ht;
         first [discriminate Ht
               | injection Ht as <-; split; [reflexivity |];
                 first [left; reflexivity
                       | right; eexists; split; [reflexivity | eassumption]]]]).
Qed.

(** X10 at work: permission denied twice, nothing cached. *)
Lemma X10_registration_outcomes_witness :
  let env := {| Device_isDevice := true; Constants_appOwnership := None;
                Platform_OS := ios; projectId := Some "a1b2c3";
                EXPO_PUBLIC_API_URL := None;
                getPermissionsAsync := Returned undetermined;
                requestPermissionsAsync := Returned denied;
                setNotificationChannelAsync := fun _ _ => Returned tt;
                getExpoPushTokenAsync := fun _ => Returned "ExponentPushToken[xyz]";
                scheduleNotificationAsync := fun _ => Returned "notification-1";
                fetch := fun _ _ => Thrown (Error None);
                toISOString := fun t => pretty t |} in
  result (registerForPushNotifications env) (idle None 0) = Returned None
  /\ expoPushToken (exec (registerForPushNotifications env) (idle None 0)) = None.
Proof.
  intros env.
  destruct (X10_registration_outcomes env (idle None 0)) as (r & Hr & Hnone & _).
  assert (E : r = None) by (vm_compute in Hr; congruence).
  subst r. exact (conj Hr (proj1 (Hnone eq_refl))).
Defined.

(** The channel calls found in the trace of the goal, as the witness. *)
Ltac supply_channels :=
  lazymatch goal with
  | |- context [SetNotificationChannel ?c1 ?i1 :: SetNotificationChannel ?c2 ?i2
                :: SetNotificationChannel ?c3 ?i3 :: SetNotificationChannel ?c4 ?i4 :: _] =>
      exists [SetNotificationChannel c1 i1; SetNotificationChannel c2 i2;
              SetNotificationChannel c3 i3; SetNotificationChannel c4 i4]
  | |- _ => exists []
  end.

Lemma no_skip (env : Env) :
  Device_isDevice env = true -> Constants_appOwnership env <> Some "expo" ->
  negb (Device_isDevice env)
  || match Constants_appOwnership env with
     | Some o => String.eqb o "expo"
     | None => false
     end = false.
Proof.
  intros -> Hown. simpl. destruct (Constants_appOwnership env) as [o |]; [| reflexivity].
  apply String.eqb_neq. congruence.
Qed.

(** X11. The path that ends with a platform token. On a phone, outside Expo
    Go, with permission granted at once or on request, with every channel
    call fulfilled and a project id configured, the call returns and caches
    the token of the platform, and its effects are, in this order: the
    permission is read; it is requested only when it was not yet granted;
    on Android the four channels chat, appointment, medication (high
    importance) and emergency (maximal importance) are created, on other
    systems none; the token is requested; the token is logged. *)
Theorem X11_channels_before_token (env : Env) (w : World) (s : PermissionStatus)
  (project token : string) :
  Device_isDevice env = true ->
  Constants_appOwnership env <> Some "expo" ->
  getPermissionsAsync env = Returned s ->
  s = granted \/ requestPermissionsAsync env = Returned granted ->
  (forall c i, setNotificationChannelAsync env c i = Returned tt) ->
  projectId env = Some project -> project <> "" ->
  getExpoPushTokenAsync env project = Returned token ->
  let w' := exec (registerForPushNotifications env) w in
  result (registerForPushNotifications env) w = Returned (Some token)
  /\ expoPushToken w' = Some token
  /\ exists channels,
      trace w' = trace w
                 ++ [GetPermissions]
                 ++ match s with granted => [] | _ => [RequestPermissions] end
                 ++ channels
                 ++ [GetExpoPushToken project; ConsoleLog "✅ Expo Push Token:"]
      /\ (Platform_OS env = android ->
          (fun e => match e with
                    | SetNotificationChannel c i => Some (c, importance i)
                    | _ => None
                    end) <$> channels
          = [Some ("chat", ImportanceHigh); Some ("appointment", ImportanceHigh);
             Some ("medication", ImportanceHigh); Some ("emergency", ImportanceMax)])
      /\ (Platform_OS env <> android -> channels = []).
Proof.
  intros Hdev Hown Hget Hperm Hchan Hp Hne Htok w'.
  pose proof (no_skip env Hdev Hown) as Hskip.
  apply String.eqb_neq in Hne.
  unfold w', exec, result, registerForPushNotifications. rewrite Hskip.
  unfold createNotificationChannels,
    try_catch, bind, call, console_log, console_warn, console_error, set_expoPushToken,
    modify, ret, throw. simpl.
  rewrite Hget.
  assert (Hcont : s = granted \/ (s <> granted /\ requestPermissionsAsync env = Returned granted)).
  { destruct Hperm as [-> | Hreq]; [left; reflexivity |].
    destruct s; [left; reflexivity | |]; right; (split; [discriminate | exact Hreq]). }
  destruct Hcont as [-> | [Hs Hreq]].
  - destruct (Platform_OS env) eqn:Hos; simpl; rewrite ?Hchan; simpl;
      rewrite Hp, Hne; simpl; rewrite Htok; simpl;
      (split; [reflexivity |]); (split; [reflexivity |]);
      rewrite <- ?app_assoc; simpl; supply_channels;
      (split; [reflexivity |]);
      (split; [intros Ha; try discriminate Ha; reflexivity
              | intros Hna; try reflexivity; now contradiction Hna]).
  - destruct s; [contradiction | |]; simpl; rewrite Hreq; simpl;
      destruct (Platform_OS env) eqn:Hos; simpl; rewrite ?Hchan; simpl;
      rewrite Hp, Hne; simpl; rewrite Htok; simpl;
      (split; [reflexivity |]); (split; [reflexivity |]);
      rewrite <- ?app_assoc; simpl; supply_channels;
      (split; [reflexivity |]);
      (split; [intros Ha; try discriminate Ha; reflexivity
              | intros Hna; try reflexivity; now contradiction Hna]).
Qed.

(** X11 at work: an Android phone with permission granted. *)
Lemma X11_channels_before_token_witness :
  result (registerForPushNotifications (sample_env true 200 (Returned JNull))) (idle None 0)
  = Returned (Some "ExponentPushToken[xyz]")
  /\ length (trace (exec (registerForPushNotifications (sample_env true 200 (Returned JNull)))
                         (idle None 0))) = 7%nat.
Proof.
  destruct (X11_channels_before_token (sample_env true 200 (Returned JNull)) (idle None 0)
              granted "a1b2c3" "ExponentPushToken[xyz]")
    as (Hres & _ & channels & Htrace & Handroid & _);
    try reflexivity; try discriminate; [left; reflexivity |].
  split; [exact Hres |].
  rewrite Htrace. specialize (Handroid eq_refl).
  apply (f_equal length) in Handroid. rewrite length_fmap in Handroid.
  simpl in *. rewrite length_app, Handroid. reflexivity.
Defined.

(** X12. What [registerForPushNotifications] never does, whatever the
    platform answers. It asks for permission only when the permission it
    read was not granted. It creates channels only on Android and only with
    permission granted. It requests a token only with permission granted,
    only for the configured, non-empty project id and, on Android, only
    after all four channels were created: the call for each of the four
    channels stands before the request of the token in the trace. *)
Theorem X12_platform_calls_guarded (env : Env) (w : World) :
  exists new,
    trace (exec (registerForPushNotifications env) w) = trace w ++ new
    /\ (RequestPermissions ∈ new ->
        exists s, getPermissionsAsync env = Returned s /\ s <> granted)
    /\ (forall c i, SetNotificationChannel c i ∈ new ->
        Platform_OS env = android
        /\ (getPermissionsAsync env = Returned granted
            \/ requestPermissionsAsync env = Returned granted))
    /\ (forall p k, new !! k = Some (GetExpoPushToken p) ->
        projectId env = Some p
        /\ p <> ""
        /\ (getPermissionsAsync env = Returned granted
            \/ requestPermissionsAsync env = Returned granted)
        /\ (Platform_OS env = android ->
            forall c, c ∈ ["chat"; "appointment"; "medication"; "emergency"] ->
                      exists j i, (j < k)%nat
                                  /\ new !! j = Some (SetNotificationChannel c i))).
Proof.
  destruct (negb (Device_isDevice env)
            || match Constants_appOwnership env with
               | Some o => String.eqb o "expo"
               | None => false
               end) eqn:Hskip.
  - unfold exec, registerForPushNotifications. rewrite Hskip. simpl.
    eexists. split; [reflexivity |].
    split; [intros H; member_cases H ltac:(fun _ => idtac) |].
    split; [intros c i H; member_cases H ltac:(fun _ => idtac) |].
    intros p k H. index_cases H k ltac:(fun _ => idtac).
  - unfold exec, registerForPushNotifications. rewrite Hskip.
    unfold createNotificationChannels,
      try_catch, bind, call, console_log, console_warn, console_error, set_expoPushToken,
      modify, ret, throw, message_includes.
    simpl. answer_cases; rewrite <- ?app_assoc; simpl;
      eexists; (split; [reflexivity |]);
      (split;
       [intros H; member_cases H ltac:(fun _ => eexists; split; [reflexivity | discriminate])
       |]);
      (split;
       [intros c i H;
        member_cases H
          ltac:(fun _ => split; [reflexivity | first [left; reflexivity | right; reflexivity]])
       |]);
      intros p k H;
      index_cases H k
        ltac:(fun H' =>
                injection H' as ->;
                split; [reflexivity |];
                split; [apply String.eqb_neq; assumption |];
                split; [first [left; reflexivity | right; reflexivity] |];
                let Hos := fresh "Hos" in
                let Hc := fresh "Hc" in
                intros Hos c Hc;
                first [discriminate Hos
                      | repeat (apply elem_of_cons in Hc as [-> | Hc]; [find_before |]);
                        apply elem_of_nil in Hc; contradiction]).
Qed.

End ServiceFacts.

(** * Properties of the senders *)

Section SendFacts.
Import NotificationService.

(** The delay of a reminder is [NaN] for a fire time that is not a date and
    a whole number of seconds, at least 1, for one that is. *)
Lemma delay_floor (fire : Date) (now : Z) :
  match getTime fire with
  | NaN => delay fire now = NaN
  | Num _ => exists n, delay fire now = Num n /\ 1 <= n
  end.
Proof.
  pose proof (delay_cases fire now) as H.
  destruct (getTime fire); [| exact H].
  destruct H as (n & Hn & _ & Hle & _). now exists n.
Qed.

(** Every builder comes down to one call of [scheduleNotification], made
    after at most one reading of the clock. *)
Lemma send_schedule (env : Env) (s : Send) (w : World) :
  undated s = false ->
  exists notificationData trigger w0,
    send env s w = scheduleNotification env notificationData trigger w0
    /\ trace w0 = trace w /\ expoPushToken w0 = expoPushToken w
    /\ type notificationData = send_type s
    /\ opt_get (js_or (data notificationData) (JObj [])) "type"
       = JStr (type_name (send_type s))
    /\ match s with
       | SendChat _ _ _ | SendEmergency _ _ => trigger = None
       | SendAppointment _ appointmentTime minutesBefore =>
           exists seconds,
             trigger = Some (TimeInterval seconds false)
             /\ match getTime (triggerDate appointmentTime
                                 (default (Num 15) minutesBefore)) with
                | NaN => seconds = NaN
                | Num _ => exists n, seconds = Num n /\ 1 <= n
                end
       | SendMedication _ _ time =>
           exists seconds,
             trigger = Some (TimeInterval seconds false)
             /\ match getTime time with
                | NaN => seconds = NaN
                | Num _ => exists n, seconds = Num n /\ 1 <= n
                end
       | ScheduleDaily _ _ hour minute => trigger = Some (Calendar hour minute true)
       end
    /\ match s with
       | SendChat _ _ conversationId =>
           opt_get (js_or (data notificationData) (JObj [])) "conversationId"
           = JStr conversationId
       | _ => True
       end.
Proof.
  intros Hdated. destruct s; cbn [send send_type undated] in *.
  - do 3 eexists. split; [reflexivity |]. repeat split; reflexivity.
  - unfold sendAppointmentNotification, Date_toISOString.
    destruct (getTime appointmentTime) as [t |] eqn:Htime; [| discriminate Hdated].
    do 3 eexists.
    split; [do 2 (erewrite bind_Returned by reflexivity); reflexivity |].
    do 4 (split; [reflexivity |]).
    split; [| exact I].
    eexists. split; [reflexivity |]. apply delay_floor.
  - unfold sendMedicationNotification.
    do 3 eexists. split; [erewrite bind_Returned by reflexivity; reflexivity |].
    do 4 (split; [reflexivity |]).
    split; [| exact I].
    eexists. split; [reflexivity |]. apply delay_floor.
  - do 3 eexists. split; [reflexivity |]. repeat split; reflexivity.
  - unfold sendEmergencyNotification.
    do 3 eexists. split; [erewrite bind_Returned by reflexivity; reflexivity |].
    repeat split; reflexivity.
Qed.

(** [sendAppointmentNotification] with an invalid date throws where it
    writes the date out, before [scheduleNotification] is called. *)
Lemma send_undated (env : Env) (s : Send) (w : World) :
  undated s = true ->
  exists e w0,
    send env s w = (Thrown e, w0)
    /\ trace w0 = trace w /\ expoPushToken w0 = expoPushToken w.
Proof.
  intros Hundated. destruct s; try discriminate Hundated. cbn [send undated] in *.
  unfold sendAppointmentNotification, Date_toISOString.
  destruct (getTime appointmentTime); [discriminate Hundated |].
  unfold bind, throw, Date_now.
  do 2 eexists. split; [reflexivity | split; reflexivity].
Qed.

(** X13. Each of the five builders ([sendChatNotification],
    [sendAppointmentNotification], [sendMedicationNotification],
    [scheduleDailyMedication], [sendEmergencyNotification]) makes at most
    one call of the platform and leaves the cached token as it is.
    [sendAppointmentNotification] throws, before any call of the platform,
    when its appointment time is an invalid date. Every other call returns
    after exactly one call of the platform: it returns the identifier the
    platform answered, or [null] after one line on the error console when
    the platform rejected. The request carries the default sound, the
    builder's category as the [type] of its payload and, on Android only,
    as its channel; its priority is maximal for the emergency alert and for
    no other; chat and emergency are immediate; the two reminders fire once,
    after a whole number of seconds that is at least one when their fire
    time is a valid date, and after [NaN] seconds when it is not; the daily
    reminder repeats at the given hour and minute. *)
Theorem X13_send_one_request (env : Env) (s : Send) (w : World) :
  let w' := exec (send env s) w in
  let once (request : NotificationRequestInput) (fire : Date) :=
    exists seconds,
      trigger request = Some (TimeInterval seconds false)
      /\ match getTime fire with
         | NaN => seconds = NaN
         | Num _ => exists n, seconds = Num n /\ 1 <= n
         end in
  (undated s = true ->
   (exists e, result (send env s) w = Thrown e)
   /\ trace w' = trace w
   /\ expoPushToken w' = expoPushToken w)
  /\ (undated s = false ->
      exists request,
        trace w'
        = trace w ++ ScheduleNotification request
                     :: match scheduleNotificationAsync env request with
                        | Returned _ => []
                        | Thrown _ => [ConsoleError "Error scheduling notification:"]
                        end
        /\ result (send env s) w
           = Returned match scheduleNotificationAsync env request with
                      | Returned notificationId => Some notificationId
                      | Thrown _ => None
                      end
        /\ expoPushToken w' = expoPushToken w
        /\ sound (content request) = "default"
        /\ opt_get (content_data (content request)) "type"
           = JStr (type_name (send_type s))
        /\ channelId (content request)
           = match Platform_OS env with
             | android => Some (type_name (send_type s))
             | _ => None
             end
        /\ (priority (content request) = PriorityMax <-> send_type s = emergency)
        /\ match s with
           | SendChat _ _ _ | SendEmergency _ _ => trigger request = None
           | SendAppointment _ appointmentTime minutesBefore =>
               once request (triggerDate appointmentTime (default (Num 15) minutesBefore))
           | SendMedication _ _ time => once request time
           | ScheduleDaily _ _ hour minute =>
               trigger request = Some (Calendar hour minute true)
           end).
Proof.
  intros w' once. unfold w', once, exec, result. split.
  - intros Hundated.
    destruct (send_undated env s w Hundated) as (e & w0 & -> & Htrace & Htoken).
    split; [now exists e |]. split; assumption.
  - intros Hdated.
    destruct (send_schedule env s w Hdated)
      as (d & t & w0 & -> & Htrace & Htoken & Htype & Htag & Htrig & _).
    rewrite scheduleNotification_run. cbv zeta.
    exists (request_of env d t).
    destruct (scheduleNotificationAsync env (request_of env d t)) as [notificationId | e];
      simpl; rewrite Htrace, Htoken, Htype;
      (split; [now rewrite <- ?app_assoc |]);
      (split; [reflexivity |]); (split; [reflexivity |]); (split; [reflexivity |]);
      (split; [exact Htag |]); (split; [reflexivity |]);
      (split; [destruct (send_type s); split; try discriminate; reflexivity |]);
      exact Htrig.
Qed.

End SendFacts.

(** * The service as its callers see it *)

Section CallersLemmas.
Import NotificationService Callers.

(** What a registration leaves behind: the token it returns is the token
    it caches, the clock is not read, and the effects are those of the
    registration only. The answer and the effects depend on the platform,
    not on the instance the registration starts from. *)
Lemma registration_any (env : Env) (w v : World) :
  exists r new,
    registerForPushNotifications env w
    = (Returned r,
       {| expoPushToken := match r with
                           | Some t => Some t
                           | None => expoPushToken w
                           end;
          clock := clock w; reads := reads w; trace := trace w ++ new |})
    /\ registerForPushNotifications env v
       = (Returned r,
          {| expoPushToken := match r with
                              | Some t => Some t
                              | None => expoPushToken v
                              end;
             clock := clock v; reads := reads v; trace := trace v ++ new |})
    /\ (forall url init, Fetch url init ∉ new)
    /\ (ReadJson ∉ new)
    /\ (forall msg, ConsoleLog msg ∈ new ->
        msg = "Must use physical device for Push Notifications"
        \/ msg = "Failed to get push token for push notification!"
        \/ msg = "✅ Expo Push Token:")
    /\ (forall msg, ConsoleError msg ∈ new -> msg = "❌ Error getting push token:").
Proof.
  destruct (negb (Device_isDevice env)
            || match Constants_appOwnership env with
               | Some o => String.eqb o "expo"
               | None => false
               end) eqn:Hskip.
  - unfold registerForPushNotifications. rewrite Hskip.
    exists None. eexists. split; [reflexivity |]. split; [reflexivity |].
    split; [intros url init H; member_cases H ltac:(fun _ => idtac) |].
    split; [intros H; member_cases H ltac:(fun _ => idtac) |].
    split; intros msg H;
      member_cases H ltac:(fun H' => injection H' as <-; left; reflexivity).
  - unfold registerForPushNotifications. rewrite Hskip.
    unfold createNotificationChannels,
      try_catch, bind, call, console_log, console_warn, console_error, set_expoPushToken,
      modify, ret, throw, message_includes, emit.
    simpl. answer_cases; rewrite <- ?app_assoc; simpl;
      match goal with
      | |- context [(Returned ?r, ?u)] =>
          exists r; eexists; split; [reflexivity |]; split; [reflexivity |]
      end;
      (split; [intros url init H; member_cases H ltac:(fun _ => idtac) |]);
      (split; [intros H; member_cases H ltac:(fun _ => idtac) |]);
      (split; intros msg H;
       member_cases H
         ltac:(fun H' => injection H' as <-;
                         first [reflexivity | left; reflexivity | right; left; reflexivity
                               | right; right; reflexivity])).
Qed.


(** The answer of a registration is the same from every instance. *)
Lemma registration_result (env : Env) (w v : World) :
  result (registerForPushNotifications env) w
  = result (registerForPushNotifications env) v.
Proof.
  unfold result. destruct (registration_any env w v) as (r & new & -> & -> & _).
  reflexivity.
Qed.


End CallersLemmas.

(** * Properties of the callers of the service *)

Section CallersFacts.
Import NotificationService Callers.





End CallersFacts.

(** * Where a tapped notification leads *)

Section RoutingFacts.
Import NotificationService Callers.

Lemma strict_eq_str (t : JSValue) (s : string) :
  strict_eq t (JStr s) = true -> t = JStr s.
Proof.
  destruct t; simpl; try discriminate. intros H. apply String.eqb_eq in H. now subst.
Qed.

(** The two routers on one tag. *)
Lemma routers_on_tag (t : JSValue) :
  (if truthy t then
     if strict_eq t (JStr "chat") then Some "Chat"
     else if strict_eq t (JStr "appointment") then Some "Home"
     else if strict_eq t (JStr "medication") then Some "Medications"
     else if strict_eq t (JStr "emergency") then Some "Maps"
     else None
   else None)
  = if strict_eq (js_or t (JStr "other")) (JStr "prescription") then None
    else HistoryScreen.destination (js_or t (JStr "other")).
Proof.
  unfold js_or, HistoryScreen.destination.
  destruct (truthy t) eqn:Htruthy; [| reflexivity].
  destruct (strict_eq t (JStr "chat")) eqn:H1;
    [apply strict_eq_str in H1; subst; reflexivity |].
  destruct (strict_eq t (JStr "appointment")) eqn:H2;
    [apply strict_eq_str in H2; subst; reflexivity |].
  destruct (strict_eq t (JStr "medication")) eqn:H3;
    [apply strict_eq_str in H3; subst; reflexivity |].
  destruct (strict_eq t (JStr "emergency")) eqn:H4;
    [apply strict_eq_str in H4; subst; reflexivity |].
  destruct (strict_eq t (JStr "prescription")); reflexivity.
Qed.

(** X18. The two places that route a tapped notification, on one and the
    same notification: the listener of [App] reads the [type] of the
    payload, the history screen the [type] of the record it stored. While
    the navigation container is not mounted the listener of [App] does
    nothing. Once it is mounted, a payload that is [null] or [undefined]
    makes the listener throw, where the history screen stores the category
    [other] and navigates nowhere; on every other payload the listener
    navigates exactly where the history screen does, except for the
    category [prescription], which the history screen sends to Medications
    and the listener ignores. *)
Theorem X18_tap_routers (notification : HistoryScreen.Notification) (now : Z) :
  let data :=
    HistoryScreen.content_data (HistoryScreen.content (HistoryScreen.request notification)) in
  let record := HistoryScreen.newNotif notification now in
  onNotificationResponse false data = Returned None
  /\ match data with
     | JNull | JUndefined =>
         (exists e, onNotificationResponse true data = Thrown e)
         /\ HistoryScreen.type record = JStr "other"
         /\ HistoryScreen.destination (HistoryScreen.type record) = None
     | _ =>
         onNotificationResponse true data
         = Returned (if strict_eq (HistoryScreen.type record) (JStr "prescription")
                     then None
                     else HistoryScreen.destination (HistoryScreen.type record))
     end
  /\ (HistoryScreen.type record = JStr "prescription" ->
      HistoryScreen.destination (HistoryScreen.type record) = Some "Medications").
Proof.
  intros data record. split; [reflexivity |]. split.
  - unfold record, HistoryScreen.newNotif. fold data. simpl.
    unfold onNotificationResponse, opt_get.
    destruct data; simpl; try (split; [eexists; reflexivity | split; reflexivity]);
      try reflexivity.
    rewrite <- routers_on_tag. destruct (truthy (assoc "type" fields)); reflexivity.
  - intros ->. reflexivity.
Qed.

(** X14. Where a notification of the service leads. Whatever one of the
    five builders schedules, a notification that carries the payload of the
    request is stored by the history screen under the builder's category,
    which is one of the categories the screen knows; tapping it leads to
    the same tab from the history screen and from the listener of [App]:
    Chat for a chat message, Home for an appointment, Medications for a
    medication reminder, Maps for an emergency. A chat message carries its
    conversation, which is what the history screen deduplicates on. *)
Theorem X14_sent_notifications_route (env : Env) (s : Send) (w : World)
  (request : NotificationRequestInput) (rest : list Event)
  (notification : HistoryScreen.Notification) (now : Z) :
  trace (exec (send env s) w) = trace w ++ ScheduleNotification request :: rest ->
  HistoryScreen.content_data (HistoryScreen.content (HistoryScreen.request notification))
  = content_data (content request) ->
  let record := HistoryScreen.newNotif notification now in
  let screen := match send_type s with
                | chat => "Chat"
                | appointment => "Home"
                | medication => "Medications"
                | emergency => "Maps"
                end in
  HistoryScreen.type record = JStr (type_name (send_type s))
  /\ HistoryScreen.recognized (HistoryScreen.type record) = true
  /\ HistoryScreen.destination (HistoryScreen.type record) = Some screen
  /\ onNotificationResponse true (content_data (content request)) = Returned (Some screen)
  /\ match s with
     | SendChat _ _ conversationId =>
         HistoryScreen.conversation_of notification = JStr conversationId
     | _ => True
     end.
Proof.
  intros Htrace Hdata record screen.
  assert (Hdated : undated s = false).
  { destruct (undated s) eqn:Hundated; [exfalso | reflexivity].
    destruct (send_undated env s w Hundated) as (e & w0 & Hsend & Hw0 & _).
    unfold exec in Htrace. rewrite Hsend in Htrace. simpl in Htrace. rewrite Hw0 in Htrace.
    apply (f_equal length) in Htrace. rewrite length_app in Htrace. simpl in Htrace. lia. }
  destruct (send_schedule env s w Hdated)
    as (d & t & w0 & Hsend & Hw0 & _ & Htype & Htag & _ & Hconv).
  unfold exec in Htrace. rewrite Hsend, scheduleNotification_run in Htrace. cbv zeta in Htrace.
  assert (Hrequest : request = request_of env d t).
  { destruct (scheduleNotificationAsync env (request_of env d t)); simpl in Htrace;
      rewrite Hw0, <- ?app_assoc in Htrace; apply app_inv_head in Htrace;
      simpl in Htrace; now injection Htrace. }
  assert (Hpayload : content_data (content request) = js_or (data d) (JObj []))
    by (rewrite Hrequest; reflexivity).
  rewrite <- Hpayload in Htag, Hconv.
  assert (Hrecord : HistoryScreen.type record = JStr (type_name (send_type s))).
  { unfold record, HistoryScreen.newNotif. simpl. rewrite Hdata, Htag.
    destruct (send_type s); reflexivity. }
  split; [exact Hrecord |]. rewrite Hrecord.
  split; [destruct (send_type s); reflexivity |].
  split; [destruct (send_type s); reflexivity |].
  split.
  - unfold onNotificationResponse. unfold opt_get in Htag.
    destruct (get (content_data (content request)) "type") as [tag |];
      [| discriminate Htag].
    rewrite Htag. unfold screen. destruct (send_type s); reflexivity.
  - destruct s; try exact I.
    unfold HistoryScreen.conversation_of. rewrite Hdata. exact Hconv.
Qed.

(** X14 at work: a chat message sent on an Android phone. *)
Lemma X14_sent_notifications_route_witness :
  let env := sample_env true 200 (Returned JNull) in
  let notification := HistoryScreen.sample_notification "notification-1" "Hello" "chat" "c1" in
  HistoryScreen.destination (HistoryScreen.type (HistoryScreen.newNotif notification 0))
  = Some "Chat"
  /\ HistoryScreen.conversation_of notification = JStr "c1".
Proof.
  intros env notification.
  destruct (X14_sent_notifications_route env (SendChat "Ana" "Hello" "c1") (idle None 0)
              (request_of env
                 {| type := chat; title := "Ana"; body := "Hello";
                    data := JObj [("type", JStr "chat"); ("conversationId", JStr "c1")] |}
                 None)
              [] notification 0)
    as (_ & _ & Hdest & _ & Hconv); [reflexivity | reflexivity |].
  exact (conj Hdest Hconv).
Defined.

End RoutingFacts.

(** * Reminders of a medication *)

Section ReminderFacts.
Import NotificationService Callers.

(** One daily reminder, as the screen sees it: one request to the
    platform, and one line on the error console when it is rejected. *)
Lemma daily_lift (env : Env) (medicationName dosage : string) (hour : Z) (s : Screen) :
  exists r rest,
    lift (scheduleDailyMedication env medicationName dosage hour 0) s
    = (Returned r,
       {| service :=
            {| expoPushToken := expoPushToken (service s);
               clock := clock (service s);
               reads := reads (service s);
               trace := trace (service s)
                        ++ ScheduleNotification
                             (request_of env (medication_data medicationName dosage)
                                (Some (Calendar hour 0 true)))
                           :: rest |};
          alerts := alerts s |})
    /\ (rest = [] \/ rest = [ConsoleError "Error scheduling notification:"]).
Proof.
  unfold lift, scheduleDailyMedication. rewrite scheduleNotification_run. cbv zeta.
  destruct (scheduleNotificationAsync env _); unfold emit; simpl;
    rewrite <- ?app_assoc; simpl; do 2 eexists; (split; [reflexivity |]); auto.
Qed.

Ltac daily_step :=
  match goal with
  | |- context [lift (scheduleDailyMedication ?e ?n ?d ?h 0) ?s] =>
      let r := fresh "r" in
      let rest := fresh "rest" in
      destruct (daily_lift e n d h s) as (r & rest & -> & [-> | ->]); simpl
  end.

(** X19. [scheduleMedicationReminder] (medications screen) always returns
    and never reaches its [catch]. It asks the platform for daily
    reminders of the medication at 9:00 when the frequency, letter case
    apart, contains [once]; else at 9:00 and 21:00 when it contains
    [twice]; else at 8:00, 14:00 and 20:00 when it contains [three]; else
    for none. In every case, also when no reminder was asked for or the
    platform rejected every request, it ends by showing the alert
    [Reminder Set]. *)
Theorem X19_reminders_by_frequency (env : Env) (medication : Medication) (s : Screen) :
  let frequency := toLowerCase (frequency medication) in
  let hours :=
    if includes "once" frequency then [9]
    else if includes "twice" frequency then [9; 21]
    else if includes "three" frequency then [8; 14; 20]
    else [] in
  let reminder (hour : Z) :=
    request_of env (medication_data (medication_name medication) (dosage medication))
      (Some (Calendar hour 0 true)) in
  let s' := exec (scheduleMedicationReminder env medication) s in
  result (scheduleMedicationReminder env medication) s = Returned tt
  /\ alerts s'
     = alerts s ++ [("Reminder Set", "You will receive notifications for this medication")]
  /\ expoPushToken (service s') = expoPushToken (service s)
  /\ exists new,
      trace (service s') = trace (service s) ++ new
      /\ omap (fun e => match e with
                        | ScheduleNotification request => Some request
                        | _ => None
                        end) new
         = reminder <$> hours
      /\ (ConsoleError "Error scheduling reminder:" ∉ new).
Proof.
  intros frequency hours reminder s'.
  unfold s', hours, exec, result, scheduleMedicationReminder, try_catch, bind.
  fold frequency.
  destruct (includes "once" frequency);
    [| destruct (includes "twice" frequency);
       [| destruct (includes "three" frequency)]];
    repeat daily_step; unfold Alert_alert, modify, ret; simpl;
    (split; [reflexivity |]); (split; [reflexivity |]); (split; [reflexivity |]);
    rewrite <- ?app_assoc; simpl;
    first [ eexists; split; [reflexivity |]
          | exists []; split; [now rewrite app_nil_r |] ];
    (split; [reflexivity |]);
    intros H; member_cases H ltac:(fun _ => idtac).
Qed.

End ReminderFacts.
